(** * GEO audit: a shallow embedding of [geo_audit/analyzer.py]

    The analyzer turns an article (HTML body, meta description, title) into
    ten boolean verdicts, a score and a list of recommendations.  This file
    embeds the analyzer in Rocq and proves properties of it.

    Layout of the embedding:
    - Python [str] values are sequences of Unicode code points: [text].
    - The character tables Python consults ([str.isalnum], [str.lower], the
      [re] categories) are written out for the Basic Latin, Latin-1,
      Latin Extended-A and General Punctuation blocks, which cover every
      literal of the analyzer; for the other code points they are the
      fields of a [unicode_db] the development is parametric in.
    - The [re] module is a backtracking matcher over a small regex syntax.
    - A BeautifulSoup document is a tree of tags and strings; the parser
      [BeautifulSoup(html, "html.parser")] is a parameter.
    - Exceptions are an error monad [exc]. *)

From Stdlib Require Import List Bool Arith NArith ZArith Lia String Ascii.
From Stdlib.Strings Require Byte.
Import ListNotations.

Set Implicit Arguments.

(** ** Text *)

Definition text := list N.

(** UTF-8 decoding of a Rocq string literal, so that the literals of the
    source can be written as they are. *)
Fixpoint utf8_go (need : nat) (acc : N) (bs : list N) : text :=
  match bs with
  | [] => []
  | b :: tl =>
      match need with
      | O =>
          if (b <? 0x80)%N then b :: utf8_go 0 0 tl
          else if (b <? 0xE0)%N then utf8_go 1 (b - 0xC0) tl
          else if (b <? 0xF0)%N then utf8_go 2 (b - 0xE0) tl
          else utf8_go 3 (b - 0xF0) tl
      | S n =>
          let acc' := (acc * 64 + (b - 0x80))%N in
          match n with
          | O => acc' :: utf8_go 0 0 tl
          | S _ => utf8_go n acc' tl
          end
      end
  end.

Definition U (s : string) : text :=
  utf8_go 0 0 (map N_of_ascii (list_ascii_of_string s)).

Definition text_eqb (a b : text) : bool :=
  if list_eq_dec N.eq_dec a b then true else false.

(** ** Character tables *)

Definition in_range (lo hi c : N) : bool := ((lo <=? c) && (c <=? hi))%N.

(** The part of the Unicode character database the analyzer reaches through
    [str] methods and [re], for the code points outside the blocks that are
    written out below. *)
Record unicode_db := {
  ucd_alnum : N -> bool;     (* str.isalnum *)
  ucd_decimal : N -> bool;   (* category Nd, the [\d] of re *)
  ucd_cased : N -> bool;     (* _sre.unicode_iscased *)
  ucd_tolower : N -> N;      (* simple lowercase mapping, used by re *)
  ucd_lower : N -> text;     (* full lowercase mapping, used by str.lower *)
  ucd_cased_property : N -> bool;  (* property Cased, used by str.lower *)
  ucd_case_ignorable : N -> bool   (* property Case_Ignorable, likewise *)
}.

(** Whitespace: [str.isspace], which is also the [\s] of re on [str]. *)
Definition is_space (c : N) : bool :=
  in_range 0x09 0x0D c || in_range 0x1C 0x20 c || (c =? 0x85)%N
  || (c =? 0xA0)%N || (c =? 0x1680)%N || in_range 0x2000 0x200A c
  || in_range 0x2028 0x2029 c || (c =? 0x202F)%N || (c =? 0x205F)%N
  || (c =? 0x3000)%N.

Definition latin_alnum (c : N) : bool :=
  in_range 0x30 0x39 c || in_range 0x41 0x5A c || in_range 0x61 0x7A c
  || (c =? 0xAA)%N || in_range 0xB2 0xB3 c || (c =? 0xB5)%N
  || in_range 0xB9 0xBA c || in_range 0xBC 0xBE c || in_range 0xC0 0xD6 c
  || in_range 0xD8 0xF6 c || in_range 0xF8 0x17F c.

Definition latin_cased (c : N) : bool :=
  in_range 0x41 0x5A c || in_range 0x61 0x7A c || (c =? 0xB5)%N
  || in_range 0xC0 0xD6 c || in_range 0xD8 0xF6 c || in_range 0xF8 0x137 c
  || in_range 0x139 0x17F c.

Definition latin_tolower (c : N) : N :=
  if in_range 0x41 0x5A c || in_range 0xC0 0xD6 c || in_range 0xD8 0xDE c
  then (c + 32)%N
  else if (c =? 0x130)%N then 0x69%N
  else if (c =? 0x178)%N then 0xFF%N
  else if (in_range 0x100 0x12F c || in_range 0x132 0x137 c
           || in_range 0x14A 0x177 c) && N.even c
  then (c + 1)%N
  else if (in_range 0x139 0x148 c || in_range 0x179 0x17E c) && N.odd c
  then (c + 1)%N
  else c.

(** The properties Cased and Case_Ignorable, which [str.lower] consults
    around a capital sigma. *)
Definition latin_cased_property (c : N) : bool :=
  in_range 0x41 0x5A c || in_range 0x61 0x7A c || (c =? 0xAA)%N
  || (c =? 0xB5)%N || (c =? 0xBA)%N || in_range 0xC0 0xD6 c
  || in_range 0xD8 0xF6 c || in_range 0xF8 0x17F c.

Definition latin_case_ignorable (c : N) : bool :=
  (c =? 0x27)%N || (c =? 0x2E)%N || (c =? 0x3A)%N || (c =? 0x5E)%N
  || (c =? 0x60)%N || (c =? 0xA8)%N || (c =? 0xAD)%N || (c =? 0xAF)%N
  || (c =? 0xB4)%N || in_range 0xB7 0xB8 c || in_range 0x200B 0x200F c
  || in_range 0x2018 0x2019 c || (c =? 0x2024)%N || (c =? 0x2027)%N
  || in_range 0x202A 0x202E c || in_range 0x2060 0x2064 c
  || in_range 0x2066 0x206F c.

Section Unicode.
Variable ucd : unicode_db.

(** Basic Latin to Latin Extended-A, and General Punctuation (which has
    no alphanumeric and no cased character). *)
Definition tabled (c : N) : bool :=
  (c <? 0x180)%N || in_range 0x2000 0x206F c.

Definition is_alnum (c : N) : bool :=
  if tabled c then latin_alnum c else ucd_alnum ucd c.

(** [\w] with re.UNICODE: alphanumeric or underscore. *)
Definition is_word (c : N) : bool := is_alnum c || (c =? 0x5F)%N.

(** [\d] with re.UNICODE. *)
Definition is_decimal (c : N) : bool :=
  if tabled c then in_range 0x30 0x39 c else ucd_decimal ucd c.

Definition is_cased (c : N) : bool :=
  if tabled c then latin_cased c else ucd_cased ucd c.

(** The lowercase of re.IGNORECASE: one code point to one code point. *)
Definition re_lower (c : N) : N :=
  if tabled c then latin_tolower c else ucd_tolower ucd c.

(** [str.lower]: U+0130 lowers to two code points. *)
Definition lower_cp (c : N) : text :=
  if tabled c
  then (if (c =? 0x130)%N then [0x69; 0x307]%N else [latin_tolower c])
  else ucd_lower ucd c.

Definition has_cased_property (c : N) : bool :=
  if tabled c then latin_cased_property c else ucd_cased_property ucd c.

Definition is_case_ignorable (c : N) : bool :=
  if tabled c then latin_case_ignorable c else ucd_case_ignorable ucd c.

(** The first character of [s] that is not case-ignorable. *)
Fixpoint skip_ignorable (s : text) : option N :=
  match s with
  | [] => None
  | c :: tl => if is_case_ignorable c then skip_ignorable tl else Some c
  end.

(** A capital sigma is final when a cased character comes before it and
    none comes after it, case-ignorable characters aside; [before] is the
    text before the sigma, last character first. *)
Definition final_sigma (before after : text) : bool :=
  match skip_ignorable before with
  | Some c =>
      has_cased_property c
      && match skip_ignorable after with
         | Some d => negb (has_cased_property d)
         | None => true
         end
  | None => false
  end.

Fixpoint lower_from (before s : text) : text :=
  match s with
  | [] => []
  | c :: tl =>
      (if (c =? 0x3A3)%N
       then [if final_sigma before tl then 0x3C2%N else 0x3C3%N]
       else lower_cp c)
      ++ lower_from (c :: before) tl
  end.

(** [str.lower]: code point by code point, but for the capital sigma
    U+03A3, which lowers to U+03C2 at the end of a word and to U+03C3
    elsewhere. *)
Definition str_lower (s : text) : text := lower_from [] s.
End Unicode.

(** ** String operations *)

Fixpoint lstrip (s : text) : text :=
  match s with
  | c :: tl => if is_space c then lstrip tl else s
  | [] => []
  end.

Definition rstrip (s : text) : text := rev (lstrip (rev s)).

(** [s.strip()] *)
Definition strip (s : text) : text := rstrip (lstrip s).

Fixpoint startswith (p s : text) : bool :=
  match p, s with
  | [], _ => true
  | a :: p', b :: s' => (a =? b)%N && startswith p' s'
  | _ :: _, [] => false
  end.

Definition endswith (p s : text) : bool := startswith (rev p) (rev s).

(** [p in s] on strings *)
Fixpoint contains (p s : text) : bool :=
  startswith p s ||
  match s with
  | [] => false
  | _ :: tl => contains p tl
  end.

(** [sep.join(parts)] *)
Fixpoint join (sep : text) (parts : list text) : text :=
  match parts with
  | [] => []
  | [p] => p
  | p :: tl => p ++ sep ++ join sep tl
  end.

(** [s[a:b]] for [0 <= a <= b] *)
Definition substr (a b : nat) (s : text) : text := firstn (b - a) (skipn a s).

(** ** Regular expressions: the fragment of [re] the analyzer uses

    Patterns are matched by backtracking, in the order Python tries the
    alternatives: greedy repetition first, the alternatives of [|] from the
    left.  Repetition is over one-character atoms, which is all the
    analyzer's patterns need. *)

Inductive citem :=
| CLit (c : N)
| CRange (lo hi : N)
| CDigit
| CWord
| CSpace.

Inductive atom :=
| ALit (c : N)
| ASet (items : list citem).

Inductive regex :=
| Eps
| At (a : atom)
| Seq (r1 r2 : regex)
| Alt (r1 r2 : regex)
| Opt (r : regex)                 (* r?   *)
| Rep (min : nat) (a : atom)      (* a{min,}, so a+ is [Rep 1 a] *)
| Group (g : nat) (r : regex)     (* capturing group number g *)
| WordB                           (* \b   *)
| Behind (a : atom).              (* (?<=a) *)

Definition caps := list (nat * (nat * nat)).

Record rematch := { m_start : nat; m_end : nat; m_groups : caps }.

Definition N_range (lo hi : N) : list N :=
  map (fun k => (lo + N.of_nat k)%N) (seq 0 (N.to_nat (hi + 1 - lo))).

(** The case equivalences of re that involve a code point below U+0180:
    i and dotless i, s and long s, the micro sign and mu. *)
Definition case_fix (lo l : N) : bool :=
  ((lo =? 0x69) && (l =? 0x131) || (lo =? 0x131) && (l =? 0x69)
   || (lo =? 0x73) && (l =? 0x17F) || (lo =? 0x17F) && (l =? 0x73)
   || (lo =? 0xB5) && (l =? 0x3BC) || (lo =? 0x3BC) && (l =? 0xB5))%N.

Section Regex.
Variable ucd : unicode_db.

(** Matching one character against a literal of the pattern when
    re.IGNORECASE is set: both are lowered, with the case equivalences. *)
Definition lit_ic (c ch : N) : bool :=
  let lo := re_lower ucd c in
  let l := re_lower ucd ch in
  (l =? lo)%N || case_fix lo l.

Definition citem_cased (i : citem) : bool :=
  match i with
  | CLit c => is_cased ucd c
  | CRange lo hi => existsb (is_cased ucd) (N_range lo hi)
  | _ => false
  end.

Definition citem_plain (i : citem) (ch : N) : bool :=
  match i with
  | CLit c => (ch =? c)%N
  | CRange lo hi => in_range lo hi ch
  | CDigit => is_decimal ucd ch
  | CWord => is_word ucd ch
  | CSpace => is_space ch
  end.

(** A set that holds a cased character is compared after lowering. *)
Definition citem_ic (i : citem) (ch : N) : bool :=
  match i with
  | CLit c => lit_ic c ch
  | CRange lo hi => existsb (fun c => lit_ic c ch) (N_range lo hi)
  | _ => citem_plain i (re_lower ucd ch)
  end.

Definition atom_match (ic : bool) (a : atom) (ch : N) : bool :=
  match a with
  | ALit c => if ic && is_cased ucd c then lit_ic c ch else (ch =? c)%N
  | ASet items =>
      if ic && existsb citem_cased items
      then existsb (fun i => citem_ic i ch) items
      else existsb (fun i => citem_plain i ch) items
  end.

Definition word_at (c : option N) : bool :=
  match c with
  | Some ch => is_word ucd ch
  | None => false
  end.

Section Matcher.
Variable ic : bool.
Variable R : Type.

(** A continuation receives the character before the cursor, the
    position of the cursor, what is left of the subject and the groups
    captured so far. *)
Definition cont := option N -> nat -> text -> caps -> option R.

Fixpoint rep_greedy (a : atom) (min : nat) (prev : option N) (pos : nat)
    (rest : text) (cs : caps) (k : cont) {struct rest} : option R :=
  let stop := match min with
              | O => k prev pos rest cs
              | S _ => None
              end in
  match rest with
  | ch :: tl =>
      if atom_match ic a ch
      then match rep_greedy a (pred min) (Some ch) (S pos) tl cs k with
           | Some r => Some r
           | None => stop
           end
      else stop
  | [] => stop
  end.

Fixpoint rmatch (r : regex) (prev : option N) (pos : nat) (rest : text)
    (cs : caps) (k : cont) {struct r} : option R :=
  match r with
  | Eps => k prev pos rest cs
  | At a =>
      match rest with
      | ch :: tl =>
          if atom_match ic a ch then k (Some ch) (S pos) tl cs else None
      | [] => None
      end
  | Seq r1 r2 =>
      rmatch r1 prev pos rest cs
        (fun prev' pos' rest' cs' => rmatch r2 prev' pos' rest' cs' k)
  | Alt r1 r2 =>
      match rmatch r1 prev pos rest cs k with
      | Some x => Some x
      | None => rmatch r2 prev pos rest cs k
      end
  | Opt r1 =>
      match rmatch r1 prev pos rest cs k with
      | Some x => Some x
      | None => k prev pos rest cs
      end
  | Rep min a => rep_greedy a min prev pos rest cs k
  | Group g r1 =>
      rmatch r1 prev pos rest cs
        (fun prev' pos' rest' cs' =>
           k prev' pos' rest' ((g, (pos, pos')) :: cs'))
  | WordB =>
      if xorb (word_at prev) (word_at (hd_error rest))
      then k prev pos rest cs
      else None
  | Behind a =>
      match prev with
      | Some ch => if atom_match ic a ch then k prev pos rest cs else None
      | None => None
      end
  end.
End Matcher.

(** A match that starts exactly at the cursor. *)
Definition match_at (ic : bool) (r : regex) (prev : option N) (pos : nat)
    (rest : text) : option rematch :=
  rmatch ic r prev pos rest []
    (fun _ e _ cs => Some {| m_start := pos; m_end := e; m_groups := cs |}).

(** All matches from left to right, none overlapping another: after a
    match the scan resumes at its end ([skip] counts the characters still
    to step over).  No pattern of the analyzer matches the empty string, so
    the rule of re for what follows an empty match is left out: after one
    the scan moves on by a character. *)
Fixpoint scan (ic : bool) (r : regex) (prev : option N) (pos : nat)
    (rest : text) (skip : nat) {struct rest} : list rematch :=
  match skip with
  | S k =>
      match rest with
      | ch :: tl => scan ic r (Some ch) (S pos) tl k
      | [] => []
      end
  | O =>
      match match_at ic r prev pos rest with
      | Some m =>
          m :: match rest with
               | ch :: tl =>
                   scan ic r (Some ch) (S pos) tl (m_end m - pos - 1)
               | [] => []
               end
      | None =>
          match rest with
          | ch :: tl => scan ic r (Some ch) (S pos) tl 0
          | [] => []
          end
      end
  end.

(** [pattern.finditer(s)] *)
Definition finditer (ic : bool) (r : regex) (s : text) : list rematch :=
  scan ic r None 0 s 0.

(** [pattern.search(s)] *)
Definition search (ic : bool) (r : regex) (s : text) : option rematch :=
  hd_error (finditer ic r s).
End Regex.

(** [m.group(0)] *)
Definition group0 (s : text) (m : rematch) : text :=
  substr (m_start m) (m_end m) s.

Fixpoint cap_lookup (g : nat) (cs : caps) : option (nat * nat) :=
  match cs with
  | [] => None
  | (h, span) :: tl => if Nat.eqb h g then Some span else cap_lookup g tl
  end.

(** [m.group(g) or ""] *)
Definition group (s : text) (g : nat) (m : rematch) : text :=
  match cap_lookup g (m_groups m) with
  | Some (a, b) => substr a b s
  | None => []
  end.

(** Pattern syntax helpers *)
Definition lit (s : text) : regex :=
  fold_right (fun c r => Seq (At (ALit c)) r) Eps s.

Definition seqs (rs : list regex) : regex := fold_right Seq Eps rs.

Fixpoint alts (rs : list regex) : regex :=
  match rs with
  | [] => Eps
  | [r] => r
  | r :: tl => Alt r (alts tl)
  end.

Definition digits1 : regex := Rep 1 (ASet [CDigit]).
Definition spaces1 : regex := Rep 1 (ASet [CSpace]).

(** ** Constants and patterns of the analyzer *)

Open Scope string_scope.

(** WORD_RE = [\b\w+\b], re.UNICODE *)
Definition WORD_RE : regex := seqs [WordB; Rep 1 (ASet [CWord]); WordB].

Definition UNIT_TOKENS : list text :=
  map U ["mg"; "g"; "kg"; "%"; "kcal"; "ml"; "mcg"; "gramov"; "miligramov"].

(** UNITS_NUMBER_RE =
    [\b\d+(?:[.,]\d+)?\s?(mg|g|kg|%|kcal|ml|mcg|gramov|miligramov)\b],
    re.IGNORECASE | re.UNICODE *)
Definition UNITS_NUMBER_RE : regex :=
  seqs [WordB; digits1;
        Opt (Seq (At (ASet [CLit 0x2E; CLit 0x2C])) digits1);
        Opt (At (ASet [CSpace]));
        Group 1 (alts (map lit UNIT_TOKENS));
        WordB].

Definition BANNED_INTRO_PHRASES : list text :=
  map U ["v tomto článku"; "v tomto clanku"; "pozrieme sa";
         "poďme sa pozrieť"; "podme sa pozriet"; "dozviete sa"; "zistíte";
         "zistite"; "na úvod"; "na uvod"; "v dnešnom článku";
         "v dnesnom clanku"; "predstavíme si"; "predstavime si"].

(** The class [A-Za-zÀ-ž] *)
Definition LETTERS : list citem :=
  [CRange 0x41 0x5A; CRange 0x61 0x7A; CRange 0xC0 0x17E].

(** DEFINITION_RE =
    [\b([A-Za-zÀ-ž][A-Za-zÀ-ž\-]{2,})\s+(je|znamená|predstavuje)\b],
    re.IGNORECASE *)
Definition DEFINITION_RE : regex :=
  seqs [WordB;
        Group 1 (Seq (At (ASet LETTERS)) (Rep 2 (ASet (LETTERS ++ [CLit 0x2D]))));
        spaces1;
        Group 2 (alts (map lit (map U ["je"; "znamená"; "predstavuje"])));
        WordB].

Definition DEFINITION_STOPWORDS : list text :=
  map U ["toto"; "to"; "ten"; "tá"; "ta"; "tieto"; "tak"; "taky";
         "čas"; "cas"; "telo"; "dnes"; "včera"; "vcera"; "zajtra";
         "život"; "zivot"; "človek"; "clovek"; "ľudia"; "ludia";
         "pravda"; "fakt"; "fakty"; "informácia"; "informacia"].

(** SOURCE_TEXT_RE =
    [\b(zdroje|references|referencie|štúdie|studie|literatúra|literatura)\b],
    re.IGNORECASE *)
Definition SOURCE_TEXT_RE : regex :=
  seqs [WordB;
        Group 1 (alts (map lit (map U
          ["zdroje"; "references"; "referencie"; "štúdie"; "studie";
           "literatúra"; "literatura"])));
        WordB].

Definition SOURCE_DOMAINS : list text :=
  map U ["pubmed.ncbi.nlm.nih.gov"; "ncbi.nlm.nih.gov"; "examine.com";
         "who.int"; "nih.gov"; "cdc.gov"; "efsa.europa.eu";
         "cochranelibrary.com"; "jamanetwork.com"; "nejm.org"; "nature.com";
         "science.org"].

(** SOURCE_DOMAIN_RE = [https?://(?:www\.)?(pubmed\.ncbi\.nlm\.nih\.gov|...)\b],
    re.IGNORECASE *)
Definition SOURCE_DOMAIN_RE : regex :=
  seqs [lit (U "http"); Opt (lit (U "s")); lit (U "://");
        Opt (lit (U "www."));
        Group 1 (alts (map lit SOURCE_DOMAINS));
        WordB].

(** FAQ_TEXT_RE =
    [\b(faq|časté otázky|caste otazky|najčastejšie otázky|najcastejsie otazky)\b],
    re.IGNORECASE *)
Definition FAQ_TEXT_RE : regex :=
  seqs [WordB;
        Group 1 (alts (map lit (map U
          ["faq"; "časté otázky"; "caste otazky"; "najčastejšie otázky";
           "najcastejsie otazky"])));
        WordB].

(** The separator of [_first_sentence]: [(?<=[.!?])\s+] *)
Definition SENTENCE_END_RE : regex :=
  Seq (Behind (ASet [CLit 0x2E; CLit 0x21; CLit 0x3F])) spaces1.

Definition NOISE_SELECTORS : list text :=
  map U ["header"; "footer"; "nav"; "aside"; "form"; "noscript"].

(** ** Exceptions and dynamically typed arguments *)

Inductive exn :=
| AttributeError
| TypeError
| ParserError (what : string).

Inductive exc (A : Type) :=
| Ok (a : A)
| Raise (e : exn).

Arguments Ok {A} a.
Arguments Raise {A} e.

Definition bind {A B : Type} (m : exc A) (f : A -> exc B) : exc B :=
  match m with
  | Ok a => f a
  | Raise e => Raise e
  end.

Notation "x <- m ;; k" := (bind m (fun x => k))
  (at level 61, m at next level, right associativity).
Notation "' p <- m ;; k" := (bind m (fun x => let p := x in k))
  (at level 61, p pattern, m at next level, right associativity).

(** [bytes] *)
Definition bytes := list Byte.byte.

(** ASCII whitespace, what [bytes.strip] removes. *)
Definition is_ascii_space (b : Byte.byte) : bool :=
  let c := Byte.to_N b in in_range 0x09 0x0D c || (c =? 0x20)%N.

Fixpoint bytes_lstrip (b : bytes) : bytes :=
  match b with
  | [] => []
  | c :: tl => if is_ascii_space c then bytes_lstrip tl else b
  end.

(** [bytes.strip()] *)
Definition bytes_strip (b : bytes) : bytes :=
  rev (bytes_lstrip (rev (bytes_lstrip b))).

(** [bytes.lower()]: the ASCII capitals only. *)
Definition byte_lower (b : Byte.byte) : Byte.byte :=
  if in_range 0x41 0x5A (Byte.to_N b)
  then match Byte.of_N (Byte.to_N b + 32) with
       | Some l => l
       | None => b
       end
  else b.

Definition bytes_lower (b : bytes) : bytes := map byte_lower b.

Definition hex_digit (n : N) : N :=
  if (n <? 10)%N then (0x30 + n)%N else (0x61 + (n - 10))%N.

Definition byte_repr (quote : N) (b : Byte.byte) : text :=
  let c := Byte.to_N b in
  if (c =? quote)%N || (c =? 0x5C)%N then [0x5C; c]%N
  else if (c =? 0x09)%N then [0x5C; 0x74]%N
  else if (c =? 0x0A)%N then [0x5C; 0x6E]%N
  else if (c =? 0x0D)%N then [0x5C; 0x72]%N
  else if (c <? 0x20)%N || (0x7F <=? c)%N
  then [0x5C; 0x78; hex_digit (c / 16); hex_digit (c mod 16)]%N
  else [c].

(** [str(b)] for a [bytes], which is [repr(b)]: the literal, in double
    quotes when it has a single quote and no double quote. *)
Definition bytes_repr (b : bytes) : text :=
  let has q := existsb (fun x => (Byte.to_N x =? q)%N) b in
  let quote := if has 0x27%N && negb (has 0x22%N) then 0x22%N else 0x27%N in
  ((0x62%N :: quote :: flat_map (byte_repr quote) b) ++ [quote])%list.

(** What a caller can pass for [content_html], [meta_description] and
    [title]: [None], a [str], a [bytes], or a value of a type that has
    neither a [strip] nor a [lower] method (an [int], a [float], a [list],
    a [dict]), of which the analyzer only observes [str(value)] ([None]
    here when that raises) and the truth value. *)
Inductive pyval :=
| PyNone
| PyStr (s : text)
| PyBytes (b : bytes)
| PyObj (repr : option text) (truthy : bool).

Definition py_truthy (v : pyval) : bool :=
  match v with
  | PyNone => false
  | PyStr [] => false
  | PyStr (_ :: _) => true
  | PyBytes [] => false
  | PyBytes (_ :: _) => true
  | PyObj _ t => t
  end.

(** [v or ""] *)
Definition or_empty (v : pyval) : pyval :=
  if py_truthy v then v else PyStr [].

(** The values that have the methods [strip] and [lower]: a [str], whose
    methods return a [str], and a [bytes], whose methods return a
    [bytes]. *)
Inductive strlike :=
| SStr (s : text)
| SBytes (b : bytes).

(** Looking up [.strip] or [.lower] on a value. *)
Definition as_strlike (v : pyval) : exc strlike :=
  match v with
  | PyStr s => Ok (SStr s)
  | PyBytes b => Ok (SBytes b)
  | _ => Raise AttributeError
  end.

Definition sl_strip (v : strlike) : strlike :=
  match v with
  | SStr s => SStr (strip s)
  | SBytes b => SBytes (bytes_strip b)
  end.

Definition sl_lower (ucd : unicode_db) (v : strlike) : strlike :=
  match v with
  | SStr s => SStr (str_lower ucd s)
  | SBytes b => SBytes (bytes_lower b)
  end.

(** [len(v)] *)
Definition sl_len (v : strlike) : nat :=
  match v with
  | SStr s => List.length s
  | SBytes b => List.length b
  end.

Definition sl_truthy (v : strlike) : bool := (0 <? sl_len v)%nat.

(** [term_l not in title_l]: a [str] cannot be looked up in a [bytes]. *)
Definition not_in (term_l : text) (title_l : strlike) : exc bool :=
  match title_l with
  | SStr t => Ok (negb (contains term_l t))
  | SBytes _ => Raise TypeError
  end.

Definition _safe_str (value : pyval) : text :=
  match value with
  | PyNone => []
  | PyStr s => s
  | PyBytes b => bytes_repr b
  | PyObj (Some r) _ => r
  | PyObj None _ => []
  end.

(** ** Documents *)

(** The classes of string BeautifulSoup puts in a tree. *)
Inductive string_kind :=
| NavigableString
| CData
| Comment
| Declaration
| Doctype
| ProcessingInstruction
| Script
| Stylesheet
| TemplateString
| RubyTextString
| RubyParenthesisString.

Definition attrs := list (text * text).

Unset Elimination Schemes.
Inductive node :=
| Tag (name : text) (at_ : attrs) (children : list node)
| Str (kind : string_kind) (s : text).
Set Elimination Schemes.

(** The children of the BeautifulSoup object. *)
Definition soup := list node.

Definition empty_soup : soup := [].

Fixpoint attr_get (k : text) (a : attrs) : option text :=
  match a with
  | [] => None
  | (k', v) :: tl => if text_eqb k' k then Some v else attr_get k tl
  end.

(** A filter of [find_all] on the name and the attributes of a tag. *)
Definition selector := text -> attrs -> bool.

Definition by_name (n : text) : selector := fun name _ => text_eqb name n.

(** [attrs={k: v}] *)
Definition by_attr (k v : text) : selector :=
  fun _ a => match attr_get k a with
             | Some v' => text_eqb v' v
             | None => false
             end.

(** [k=True]: the attribute is there *)
Definition has_attr (k : text) : selector :=
  fun _ a => match attr_get k a with
             | Some _ => true
             | None => false
             end.

Definition sel_and (p q : selector) : selector :=
  fun n a => p n a && q n a.

(** [tag.find_all(...)]: the matching tags below, in document order. *)
Fixpoint find_all_in (p : selector) (n : node) : list node :=
  match n with
  | Tag name a ch =>
      (if p name a then [n] else []) ++ flat_map (find_all_in p) ch
  | Str _ _ => []
  end.

Definition find_all (p : selector) (s : soup) : list node :=
  flat_map (find_all_in p) s.

(** [soup.find(...)] *)
Definition find (p : selector) (s : soup) : option node :=
  hd_error (find_all p s).

(** [for node in soup.find_all(...): node.decompose()]: every matching tag
    leaves the tree with all that is below it (a match below another match
    is gone with the outer one). *)
Fixpoint prune (p : selector) (n : node) : list node :=
  match n with
  | Tag name a ch =>
      if p name a then [] else [Tag name a (flat_map (prune p) ch)]
  | Str _ _ => [n]
  end.

Definition decompose_all (p : selector) (s : soup) : soup :=
  flat_map (prune p) s.

(** [get_text] keeps the strings whose class is exactly NavigableString or
    CData. *)
Definition is_text_kind (k : string_kind) : bool :=
  match k with
  | NavigableString | CData => true
  | _ => false
  end.

Fixpoint strings_in (n : node) : list text :=
  match n with
  | Tag _ _ ch => flat_map strings_in ch
  | Str k s => if is_text_kind k then [s] else []
  end.

Definition nonempty (s : text) : bool :=
  match s with
  | [] => false
  | _ :: _ => true
  end.

(** The strings [get_text(sep, strip=True)] joins. *)
Definition stripped_strings (s : soup) : list text :=
  filter nonempty (map strip (flat_map strings_in s)).

(** [soup.get_text(sep, strip=True)] *)
Definition get_text (sep : text) (s : soup) : text :=
  join sep (stripped_strings s).

(** [tag.string] *)
Fixpoint tag_string (n : node) : option text :=
  match n with
  | Tag _ _ [c] => tag_string c
  | Tag _ _ _ => None
  | Str _ s => Some s
  end.

(** [_safe_str(tag.string)] *)
Definition string_or_empty (n : node) : text :=
  match tag_string n with
  | Some s => s
  | None => []
  end.

Definition node_attr (k : text) (n : node) : option text :=
  match n with
  | Tag _ a _ => attr_get k a
  | Str _ _ => None
  end.

(** ** Evidence records and the audit result *)

Record direct_details := {
  intro_150 : text;
  first_sentence : text;
  first_sentence_words : nat;
  banned_hits : list text;
  looks_like_question : bool
}.

Record definition_details := {
  definition_match : text;
  term : text;
  definition_strict : bool;
  window_chars : Z
}.

Record headings_details := { h2_count : nat; min_h2 : Z }.

Record facts_details := {
  numbers_with_units_found : nat;
  min_numbers_with_units : Z;
  units_regex : text
}.

Record sources_details := {
  has_source_section : bool;
  whitelisted_links_count : nat;
  http_links_count : nat;
  sources_strict : bool
}.

Record faq_details := {
  text_hint : bool;
  has_dl : bool;
  has_faq_schema : bool
}.

(** [check_lists] has no "ul"/"ol" entries when the soup is falsy, which a
    BeautifulSoup object never is. *)
Record lists_details := {
  list_count : nat;
  ul : nat;
  ol : nat;
  min_lists : Z
}.

Record tables_details := { table_count : nat; min_tables : Z }.

Record word_count_details := { word_count : nat; min_words : Z }.

Record meta_details := { meta_len : nat; min_len : Z; max_len : Z }.

Record details := {
  d_direct_answer : direct_details;
  d_definition : definition_details;
  d_headings : headings_details;
  d_facts : facts_details;
  d_sources : sources_details;
  d_faq : faq_details;
  d_lists : lists_details;
  d_tables : tables_details;
  d_word_count_ok : word_count_details;
  d_meta_ok : meta_details
}.

Record AuditResult := {
  direct_answer : bool;
  definition : bool;
  headings : bool;
  facts : bool;
  sources : bool;
  faq : bool;
  lists : bool;
  tables : bool;
  word_count_ok : bool;
  meta_ok : bool;
  score : nat;
  audit_details : details;
  recommendations : list text
}.

Definition RECOMMENDATIONS_TEXT : list (string * text) :=
  [("direct_answer",
    U "Pridaj priamu odpoveď hneď do úvodu (1–2 vety), bez vaty a bez otázok.");
   ("definition",
    U "Doplň stručnú definíciu hlavného pojmu (napr. „X je … / X znamená …“), ideálne v úvode.");
   ("headings",
    U "Pridaj viac H2 podnadpisov (článok sa bude lepšie skenovať a segmentovať).");
   ("facts",
    U "Doplň merateľné fakty (čísla, percentá, dávkovanie, štúdie), aby bol obsah konkrétnejší.");
   ("sources",
    U "Doplň citácie zdrojov (odkazy) alebo sekciu „Zdroje/References/Štúdie“ s reálnymi linkami.");
   ("faq",
    U "Pridaj FAQ blok (FAQ/Časté otázky) – ideálne s konkrétnymi otázkami a odpoveďami.");
   ("lists",
    U "Pridaj zoznamy (<ul>/<ol>) pre lepšiu čitateľnosť (napr. kroky, tipy, výhody/nevýhody).");
   ("tables",
    U "Ak dáva zmysel, pridaj tabuľku (porovnanie, dávkovanie, prehľad) pre rýchle skenovanie.");
   ("word_count_ok",
    U "Doplň obsah – článok má mať aspoň 500 slov (word count z čistého textu bez HTML).");
   ("meta_ok",
    U "Uprav meta description na ~120–160 znakov (jasne, s benefitom a kľúčovým pojmom).")].

(** [RECOMMENDATIONS_TEXT[key]], for the keys of the table *)
Fixpoint lookup_text (key : string) (table : list (string * text)) : text :=
  match table with
  | [] => []
  | (k, v) :: tl => if String.eqb k key then v else lookup_text key tl
  end.

Definition recommendation (key : string) : text :=
  lookup_text key RECOMMENDATIONS_TEXT.

(** [count >= int(minimum)] *)
Definition at_least (count : nat) (minimum : Z) : bool :=
  (minimum <=? Z.of_nat count)%Z.

(** ** The analyzer *)

Section Analyzer.
Variable ucd : unicode_db.

(** [BeautifulSoup(html, "html.parser")]; it may raise. *)
Variable html_parser : text -> exc soup.

Definition _strip_noise (s : soup) : soup :=
  let s1 :=
    fold_left (fun acc tag_name => decompose_all (by_name tag_name) acc)
      NOISE_SELECTORS s in
  decompose_all (by_attr (U "aria-modal") (U "true")) s1.

Definition _html_to_soup (content_html : pyval) : exc soup :=
  let html := _safe_str content_html in
  s <- html_parser html ;;
  Ok (_strip_noise s).

(** A BeautifulSoup object is truthy, so the text is always taken from
    the tree. *)
Definition _plain_text_from_soup (s : soup) : text :=
  get_text (U " ") s.

Definition _count_words (t : text) : nat :=
  List.length (finditer ucd false WORD_RE t).

Definition _first_sentence (t0 : text) : text :=
  let t := strip t0 in
  match t with
  | [] => []
  | _ :: _ =>
      let part0 :=
        match search ucd false SENTENCE_END_RE t with
        | Some m => firstn (m_start m) t
        | None => t
        end in
      strip (firstn 400 part0)
  end.

(** Criterion 1 *)
Definition check_direct_answer (plain_text : text)
    : bool * direct_details :=
  let t := strip plain_text in
  let intro := firstn 150 t in
  let lowered := str_lower ucd intro in
  let hits := filter (fun p => contains p lowered) BANNED_INTRO_PHRASES in
  let first := _first_sentence t in
  let first_words :=
    if nonempty first then finditer ucd false WORD_RE first else [] in
  let question :=
    endswith (U "?") first || contains (U "?") (firstn 120 first) in
  let passed :=
    nonempty first && (Nat.eqb (List.length hits) 0) && negb question
    && (6 <=? List.length first_words)%nat in
  (passed,
   {| intro_150 := intro;
      first_sentence := first;
      first_sentence_words := List.length first_words;
      banned_hits := hits;
      looks_like_question := question |}).

(** The loop of [check_definition] over the matches: the first match it
    returns on, if any. *)
Fixpoint definition_loop (window : text) (title_l : strlike) (strict : bool)
    (ms : list rematch) : exc (option rematch) :=
  match ms with
  | [] => Ok None
  | m :: tl =>
      let term := strip (group window 1 m) in
      if negb (nonempty term) then definition_loop window title_l strict tl
      else if existsb (text_eqb (str_lower ucd term)) DEFINITION_STOPWORDS
      then definition_loop window title_l strict tl
      else if strict && sl_truthy title_l
      then
        missing <- not_in (str_lower ucd term) title_l ;;
        if missing then definition_loop window title_l strict tl
        else Ok (Some m)
      else Ok (Some m)
  end.

(** Criterion 2 *)
Definition check_definition (plain_text : text) (title : pyval)
    (strict : bool) (window_chars : Z) : exc (bool * definition_details) :=
  let t := strip plain_text in
  let window := firstn (Z.to_nat (Z.max 0 window_chars)) t in
  title0 <- as_strlike (or_empty title) ;;
  let title_l := sl_strip (sl_lower ucd title0) in
  found <- definition_loop window title_l strict
             (finditer ucd true DEFINITION_RE window) ;;
  match found with
  | Some m =>
      Ok (true,
          {| definition_match := group0 window m;
             term := strip (group window 1 m);
             definition_strict := strict;
             window_chars := window_chars |})
  | None =>
      Ok (false,
          {| definition_match := [];
             term := [];
             definition_strict := strict;
             window_chars := window_chars |})
  end.

(** The three tests of the loop as one, for a title that is a [str]:
    is this match the one the loop returns on? *)
Definition definition_accepts (window title_l : text) (strict : bool)
    (m : rematch) : bool :=
  let term := strip (group window 1 m) in
  let term_l := str_lower ucd term in
  nonempty term
  && negb (existsb (text_eqb term_l) DEFINITION_STOPWORDS)
  && negb (strict && nonempty title_l && negb (contains term_l title_l)).

(** Criterion 3 *)
Definition check_h2_headings (s : soup) (min_h2 : Z)
    : bool * headings_details :=
  let count := List.length (find_all (by_name (U "h2")) s) in
  (at_least count min_h2, {| h2_count := count; min_h2 := min_h2 |}).

(** Criterion 4 *)
Definition check_facts (plain_text : text) (min_numbers_with_units : Z)
    : bool * facts_details :=
  let count := List.length (finditer ucd true UNITS_NUMBER_RE plain_text) in
  (at_least count min_numbers_with_units,
   {| numbers_with_units_found := count;
      min_numbers_with_units := min_numbers_with_units;
      units_regex :=
        U "\\d+\\s?(mg|g|kg|%|kcal|ml|mcg|gramov|miligramov)" |}).

(** The hrefs of [soup.find_all("a", href=True)] *)
Definition hrefs_of (s : soup) : list text :=
  flat_map
    (fun a => match node_attr (U "href") a with
              | Some h => [h]
              | None => []
              end)
    (find_all (sel_and (by_name (U "a")) (has_attr (U "href"))) s).

Definition is_http_link (h : text) : bool :=
  let l := str_lower ucd h in
  startswith (U "http://") l || startswith (U "https://") l.

(** Criterion 5 *)
Definition check_sources (plain_text : text) (s : soup) (strict : bool)
    : bool * sources_details :=
  let section :=
    match search ucd true SOURCE_TEXT_RE plain_text with
    | Some _ => true
    | None => false
    end in
  let hrefs := hrefs_of s in
  let joined := join (U " ") hrefs in
  let whitelisted_count :=
    List.length (finditer ucd true SOURCE_DOMAIN_RE joined) in
  let http_count := List.length (filter is_http_link hrefs) in
  let passed :=
    if strict
    then (0 <? whitelisted_count)%nat || (section && (0 <? http_count)%nat)
    else section || (0 <? whitelisted_count)%nat in
  (passed,
   {| has_source_section := section;
      whitelisted_links_count := whitelisted_count;
      http_links_count := http_count;
      sources_strict := strict |}).

(** Criterion 6 *)
Definition check_faq (plain_text : text) (s : soup) : bool * faq_details :=
  let hint :=
    match search ucd true FAQ_TEXT_RE plain_text with
    | Some _ => true
    | None => false
    end in
  let dl :=
    match find (by_name (U "dl")) s with
    | Some _ => true
    | None => false
    end in
  let schema :=
    existsb (fun script => contains (U "FAQPage") (string_or_empty script))
      (find_all
         (sel_and (by_name (U "script"))
            (by_attr (U "type") (U "application/ld+json"))) s) in
  (hint || dl || schema,
   {| text_hint := hint; has_dl := dl; has_faq_schema := schema |}).

(** Criterion 7 *)
Definition check_lists (s : soup) (min_lists : Z) : bool * lists_details :=
  let ul_count := List.length (find_all (by_name (U "ul")) s) in
  let ol_count := List.length (find_all (by_name (U "ol")) s) in
  let count := ul_count + ol_count in
  (at_least count min_lists,
   {| list_count := count; ul := ul_count; ol := ol_count;
      min_lists := min_lists |}).

(** Criterion 8 *)
Definition check_tables (s : soup) (min_tables : Z)
    : bool * tables_details :=
  let count := List.length (find_all (by_name (U "table")) s) in
  (at_least count min_tables,
   {| table_count := count; min_tables := min_tables |}).

(** Criterion 9 *)
Definition check_word_count (plain_text : text) (min_words : Z)
    : bool * word_count_details :=
  let wc := _count_words plain_text in
  (at_least wc min_words, {| word_count := wc; min_words := min_words |}).

(** Criterion 10 *)
Definition check_meta_description (meta_description : pyval)
    (min_len max_len : Z) : exc (bool * meta_details) :=
  md0 <- as_strlike (or_empty meta_description) ;;
  let md := sl_strip md0 in
  let n := sl_len md in
  Ok (at_least n min_len && (Z.of_nat n <=? max_len)%Z,
      {| meta_len := n; min_len := min_len; max_len := max_len |}).

(** [score = sum(1 for x in flags if x)] *)
Definition count_true (flags : list bool) : nat :=
  List.length (filter (fun x => x) flags).

(** [if not ok: recommendations.append(RECOMMENDATIONS_TEXT[key])] *)
Definition append_unless (ok : bool) (key : string) (recs : list text)
    : list text :=
  if ok then recs else recs ++ [recommendation key].

(** The first [try] falls back to the empty document when parsing raises.
    The second [try] guards [get_text], which has no failing case here.  The
    ten check calls are outside of any [try]: an exception of a check is an
    exception of [analyze_article]. *)
Definition analyze_article (content_html meta_description title : pyval)
    (strict : bool) : exc AuditResult :=
  let s :=
    match _html_to_soup content_html with
    | Ok s => s
    | Raise _ => empty_soup
    end in
  let plain := _plain_text_from_soup s in
  let '(direct_ok, direct_d) := check_direct_answer plain in
  '(def_ok, def_d) <- check_definition plain title strict 1200 ;;
  let '(h2_ok, h2_d) := check_h2_headings s 3 in
  let '(facts_ok, facts_d) := check_facts plain 3 in
  let '(sources_ok, sources_d) := check_sources plain s strict in
  let '(faq_ok, faq_d) := check_faq plain s in
  let '(lists_ok, lists_d) := check_lists s 1 in
  let '(tables_ok, tables_d) := check_tables s 1 in
  let '(wc_ok, wc_d) := check_word_count plain 500 in
  '(meta_ok', meta_d) <- check_meta_description meta_description 120 160 ;;
  let flags :=
    [direct_ok; def_ok; h2_ok; facts_ok; sources_ok; faq_ok; lists_ok;
     tables_ok; wc_ok; meta_ok'] in
  let recs :=
    append_unless meta_ok' "meta_ok"
      (append_unless wc_ok "word_count_ok"
        (append_unless tables_ok "tables"
          (append_unless lists_ok "lists"
            (append_unless faq_ok "faq"
              (append_unless sources_ok "sources"
                (append_unless facts_ok "facts"
                  (append_unless h2_ok "headings"
                    (append_unless def_ok "definition"
                      (append_unless direct_ok "direct_answer" [])))))))))
  in
  Ok {| direct_answer := direct_ok;
        definition := def_ok;
        headings := h2_ok;
        facts := facts_ok;
        sources := sources_ok;
        faq := faq_ok;
        lists := lists_ok;
        tables := tables_ok;
        word_count_ok := wc_ok;
        meta_ok := meta_ok';
        score := count_true flags;
        audit_details :=
          {| d_direct_answer := direct_d;
             d_definition := def_d;
             d_headings := h2_d;
             d_facts := facts_d;
             d_sources := sources_d;
             d_faq := faq_d;
             d_lists := lists_d;
             d_tables := tables_d;
             d_word_count_ok := wc_d;
             d_meta_ok := meta_d |};
        recommendations := recs |}.
End Analyzer.


(** ** Concrete instances, used to run the analyzer on closed inputs *)

(** A database that knows no alphanumeric, no digit and no cased character
    outside the blocks written out above. *)
Definition basic_db : unicode_db :=
  {| ucd_alnum := fun _ => false;
     ucd_decimal := fun _ => false;
     ucd_cased := fun _ => false;
     ucd_tolower := fun c => c;
     ucd_lower := fun c => [c];
     ucd_cased_property := fun _ => false;
     ucd_case_ignorable := fun _ => false |}.

(** A parser for markup-free input: the empty string is the empty document,
    any other text without [<] and [&] is a document of one string, and
    markup is refused with an exception. *)
Definition plain_parser (html : text) : exc soup :=
  match html with
  | [] => Ok empty_soup
  | _ :: _ =>
      if existsb (fun c => (c =? 0x3C)%N || (c =? 0x26)%N) html
      then Raise (ParserError "markup")
      else Ok [Str NavigableString html]
  end.


(** The verdict of a check that may raise. *)
Definition verdict_of {A : Type} (r : exc (bool * A)) : exc bool :=
  x <- r ;; Ok (fst x).

(** The ten verdicts of a result, in canonical order. *)
Definition verdicts (r : AuditResult) : list bool :=
  [direct_answer r; definition r; headings r; facts r; sources r; faq r;
   lists r; tables r; word_count_ok r; meta_ok r].

(** The verdicts the strict flag has no part in. *)
Definition lenient_verdicts (r : AuditResult) : list bool :=
  [direct_answer r; headings r; facts r; faq r; lists r; tables r;
   word_count_ok r; meta_ok r].

(** Induction on documents: a tag has the property when its children do. *)
Fixpoint node_ind (P : node -> Prop)
    (HTag : forall name a ch, Forall P ch -> P (Tag name a ch))
    (HStr : forall k s, P (Str k s)) (n : node) {struct n} : P n :=
  match n with
  | Tag name a ch =>
      HTag name a ch
        ((fix all (l : list node) : Forall P l :=
            match l with
            | [] => Forall_nil P
            | x :: tl => Forall_cons x (node_ind HTag HStr x) (all tl)
            end) ch)
  | Str k s => HStr k s
  end.

Unset Implicit Arguments.

(** ** Definitions the statements below are written with *)

(** The document the checks see: the parsed and stripped tree, or the empty
    document when parsing raised. *)
Definition document_of (parser : text -> exc soup) (content_html : pyval)
    : soup :=
  match _html_to_soup parser content_html with
  | Ok s => s
  | Raise _ => empty_soup
  end.

(** The eight verdicts that do not depend on [strict], computed from the
    checks themselves. *)
Definition lenient_checks ucd (s : soup) (meta_description : pyval)
    : list bool :=
  let plain := _plain_text_from_soup s in
  [fst (check_direct_answer ucd plain);
   fst (check_h2_headings s 3);
   fst (check_facts ucd plain 3);
   fst (check_faq ucd plain s);
   fst (check_lists s 1);
   fst (check_tables s 1);
   fst (check_word_count ucd plain 500);
   match check_meta_description meta_description 120 160 with
   | Ok (b, _) => b
   | Raise _ => false
   end].

(** The text of the definition example, ellipsis included. *)
Definition kreatin_text : text := U "Kreatín je doplnok výživy…".

(** The three facts of the example, as a sentence would list them. *)
Definition three_facts_text : text := U "5 mg, 10%, 200 kcal".

(** The pattern the docstring and the evidence of [check_facts] give,
    [\d+\s?(mg|g|kg|%|kcal|ml|mcg|gramov|miligramov)]: the pattern of the
    code without its two [\b] and without the decimal part. *)
Definition units_regex_documented : regex :=
  seqs [digits1; Opt (At (ASet [CSpace]));
        Group 1 (alts (map lit UNIT_TOKENS))].

(** A document that says "Zdroje" and has no link. *)
Definition zdroje_doc : soup :=
  [Tag (U "h2") [] [Str NavigableString (U "Zdroje")];
   Tag (U "p") [] [Str NavigableString (U "Kniha o kreatíne, 2020")]].

(** A link to a host that is not whitelisted, with a whitelisted URL in its
    query string. *)
Definition redirect_href : text := U "https://example.com/?u=https://who.int/x".

Definition redirect_doc : soup :=
  [Tag (U "p") []
     [Str NavigableString (U "Viac na");
      Tag (U "a") [(U "href", redirect_href)]
        [Str NavigableString (U "tejto stránke")]]].

(** A document whose only link points to [h]. *)
Definition link_doc (h : text) : soup :=
  [Tag (U "p") []
     [Tag (U "a") [(U "href", h)] [Str NavigableString (U "odkaz")]]].

(** Every node of a document, in document order. *)
Fixpoint descendants_in (n : node) : list node :=
  n :: match n with
       | Tag _ _ ch => flat_map descendants_in ch
       | Str _ _ => []
       end.

Definition descendants (s : soup) : list node := flat_map descendants_in s.

(** [h] is the target of a link of the document: the [href] of one of its
    [a] tags. *)
Definition link_target (s : soup) (h : text) : Prop :=
  exists at_ children,
    In (Tag (U "a") at_ children) (descendants s)
    /\ attr_get (U "href") at_ = Some h.

(** The document has a link whose target, lowercased, begins with http://
    or with https://. *)
Definition has_http_link ucd (s : soup) : Prop :=
  exists h rest,
    link_target s h
    /\ (str_lower ucd h = (U "http://" ++ rest)%list
        \/ str_lower ucd h = (U "https://" ++ rest)%list).

(** The text has a sources hint: SOURCE_TEXT_RE is found in it. *)
Definition sources_hint ucd (plain : text) : Prop :=
  exists m, search ucd true SOURCE_TEXT_RE plain = Some m.

(** A whitelisted domain is found in the link targets of the document,
    joined by spaces. *)
Definition whitelist_match ucd (s : soup) : Prop :=
  exists m,
    search ucd true SOURCE_DOMAIN_RE (join (U " ") (hrefs_of s)) = Some m.

Definition sel_or (p q : selector) : selector :=
  fun n a => p n a || q n a.

(** What [_strip_noise] removes: the tags named in NOISE_SELECTORS and the
    tags with [aria-modal="true"]. *)
Definition noise_selector : selector :=
  fun name a =>
    existsb (fun tag_name => by_name tag_name name a) NOISE_SELECTORS
    || by_attr (U "aria-modal") (U "true") name a.

(** The node kinds the specification lists as noise: the ones above and
    script blocks. *)
Definition spec_noise_selector : selector :=
  fun name a =>
    existsb (text_eqb name)
      (map U ["nav"; "header"; "footer"; "aside"; "form"; "script";
              "noscript"])
    || by_attr (U "aria-modal") (U "true") name a.

(** The strings of a tree that are not below a tag selected by [p]. *)
Fixpoint strings_outside_in (p : selector) (n : node) : list text :=
  match n with
  | Tag name a ch =>
      if p name a then [] else flat_map (strings_outside_in p) ch
  | Str k s => if is_text_kind k then [s] else []
  end.

Definition strings_outside (p : selector) (s : soup) : list text :=
  flat_map (strings_outside_in p) s.

(** An article body with a JSON-LD script (the quotes of the JSON are left
    out). *)
Definition json_ld_script : node :=
  Tag (U "script") [(U "type", U "application/ld+json")]
    [Str Script (U "{@context: https://schema.org, @type: FAQPage}")].

Definition faq_schema_doc : soup :=
  [Tag (U "p") [] [Str NavigableString (U "Kreatín je doplnok výživy.")];
   json_ld_script].



(** ** Further code: definitions *)

Section MoreAnalyzer.
Local Open Scope list_scope.
Local Open Scope nat_scope.

(** The number of maximal runs of word characters in [s]; [inword] says
    whether the character before [s] is a word character. *)
Fixpoint word_runs ucd (inword : bool) (s : text) : nat :=
  match s with
  | [] => 0
  | c :: tl =>
      (if is_word ucd c && negb inword then 1 else 0)
      + word_runs ucd (is_word ucd c) tl
  end.

(** The length of the run of word characters [s] starts with. *)
Fixpoint run_len ucd (s : text) : nat :=
  match s with
  | c :: tl => if is_word ucd c then S (run_len ucd tl) else 0
  | [] => 0
  end.

(** The continuation of [\w+] in WORD_RE: the closing [\b], then success. *)
Definition word_end ucd (start : nat) : cont rematch :=
  fun prev e rest cs =>
    if xorb (word_at ucd prev) (word_at ucd (hd_error rest))
    then Some {| m_start := start; m_end := e; m_groups := cs |}
    else None.

(** A text that does not start with whitespace. *)
Definition starts_clean (s : text) : Prop :=
  match s with
  | c :: _ => is_space c = false
  | [] => True
  end.


(** A continuation [k] is reached from a cursor at [pos] before [rest]: it
    is called further right, on a suffix, and returns [x]. *)
Definition reached {R : Type} (k : cont R) (pos : nat) (rest : text) (x : R)
    : Prop :=
  exists prev' pos' rest' cs',
    pos <= pos'
    /\ pos' + List.length rest' = pos + List.length rest
    /\ k prev' pos' rest' cs' = Some x.

(** The keys of RECOMMENDATIONS_TEXT in the order [analyze_article] tests
    the verdicts. *)
Definition CANONICAL_KEYS : list string :=
  ["direct_answer"; "definition"; "headings"; "facts"; "sources"; "faq";
   "lists"; "tables"; "word_count_ok"; "meta_ok"].

(** The keys of the criteria a result failed, in canonical order. *)
Definition failed_keys (r : AuditResult) : list string :=
  map fst (filter (fun kv => negb (snd kv)) (combine CANONICAL_KEYS (verdicts r))).

(** No two texts of a list are equal. *)
Fixpoint all_distinct (l : list text) : bool :=
  match l with
  | [] => true
  | x :: tl => negb (existsb (text_eqb x) tl) && all_distinct tl
  end.

(** The first nine verdicts of a result: all but meta_ok. *)
Definition content_verdicts (r : AuditResult) : list bool :=
  [direct_answer r; definition r; headings r; facts r; sources r; faq r;
   lists r; tables r; word_count_ok r].

(** The strings of a parsed document that are not below a noise tag,
    stripped, the empty ones left out. *)
Definition content_strings (parsed : soup) : list text :=
  filter nonempty (map strip (strings_outside noise_selector parsed)).

(** An article body with markup, which [plain_parser] refuses. *)
Definition markup_html : text := U "<p>Kreatín je doplnok.</p>".

End MoreAnalyzer.

From Stdlib Require DecimalString.
From Stdlib Require Import Permutation Sorted.

(** ** Dynamic values

    What a report row, an evidence mapping or a JSON document holds. *)

(** A float, by what the code can observe of it: [str(f)], [int(f)]
    ([None] when it raises, as for infinity) and its truth value. *)
Record pyfloat := {
  float_str : text;
  float_int : option Z;
  float_truthy : bool
}.

Unset Elimination Schemes.
Inductive pv :=
| PvNone
| PvBool (b : bool)
| PvInt (z : Z)
| PvFloat (f : pyfloat)
| PvStr (s : text)
| PvList (items : list pv)
| PvDict (entries : list (string * pv)).
Set Elimination Schemes.

(** A [dict] with [str] keys, in insertion order. *)
Definition dict := list (string * pv).

(** [d.get(k)] *)
Fixpoint dict_get (k : string) (d : dict) : option pv :=
  match d with
  | [] => None
  | (k', v) :: tl => if String.eqb k' k then Some v else dict_get k tl
  end.

(** [list(d.keys())] *)
Definition dict_keys (d : dict) : list string := map fst d.

(** [bool(v)] *)
Definition pv_truthy (v : pv) : bool :=
  match v with
  | PvNone => false
  | PvBool b => b
  | PvInt z => negb (z =? 0)%Z
  | PvFloat f => float_truthy f
  | PvStr s => nonempty s
  | PvList [] => false
  | PvList (_ :: _) => true
  | PvDict [] => false
  | PvDict (_ :: _) => true
  end.

(** [str(z)] for an [int] *)
Definition Z_to_text (z : Z) : text :=
  U (DecimalString.NilZero.string_of_int (Z.to_int z)).

(** [s.replace(a, b)] for one-character [a] and [b] *)
Definition replace_char (a b : N) (s : text) : text :=
  map (fun c => if (c =? a)%N then b else c) s.

(** The evidence mapping of a result, as the checks build it. *)
Definition details_dict (d : details) : dict :=
  [("direct_answer",
    PvDict
      [("intro_150", PvStr (intro_150 (d_direct_answer d)));
       ("first_sentence", PvStr (first_sentence (d_direct_answer d)));
       ("first_sentence_words",
        PvInt (Z.of_nat (first_sentence_words (d_direct_answer d))));
       ("banned_hits", PvList (map PvStr (banned_hits (d_direct_answer d))));
       ("looks_like_question",
        PvBool (looks_like_question (d_direct_answer d)))]);
   ("definition",
    PvDict
      [("definition_match", PvStr (definition_match (d_definition d)));
       ("term", PvStr (term (d_definition d)));
       ("strict", PvBool (definition_strict (d_definition d)));
       ("window_chars", PvInt (window_chars (d_definition d)))]);
   ("headings",
    PvDict
      [("h2_count", PvInt (Z.of_nat (h2_count (d_headings d))));
       ("min_h2", PvInt (min_h2 (d_headings d)))]);
   ("facts",
    PvDict
      [("numbers_with_units_found",
        PvInt (Z.of_nat (numbers_with_units_found (d_facts d))));
       ("min_numbers_with_units", PvInt (min_numbers_with_units (d_facts d)));
       ("units_regex", PvStr (units_regex (d_facts d)))]);
   ("sources",
    PvDict
      [("has_source_section", PvBool (has_source_section (d_sources d)));
       ("whitelisted_links_count",
        PvInt (Z.of_nat (whitelisted_links_count (d_sources d))));
       ("http_links_count", PvInt (Z.of_nat (http_links_count (d_sources d))));
       ("strict", PvBool (sources_strict (d_sources d)))]);
   ("faq",
    PvDict
      [("text_hint", PvBool (text_hint (d_faq d)));
       ("has_dl", PvBool (has_dl (d_faq d)));
       ("has_faq_schema", PvBool (has_faq_schema (d_faq d)))]);
   ("lists",
    PvDict
      [("list_count", PvInt (Z.of_nat (list_count (d_lists d))));
       ("ul", PvInt (Z.of_nat (ul (d_lists d))));
       ("ol", PvInt (Z.of_nat (ol (d_lists d))));
       ("min_lists", PvInt (min_lists (d_lists d)))]);
   ("tables",
    PvDict
      [("table_count", PvInt (Z.of_nat (table_count (d_tables d))));
       ("min_tables", PvInt (min_tables (d_tables d)))]);
   ("word_count_ok",
    PvDict
      [("word_count", PvInt (Z.of_nat (word_count (d_word_count_ok d))));
       ("min_words", PvInt (min_words (d_word_count_ok d)))]);
   ("meta_ok",
    PvDict
      [("meta_len", PvInt (Z.of_nat (meta_len (d_meta_ok d))));
       ("min_len", PvInt (min_len (d_meta_ok d)));
       ("max_len", PvInt (max_len (d_meta_ok d)))])].

(** The builtins the reporting code calls on values it does not control. *)
Record builtins := {
  py_repr : pv -> text;            (* str(v) for a list or a dict *)
  int_of_str : text -> option Z    (* int(s) for a str, None when it raises *)
}.

(** [str(v)] *)
Definition py_str (py : builtins) (v : pv) : text :=
  match v with
  | PvNone => U "None"
  | PvBool true => U "True"
  | PvBool false => U "False"
  | PvInt z => Z_to_text z
  | PvFloat f => float_str f
  | PvStr s => s
  | PvList _ | PvDict _ => py_repr py v
  end.

(** [int(v)], [None] when it raises *)
Definition py_int (py : builtins) (v : pv) : option Z :=
  match v with
  | PvBool b => Some (if b then 1 else 0)%Z
  | PvInt z => Some z
  | PvFloat f => float_int f
  | PvStr s => int_of_str py s
  | PvNone | PvList _ | PvDict _ => None
  end.

(** ** [reporter.py] *)

Module reporter.
Section Reporter.
Local Open Scope list_scope.
Variable py : builtins.

Definition CSV_BASE_HEADER : list string :=
  ["url"; "title"; "score"; "direct_answer"; "definition"; "headings";
   "facts"; "sources"; "faq"; "lists"; "tables"; "word_count_ok"; "meta_ok";
   "recommendations"; "word_count"; "h2_count"; "list_count"; "table_count";
   "meta_len"].

Definition _as_bool01 (value : pv) : Z :=
  if pv_truthy value then 1%Z else 0%Z.

Definition _safe_str (value : pv) : text :=
  match value with
  | PvNone => []
  | _ => py_str py value
  end.

(** [_safe_str(x).replace("\n", " ").replace("\r", " ").strip()] *)
Definition one_line (value : pv) : text :=
  strip (replace_char 13 32 (replace_char 10 32 (_safe_str value))).

Definition _join_recommendations (recs : pv) : text :=
  if negb (pv_truthy recs) then []
  else
    match recs with
    | PvList items => join (U " | ") (filter nonempty (map one_line items))
    | _ => one_line recs
    end.

Definition has_key (k : string) (l : list string) : bool :=
  existsb (String.eqb k) l.

(** [if k not in header and k not in extras: extras.append(k)] *)
Definition add_extra (extras : list string) (k : string) : list string :=
  if has_key k CSV_BASE_HEADER || has_key k extras then extras
  else extras ++ [k].

Definition _compute_header (rows_list : list dict) : list string :=
  CSV_BASE_HEADER
  ++ fold_left (fun extras row => fold_left add_extra (dict_keys row) extras)
       rows_list [].

(** The [try] of the source turns every exception into [default]; a value
    that is not a mapping falls through to the last [return default]. *)
Definition _details_get_int (details : dict) (key field : string)
    (default : Z) : Z :=
  match dict_get key details with
  | None => default
  | Some (PvDict d) =>
      match dict_get field d with
      | None => default
      | Some PvNone => default
      | Some v =>
          match py_int py v with
          | Some z => z
          | None => default
          end
      end
  | Some _ => default
  end.

Definition build_report_row (url title : pv) (result : AuditResult) : dict :=
  let details := details_dict (audit_details result) in
  [("url", PvStr (strip (_safe_str url)));
   ("title", PvStr (strip (_safe_str title)));
   ("score", PvInt (Z.of_nat (score result)));
   ("direct_answer", PvInt (_as_bool01 (PvBool (direct_answer result))));
   ("definition", PvInt (_as_bool01 (PvBool (definition result))));
   ("headings", PvInt (_as_bool01 (PvBool (headings result))));
   ("facts", PvInt (_as_bool01 (PvBool (facts result))));
   ("sources", PvInt (_as_bool01 (PvBool (sources result))));
   ("faq", PvInt (_as_bool01 (PvBool (faq result))));
   ("lists", PvInt (_as_bool01 (PvBool (lists result))));
   ("tables", PvInt (_as_bool01 (PvBool (tables result))));
   ("word_count_ok", PvInt (_as_bool01 (PvBool (word_count_ok result))));
   ("meta_ok", PvInt (_as_bool01 (PvBool (meta_ok result))));
   ("word_count",
    PvInt (_details_get_int details "word_count_ok" "word_count" 0));
   ("h2_count", PvInt (_details_get_int details "headings" "h2_count" 0));
   ("list_count", PvInt (_details_get_int details "lists" "list_count" 0));
   ("table_count", PvInt (_details_get_int details "tables" "table_count" 0));
   ("meta_len", PvInt (_details_get_int details "meta_ok" "meta_len" 0));
   ("recommendations",
    PvStr (_join_recommendations
             (PvList (map PvStr (recommendations result)))))].

End Reporter.
End reporter.

(** The integer a column of a row holds (0 when it holds none). *)
Definition row_int (key : string) (row : dict) : Z :=
  match dict_get key row with
  | Some (PvInt z) => z
  | _ => 0%Z
  end.

(** The invariant of the loop of [_compute_header]: the extra columns are
    distinct keys seen so far that are not base columns, and every key
    seen so far is a base column or an extra one. *)
Definition extras_ok (seen extras : list string) : Prop :=
  NoDup extras
  /\ (forall k, In k extras -> ~ In k reporter.CSV_BASE_HEADER /\ In k seen)
  /\ (forall k, In k seen -> In k reporter.CSV_BASE_HEADER \/ In k extras).

(** 1 for a passed criterion, 0 for a failed one. *)
Definition b2z (b : bool) : Z := if b then 1%Z else 0%Z.

(** The sum of the ten criterion columns of a row. *)
Definition criteria_sum (row : dict) : Z :=
  fold_right Z.add 0%Z (map (fun k => row_int k row) CANONICAL_KEYS).

(** ** [main.py]: loading articles and the analysis loop *)

(** What the loaders raise; messages are left out.  OSError stands for its
    subclasses too (FileNotFoundError, IsADirectoryError,
    PermissionError). *)
Inductive raised :=
| ValueError
| RuntimeError
| OSError
| UnicodeDecodeError
| RecursionError
| Propagated (e : exn).

(** What [path.read_text(encoding="utf-8", errors=...)] does. *)
Inductive read_result :=
| ReadText (raw : text)
| ReadUnicodeDecodeError
| ReadOSError.

(** What [json.loads] does: a value, JSONDecodeError for text that is not
    JSON, RecursionError for JSON nested too deeply. *)
Inductive json_result :=
| JsonValue (data : pv)
| JsonDecodeError
| JsonRecursionError.

Inductive outcome (A : Type) :=
| Returned (a : A)
| Raised (e : raised).

Arguments Returned {A} a.
Arguments Raised {A} e.

Definition lift {A : Type} (m : exc A) : outcome A :=
  match m with
  | Ok a => Returned a
  | Raise e => Raised (Propagated e)
  end.

Definition and_then {A B : Type} (m : outcome A) (f : A -> outcome B)
    : outcome B :=
  match m with
  | Returned a => f a
  | Raised e => Raised e
  end.

(** [obj.get(k)], [None] for a missing key *)
Definition get (k : string) (d : dict) : pv :=
  match dict_get k d with
  | Some v => v
  | None => PvNone
  end.


Module main.
Section Main.
Local Open Scope list_scope.
Variable py : builtins.
Variable ucd : unicode_db.

(** [BeautifulSoup(s, "html.parser")] and [html.unescape] *)
Variable html_parser : text -> exc soup.
Variable unescape : text -> text.

(** [str(ex)] for an exception *)
Variable exn_message : exn -> text.

(** [path.read_text(encoding="utf-8")] for the path at hand, and the same
    with [errors="replace"] when the argument is [true]; [json.loads]. *)
Variable read_text : bool -> read_result.
Variable json_loads : text -> json_result.

Record Article := {
  url : text;
  title : text;
  content_html : text;
  meta_description : text
}.

Definition safe_str (value : pv) : text :=
  match value with
  | PvNone => []
  | _ => py_str py value
  end.


Definition html_to_text (value : pv) : exc text :=
  let s := safe_str value in
  if negb (nonempty s) then Ok []
  else if negb (contains (U "<") s) && negb (contains (U "&") s)
  then Ok (strip (unescape s))
  else
    doc <- html_parser s ;;
    Ok (strip (unescape (get_text (U " ") doc))).

(** [a or b] on strings *)
Definition or_else (a b : text) : text := if nonempty a then a else b.

Definition normalize_article (obj : dict) : outcome Article :=
  let url0 := or_else (safe_str (get "url" obj)) (safe_str (get "link" obj)) in
  and_then
    (lift
       match get "title" obj with
       | PvDict t => html_to_text (get "rendered" t)
       | other => html_to_text other
       end)
    (fun title0 =>
  let content :=
    match get "content" obj with
    | PvDict c => safe_str (get "rendered" c)
    | other => or_else (safe_str (get "content_html" obj)) (safe_str other)
    end in
  and_then (lift (html_to_text (get "meta_description" obj)))
    (fun meta0 =>
  and_then
    (if nonempty meta0 then Returned meta0
     else
       match get "yoast_head_json" obj with
       | PvDict yoast => lift (html_to_text (get "description" yoast))
       | _ => Returned meta0
       end)
    (fun meta1 =>
  and_then
    (if nonempty meta1 then Returned meta1
     else
       match get "excerpt" obj with
       | PvDict excerpt => lift (html_to_text (get "rendered" excerpt))
       | _ => Returned meta1
       end)
    (fun meta2 =>
  if negb (nonempty url0) then Raised ValueError
  else
    let title1 := if nonempty title0 then title0 else U "(no title)" in
    Returned
      {| url := strip url0;
         title := strip title1;
         content_html := content;
         meta_description := strip meta2 |})))).




(** The row of an article whose analysis raised. *)
Definition error_row (a : Article) (ex : exn) : dict :=
  [("url", PvStr (url a));
   ("title", PvStr (title a));
   ("score", PvInt 0);
   ("direct_answer", PvInt 0);
   ("definition", PvInt 0);
   ("headings", PvInt 0);
   ("facts", PvInt 0);
   ("sources", PvInt 0);
   ("faq", PvInt 0);
   ("lists", PvInt 0);
   ("tables", PvInt 0);
   ("word_count_ok", PvInt 0);
   ("meta_ok", PvInt 0);
   ("word_count", PvInt 0);
   ("h2_count", PvInt 0);
   ("list_count", PvInt 0);
   ("table_count", PvInt 0);
   ("meta_len", PvInt 0);
   ("recommendations", PvStr (U "Analysis error: " ++ exn_message ex))].

(** One turn of the loop of [main] over the articles. *)
Definition article_row (strict : bool) (a : Article) : dict :=
  match analyze_article ucd html_parser (PyStr (content_html a))
          (PyStr (meta_description a)) (PyStr (title a)) strict with
  | Ok res => reporter.build_report_row py (PvStr (url a)) (PvStr (title a)) res
  | Raise ex => error_row a ex
  end.

(** The rows [main] hands to the report writers. *)
Definition analysis_rows (strict : bool) (articles : list Article)
    : list dict :=
  map (article_row strict) articles.

End Main.
End main.

(** Stand-ins for the builtins, for running the code on closed inputs that
    do not reach them: no list or dict is printed and no string is read as
    a number there. *)
Definition stub_builtins : builtins :=
  {| py_repr := fun _ => []; int_of_str := fun _ => None |}.

(** A WordPress post object, and a post without a link. *)
Definition sample_post : dict :=
  [("link", PvStr (U " https://example.sk/kreatin "));
   ("title", PvDict [("rendered", PvStr (U "  Kreatín  "))]);
   ("content", PvDict [("rendered", PvStr (U "<p>Kreatín je doplnok.</p>"))]);
   ("excerpt", PvDict [("rendered", PvStr (U "Kreatín je doplnok."))])].

Definition post_without_link : dict :=
  [("title", PvStr (U "Kreatín")); ("content_html", PvStr (U "Text"))].

(** The url a JSON object gives: [safe_str(obj.get("url")) or
    safe_str(obj.get("link"))]. *)
Definition url_of (py : builtins) (obj : dict) : text :=
  main.or_else (main.safe_str py (get "url" obj))
    (main.safe_str py (get "link" obj)).


(** The values [normalize_article] may hand to [html_to_text]: the title,
    the meta description, the Yoast description and the excerpt. *)
Definition text_fields (obj : dict) : list pv :=
  [match get "title" obj with
   | PvDict t => get "rendered" t
   | other => other
   end;
   get "meta_description" obj;
   match get "yoast_head_json" obj with
   | PvDict yoast => get "description" yoast
   | _ => PvNone
   end;
   match get "excerpt" obj with
   | PvDict excerpt => get "rendered" excerpt
   | _ => PvNone
   end].



(** ** [html_reporter.py]: the rows of the HTML report *)

(** [a < b] on strings: by code point, a proper prefix first. *)
Fixpoint text_ltb (a b : text) : bool :=
  match a, b with
  | _, [] => false
  | [], _ :: _ => true
  | x :: a', y :: b' => (x <? y)%N || ((x =? y)%N && text_ltb a' b')
  end.

(** [a < b] on pairs of an [int] and a string *)
Definition key_ltb (a b : Z * text) : bool :=
  (fst a <? fst b)%Z || ((fst a =? fst b)%Z && text_ltb (snd a) (snd b)).

(** A text with no whitespace at its start and at its end. *)
Definition clean_ends (s : text) : Prop := starts_clean s /\ starts_clean (rev s).

Module html_reporter.
Section HtmlReporter.
Local Open Scope list_scope.
Variable py : builtins.
Variable ucd : unicode_db.

Definition _safe_str (v : pv) : text :=
  match v with
  | PvNone => []
  | _ => py_str py v
  end.

Definition _bool_cell (v : pv) : Z := if pv_truthy v then 1%Z else 0%Z.

Definition _safe_int (v : pv) (default : Z) : Z :=
  match py_int py v with
  | Some z => z
  | None => default
  end.

Definition CRITERIA : list string :=
  ["direct_answer"; "definition"; "headings"; "facts"; "sources"; "faq";
   "lists"; "tables"; "word_count_ok"; "meta_ok"].

(** [_safe_str(v).replace("\n", " ").replace("\r", " ").strip()] *)
Definition one_line (v : pv) : text :=
  strip (replace_char 13 32 (replace_char 10 32 (_safe_str v))).

Definition _sanitize_row (row : dict) : dict :=
  [("url", PvStr (strip (_safe_str (get "url" row))));
   ("title", PvStr (strip (_safe_str (get "title" row))));
   ("score", PvInt (_safe_int (get "score" row) 0))]
  ++ map (fun k => (k, PvInt (_safe_int (get k row) (_bool_cell (get k row)))))
       CRITERIA
  ++ [("word_count", PvInt (_safe_int (get "word_count" row) 0));
      ("h2_count", PvInt (_safe_int (get "h2_count" row) 0));
      ("list_count", PvInt (_safe_int (get "list_count" row) 0));
      ("table_count", PvInt (_safe_int (get "table_count" row) 0));
      ("meta_len", PvInt (_safe_int (get "meta_len" row) 0));
      ("recommendations", PvStr (one_line (get "recommendations" row)))].

(** [_safe_int(x.get("score"), 0)] *)
Definition score_of (x : dict) : Z := _safe_int (get "score" x) 0.

(** The key of the default sort,
    [(-_safe_int(x.get("score"), 0), (x.get("title") or "").lower())],
    on a sanitized row, whose title is a [str]. *)
Definition sort_key (x : dict) : Z * text :=
  (- score_of x,
   match get "title" x with
   | PvStr s => str_lower ucd s
   | _ => []
   end)%Z.

(** [list.sort] is stable: a row goes in front of the first row whose key
    is not smaller than its own, so behind the rows with a smaller key and
    in front of the later rows with an equal key. *)
Fixpoint insert_row (x : dict) (sorted : list dict) : list dict :=
  match sorted with
  | [] => [x]
  | y :: tl =>
      if key_ltb (sort_key y) (sort_key x) then y :: insert_row x tl
      else x :: y :: tl
  end.

(** [data.sort(key=...)] *)
Definition sort_rows (data : list dict) : list dict :=
  fold_right insert_row [] data.

(** The rows of the payload: sanitized, then sorted. *)
Definition report_rows (rows : list dict) : list dict :=
  sort_rows (map _sanitize_row rows).

End HtmlReporter.
End html_reporter.

(** No later row has a smaller sort key. *)
Definition key_ordered (py : builtins) (ucd : unicode_db) (a b : dict) : Prop :=
  key_ltb (html_reporter.sort_key py ucd b) (html_reporter.sort_key py ucd a)
  = false.

(** No later row has a higher score. *)
Definition score_ordered (py : builtins) (a b : dict) : Prop :=
  (html_reporter.score_of py b <= html_reporter.score_of py a)%Z.

(** ** Properties *)

Lemma text_eqb_eq (a b : text) : text_eqb a b = true <-> a = b.
Proof.
  unfold text_eqb. destruct (list_eq_dec N.eq_dec a b); split; congruence.
Qed.

(** *** The aggregation *)

Lemma as_strlike_or_empty_str (t : text) :
  as_strlike (or_empty (PyStr t)) = Ok (SStr t).
Proof. destruct t; reflexivity. Qed.

Lemma nonempty_length (t : text) : (0 <? List.length t)%nat = nonempty t.
Proof. destruct t; reflexivity. Qed.

(** For a title that is a [str] the loop returns the first match that
    passes its three tests. *)
Lemma definition_loop_str ucd window (title_l : text) strict ms :
  definition_loop ucd window (SStr title_l) strict ms
  = Ok (List.find (definition_accepts ucd window title_l strict) ms).
Proof.
  induction ms as [ | m tl IH]; [ reflexivity | ].
  cbn [definition_loop List.find]. rewrite IH.
  remember (List.find (definition_accepts ucd window title_l strict) tl)
    as rest.
  unfold definition_accepts.
  cbv zeta. unfold sl_truthy. cbn [sl_len not_in bind].
  rewrite nonempty_length.
  destruct (nonempty (strip (group window 1 m))); cbn [negb andb];
    [ | reflexivity ].
  destruct (existsb _ DEFINITION_STOPWORDS); cbn [negb andb];
    [ reflexivity | ].
  destruct strict; cbn [andb negb]; [ | reflexivity ].
  destruct (nonempty title_l); cbn [andb negb]; [ | reflexivity ].
  destruct (contains _ title_l); reflexivity.
Qed.

(** For a title that is a [bytes] the strict loop raises on the first match
    with a proper term, when the title is not blank. *)
Lemma definition_loop_bytes ucd window (title_b : bytes) strict ms :
  definition_loop ucd window (SBytes title_b) strict ms
  = match List.find (definition_accepts ucd window [] false) ms with
    | Some m =>
        if strict && sl_truthy (SBytes title_b) then Raise TypeError
        else Ok (Some m)
    | None => Ok None
    end.
Proof.
  induction ms as [ | m tl IH]; [ reflexivity | ].
  cbn [definition_loop List.find]. rewrite IH.
  remember (List.find (definition_accepts ucd window [] false) tl) as rest.
  unfold definition_accepts.
  cbv zeta. cbn [not_in bind andb negb].
  destruct (nonempty (strip (group window 1 m))); cbn [negb andb];
    [ | reflexivity ].
  destruct (existsb _ DEFINITION_STOPWORDS); cbn [negb andb];
    [ reflexivity | ].
  destruct (strict && sl_truthy (SBytes title_b)); reflexivity.
Qed.

(** The definition check on a title that is a [str]. *)
Lemma check_definition_on_str ucd (plain title : text) strict w :
  check_definition ucd plain (PyStr title) strict w
  = let window := firstn (Z.to_nat (Z.max 0 w)) (strip plain) in
    match List.find
            (definition_accepts ucd window (strip (str_lower ucd title))
               strict)
            (finditer ucd true DEFINITION_RE window) with
    | Some m =>
        Ok (true,
            {| definition_match := group0 window m;
               term := strip (group window 1 m);
               definition_strict := strict;
               window_chars := w |})
    | None =>
        Ok (false,
            {| definition_match := [];
               term := [];
               definition_strict := strict;
               window_chars := w |})
    end.
Proof.
  unfold check_definition. rewrite as_strlike_or_empty_str.
  cbv zeta. cbn [bind sl_lower sl_strip].
  rewrite definition_loop_str. reflexivity.
Qed.

(** The meta description check on a [str]. *)
Lemma check_meta_description_on_str (meta : text) lo hi :
  check_meta_description (PyStr meta) lo hi
  = let n := List.length (strip meta) in
    Ok (at_least n lo && (Z.of_nat n <=? hi)%Z,
        {| meta_len := n; min_len := lo; max_len := hi |}).
Proof.
  unfold check_meta_description. rewrite as_strlike_or_empty_str.
  reflexivity.
Qed.

Lemma check_definition_str ucd (plain title : text) strict w :
  exists b d, check_definition ucd plain (PyStr title) strict w = Ok (b, d).
Proof.
  rewrite check_definition_on_str. cbv zeta.
  destruct (List.find _ _); eauto.
Qed.

Lemma check_meta_description_str (meta : text) lo hi :
  exists b d, check_meta_description (PyStr meta) lo hi = Ok (b, d).
Proof.
  rewrite check_meta_description_on_str. cbv zeta. eauto.
Qed.

Lemma append_unless_length ok key recs :
  List.length (append_unless ok key recs)
  = List.length recs + (if ok then 0 else 1).
Proof.
  unfold append_unless. destruct ok.
  - lia.
  - rewrite length_app. reflexivity.
Qed.

Lemma count_true_cons b flags :
  count_true (b :: flags) = (if b then 1 else 0) + count_true flags.
Proof. destruct b; reflexivity. Qed.

Lemma count_true_le flags : count_true flags <= List.length flags.
Proof. unfold count_true. apply filter_length_le. Qed.

(** Opens a returned result: names the verdict and the evidence of each
    check, drops the cases where a check raised, and replaces the result by
    the record the analyzer builds. *)
Ltac returned_result :=
  let H := fresh "H" in
  destruct (check_direct_answer _ _) as [b1 d1];
  destruct (check_definition _ _ _ _ _) as [[b2 d2] | ?]; [ | discriminate ];
  unfold bind at 1;
  destruct (check_h2_headings _ _) as [b3 d3];
  destruct (check_facts _ _ _) as [b4 d4];
  destruct (check_sources _ _ _ _) as [b5 d5];
  destruct (check_faq _ _ _) as [b6 d6];
  destruct (check_lists _ _) as [b7 d7];
  destruct (check_tables _ _) as [b8 d8];
  destruct (check_word_count _ _ _) as [b9 d9];
  destruct (check_meta_description _ _ _) as [[b10 d10] | ?];
    [ | discriminate ];
  unfold bind; intros H; injection H as <-.

(** What every returned result satisfies, whatever the arguments were. *)
Lemma analyze_article_invariant ucd parser content_html meta title strict r :
  analyze_article ucd parser content_html meta title strict = Ok r ->
  score r = count_true (verdicts r)
  /\ List.length (recommendations r) + score r = 10.
Proof.
  unfold analyze_article. returned_result.
  unfold verdicts. cbn [score recommendations direct_answer definition
    headings facts sources faq lists tables word_count_ok meta_ok].
  split; [ reflexivity | ].
  rewrite !append_unless_length, !count_true_cons.
  destruct b1, b2, b3, b4, b5, b6, b7, b8, b9, b10; reflexivity.
Qed.

(** With [str] arguments the analyzer returns a result, whatever the parser
    does. *)
Lemma analyze_article_returns ucd parser content_html (meta title : text)
    strict :
  exists r,
    analyze_article ucd parser content_html (PyStr meta) (PyStr title) strict
    = Ok r.
Proof.
  unfold analyze_article.
  destruct (check_direct_answer _ _) as [b1 d1].
  destruct (check_definition_str ucd
              (_plain_text_from_soup
                 match _html_to_soup parser content_html with
                 | Ok s => s
                 | Raise _ => empty_soup
                 end) title strict 1200) as (b2 & d2 & ->).
  unfold bind at 1.
  destruct (check_h2_headings _ _) as [b3 d3].
  destruct (check_facts _ _ _) as [b4 d4].
  destruct (check_sources _ _ _ _) as [b5 d5].
  destruct (check_faq _ _ _) as [b6 d6].
  destruct (check_lists _ _) as [b7 d7].
  destruct (check_tables _ _) as [b8 d8].
  destruct (check_word_count _ _ _) as [b9 d9].
  destruct (check_meta_description_str meta 120 160) as (b10 & d10 & ->).
  unfold bind. eauto.
Qed.

(** C1: for every input the analyzer returns a result whose score is the
    number of true verdicts among the ten criteria, lies between 0 and 10,
    and leaves exactly [10 - score] recommendations. *)
Theorem C1_score_counts_verdicts :
  forall ucd parser content_html (meta_description title : text) strict,
  exists r,
    analyze_article ucd parser content_html (PyStr meta_description)
      (PyStr title) strict = Ok r
    /\ score r = count_true (verdicts r)
    /\ 0 <= score r <= 10
    /\ List.length (recommendations r) = 10 - score r.
Proof.
  intros ucd parser content_html meta title strict.
  destruct (analyze_article_returns ucd parser content_html meta title strict)
    as [r Hr].
  exists r. split; [ exact Hr | ].
  destruct (analyze_article_invariant _ _ _ _ _ _ _ Hr) as [Hscore Hlen].
  repeat split; lia.
Qed.

(** *** The strict flag *)

Lemma analyze_article_lenient ucd parser content_html meta title strict r :
  analyze_article ucd parser content_html meta title strict = Ok r ->
  lenient_verdicts r
  = lenient_checks ucd (document_of parser content_html) meta.
Proof.
  unfold analyze_article, lenient_checks, document_of.
  returned_result. reflexivity.
Qed.

Lemma analyze_article_strict_fields ucd parser content_html meta title
    strict r :
  analyze_article ucd parser content_html meta title strict = Ok r ->
  verdict_of
    (check_definition ucd
       (_plain_text_from_soup (document_of parser content_html)) title
       strict 1200) = Ok (definition r)
  /\ sources r
     = fst (check_sources ucd
              (_plain_text_from_soup (document_of parser content_html))
              (document_of parser content_html) strict).
Proof.
  unfold analyze_article, document_of.
  returned_result. split; reflexivity.
Qed.

(** A match the strict loop accepts is accepted by the non-strict loop. *)
Lemma definition_accepts_lenient ucd window title_l m :
  definition_accepts ucd window title_l true m = true ->
  definition_accepts ucd window title_l false m = true.
Proof.
  unfold definition_accepts. intros H.
  apply andb_true_iff in H. destruct H as [H _].
  rewrite H. reflexivity.
Qed.

Lemma check_definition_tightens ucd plain title w :
  verdict_of (check_definition ucd plain title true w) = Ok true ->
  verdict_of (check_definition ucd plain title false w) = Ok true.
Proof.
  unfold check_definition.
  destruct (as_strlike (or_empty title)) as [t | e]; [ | discriminate ].
  unfold verdict_of. cbv zeta. cbn [bind].
  destruct (sl_strip (sl_lower ucd t)) as [title_l | title_b].
  - rewrite !definition_loop_str. cbn [bind].
    destruct (List.find (definition_accepts ucd _ _ true) _) as [m | ] eqn:Hs;
      [ | discriminate ].
    intros _. apply find_some in Hs. destruct Hs as [Hin Hacc].
    destruct (List.find (definition_accepts ucd _ _ false) _) as [m' | ]
      eqn:Hl; [ reflexivity | ].
    apply (find_none _ _ Hl) in Hin.
    apply definition_accepts_lenient in Hacc. congruence.
  - rewrite !definition_loop_bytes. cbn [andb].
    destruct (List.find _ _) as [m | ]; [ | discriminate ].
    destruct (sl_truthy (SBytes title_b)); [ discriminate | reflexivity ].
Qed.

Lemma check_sources_tightens ucd plain s :
  fst (check_sources ucd plain s true) = true ->
  fst (check_sources ucd plain s false) = true.
Proof.
  unfold check_sources. cbn [fst].
  destruct (search ucd true SOURCE_TEXT_RE plain);
    destruct (0 <? _)%nat; cbn; congruence.
Qed.

(** C8: on the same article the strict and the non-strict run both return,
    and they agree on the eight verdicts other than definition and sources
    (direct_answer, headings, facts, faq, lists, tables, word_count_ok,
    meta_ok); on definition and sources the strict run can only be the
    harder one. *)
Theorem C8_strict_only_touches_definition_and_sources :
  forall ucd parser content_html (meta_description title : text),
  exists r_strict r_lenient,
    analyze_article ucd parser content_html (PyStr meta_description)
      (PyStr title) true = Ok r_strict
    /\ analyze_article ucd parser content_html (PyStr meta_description)
         (PyStr title) false = Ok r_lenient
    /\ lenient_verdicts r_strict = lenient_verdicts r_lenient
    /\ implb (definition r_strict) (definition r_lenient) = true
    /\ implb (sources r_strict) (sources r_lenient) = true.
Proof.
  intros ucd parser content_html meta title.
  destruct (analyze_article_returns ucd parser content_html meta title true)
    as [r1 H1].
  destruct (analyze_article_returns ucd parser content_html meta title false)
    as [r2 H2].
  exists r1, r2. split; [ exact H1 | ]. split; [ exact H2 | ].
  split.
  - rewrite (analyze_article_lenient _ _ _ _ _ _ _ H1).
    rewrite (analyze_article_lenient _ _ _ _ _ _ _ H2).
    reflexivity.
  - destruct (analyze_article_strict_fields _ _ _ _ _ _ _ H1) as [Hd1 Hs1].
    destruct (analyze_article_strict_fields _ _ _ _ _ _ _ H2) as [Hd2 Hs2].
    split.
    + destruct (definition r1); [ | reflexivity ].
      apply check_definition_tightens in Hd1.
      rewrite Hd1 in Hd2. injection Hd2 as <-. reflexivity.
    + destruct (sources r1); [ | reflexivity ].
      symmetry in Hs1. apply check_sources_tightens in Hs1.
      rewrite Hs1 in Hs2. rewrite Hs2. reflexivity.
Qed.

(** *** The definition check *)

Lemma definition_re_empty ucd : finditer ucd true DEFINITION_RE [] = [].
Proof. vm_compute. reflexivity. Qed.

Lemma check_definition_empty_window ucd (plain title : text) strict w :
  (w <= 0)%Z ->
  check_definition ucd plain (PyStr title) strict w
  = Ok (false,
        {| definition_match := []; term := [];
           definition_strict := strict; window_chars := w |}).
Proof.
  intros Hw. rewrite check_definition_on_str. cbv zeta.
  replace (Z.to_nat (Z.max 0 w)) with 0%nat by lia.
  cbn [firstn]. rewrite definition_re_empty. reflexivity.
Qed.

(** C10: when the window override is zero or negative, the definition
    check answers false, for every text, title and strict value. *)
Theorem C10_nonpositive_window_fails :
  forall ucd (plain_text title : text) (strict : bool) (window : Z),
    (window <= 0)%Z ->
    verdict_of (check_definition ucd plain_text (PyStr title) strict window)
    = Ok false.
Proof.
  intros ucd plain title strict w Hw.
  rewrite check_definition_empty_window by exact Hw. reflexivity.
Qed.

Lemma C10_nonpositive_window_fails_witness :
  (-5 <= 0)%Z
  /\ verdict_of
       (check_definition basic_db (U "Kreatín je doplnok výživy")
          (PyStr (U "Kreatín")) false (-5))
     = Ok false.
Proof.
  split; [ lia | ].
  apply (C10_nonpositive_window_fails basic_db (U "Kreatín je doplnok výživy")
           (U "Kreatín") false (-5)%Z).
  lia.
Defined.

(** With an empty title the strict test of the loop is never taken. *)
Lemma definition_accepts_no_title ucd window strict m :
  definition_accepts ucd window [] strict m
  = definition_accepts ucd window [] false m.
Proof.
  unfold definition_accepts. destruct strict; reflexivity.
Qed.

Lemma find_ext {A : Type} (f g : A -> bool) (l : list A) :
  (forall x, f x = g x) -> List.find f l = List.find g l.
Proof.
  intros H. induction l as [ | x l IH]; [ reflexivity | ].
  cbn. rewrite H, IH. reflexivity.
Qed.

Lemma check_definition_no_title ucd plain title w :
  or_empty title = PyStr [] ->
  verdict_of (check_definition ucd plain title true w)
  = verdict_of (check_definition ucd plain title false w).
Proof.
  intros Ht. unfold check_definition. rewrite Ht.
  cbv zeta. cbn [as_strlike bind sl_lower sl_strip].
  change (strip (str_lower ucd [])) with ([] : text).
  rewrite !definition_loop_str. cbn [bind].
  rewrite (find_ext _ _ _ (definition_accepts_no_title ucd _ true)).
  destruct (List.find _ _); reflexivity.
Qed.

(** C6: the text beginning "Kreatín je doplnok výživy…" passes the
    definition check with title "Kreatín" in both modes, passes with title
    "Vitamíny" in non-strict mode only, and with an empty (or missing) title
    the strict run gives the verdict of the non-strict run. *)
Theorem C6_definition_examples :
  forall ucd,
    verdict_of (check_definition ucd kreatin_text (PyStr (U "Kreatín"))
                  false 1200) = Ok true
    /\ verdict_of (check_definition ucd kreatin_text (PyStr (U "Kreatín"))
                     true 1200) = Ok true
    /\ verdict_of (check_definition ucd kreatin_text (PyStr (U "Vitamíny"))
                     false 1200) = Ok true
    /\ verdict_of (check_definition ucd kreatin_text (PyStr (U "Vitamíny"))
                     true 1200) = Ok false
    /\ (forall plain window,
          verdict_of (check_definition ucd plain (PyStr []) true window)
          = verdict_of (check_definition ucd plain (PyStr []) false window))
    /\ (forall plain window,
          verdict_of (check_definition ucd plain PyNone true window)
          = verdict_of (check_definition ucd plain PyNone false window)).
Proof.
  intros ucd.
  split; [ vm_compute; reflexivity | ].
  split; [ vm_compute; reflexivity | ].
  split; [ vm_compute; reflexivity | ].
  split; [ vm_compute; reflexivity | ].
  split; intros plain w; apply check_definition_no_title; reflexivity.
Qed.

(** *** The facts check *)

(** C2: on the text "5 mg, 10%, 200 kcal" the facts check finds two
    matches, "5 mg" and "200 kcal", and fails: the [\b] that closes
    UNITS_NUMBER_RE cannot hold after "%" unless a word character follows,
    so "10%" is not counted, while the pattern the check documents counts
    all three; the article made of this text has a false facts verdict.  A
    text with exactly two matches fails. *)
Theorem C2_facts_percent_not_counted :
  forall ucd,
    map (group0 three_facts_text)
      (finditer ucd true UNITS_NUMBER_RE three_facts_text)
    = [U "5 mg"; U "200 kcal"]
    /\ fst (check_facts ucd three_facts_text 3) = false
    /\ numbers_with_units_found (snd (check_facts ucd three_facts_text 3)) = 2
    /\ map (group0 three_facts_text)
         (finditer ucd true units_regex_documented three_facts_text)
       = [U "5 mg"; U "10%"; U "200 kcal"]
    /\ fst (check_facts ucd (U "5 mg 10% 200 kcal") 3) = false
    /\ fst (check_facts ucd (U "5 mg 10%200 kcal") 3) = true
    /\ (exists r,
          analyze_article ucd plain_parser (PyStr three_facts_text)
            (PyStr []) (PyStr []) false = Ok r
          /\ facts r = false)
    /\ (forall plain,
          numbers_with_units_found (snd (check_facts ucd plain 3)) = 2 ->
          fst (check_facts ucd plain 3) = false).
Proof.
  intros ucd.
  do 6 (split; [ vm_compute; reflexivity | ]).
  split; [ eexists; split; vm_compute; reflexivity | ].
  intros plain H. unfold check_facts in *. cbn [fst snd] in *.
  cbn [numbers_with_units_found] in H. rewrite H. reflexivity.
Qed.

(** *** The sources check *)

Lemma search_found ucd (r : regex) (t : text) :
  (0 <? List.length (finditer ucd true r t))%nat = true
  <-> exists m, search ucd true r t = Some m.
Proof.
  unfold search. destruct (finditer ucd true r t) as [ | m tl].
  - split; [ discriminate | intros [m H]; discriminate ].
  - split; [ intros _; now exists m | reflexivity ].
Qed.

Lemma filter_found {A : Type} (f : A -> bool) (l : list A) :
  (0 <? List.length (filter f l))%nat = true
  <-> exists x, In x l /\ f x = true.
Proof.
  split.
  - destruct (filter f l) as [ | x tl] eqn:E; [ discriminate | ].
    intros _. exists x. apply filter_In. rewrite E. now left.
  - intros (x & Hx). apply filter_In in Hx.
    destruct (filter f l); [ destruct Hx | reflexivity ].
Qed.

Lemma startswith_prefix (p t : text) :
  startswith p t = true <-> exists rest, t = (p ++ rest)%list.
Proof.
  revert t. induction p as [ | c p IH]; intros t; cbn [startswith app].
  - split; [ intros _; now exists t | reflexivity ].
  - destruct t as [ | d t].
    + split; [ discriminate | intros [r H]; discriminate ].
    + rewrite andb_true_iff, N.eqb_eq, IH. split.
      * intros [-> [rest ->]]. now exists rest.
      * intros [rest H]. injection H as -> ->.
        split; [ reflexivity | now exists rest ].
Qed.

Lemma is_http_link_prefix ucd (h : text) :
  is_http_link ucd h = true
  <-> exists rest,
        str_lower ucd h = (U "http://" ++ rest)%list
        \/ str_lower ucd h = (U "https://" ++ rest)%list.
Proof.
  unfold is_http_link. cbv zeta.
  rewrite orb_true_iff, !startswith_prefix. split.
  - intros [[rest H] | [rest H]]; exists rest; [ now left | now right ].
  - intros [rest [H | H]]; [ left | right ]; now exists rest.
Qed.

(** [find_all] finds the tags of the tree that pass the selector. *)
Lemma in_find_all_in (p : selector) (n x : node) :
  In x (find_all_in p n)
  <-> In x (descendants_in n)
      /\ exists name a ch, x = Tag name a ch /\ p name a = true.
Proof.
  induction n as [name a ch IH | k t] using node_ind.
  - cbn [find_all_in descendants_in]. rewrite Forall_forall in IH. split.
    + intros H. apply in_app_or in H. destruct H as [H | H].
      * destruct (p name a) eqn:Hp; [ | destruct H ].
        destruct H as [<- | []]. split; [ now left | ].
        now exists name, a, ch.
      * apply in_flat_map in H. destruct H as (c & Hc & H).
        apply (IH c Hc) in H. destruct H as [H Hx].
        split; [ | exact Hx ]. right. apply in_flat_map. now exists c.
    + intros [[<- | H] (name' & a' & ch' & Hx & Hp)].
      * injection Hx as <- <- <-. apply in_or_app. left.
        rewrite Hp. now left.
      * apply in_or_app. right. apply in_flat_map in H.
        destruct H as (c & Hc & H). apply in_flat_map. exists c.
        split; [ exact Hc | ]. apply (IH c Hc). split; [ exact H | ].
        now exists name', a', ch'.
  - cbn [find_all_in descendants_in]. split; [ intros [] | ].
    intros [[<- | []] (name & a & ch & Hx & _)]. discriminate.
Qed.

Lemma in_find_all (p : selector) (s : soup) (x : node) :
  In x (find_all p s)
  <-> In x (descendants s)
      /\ exists name a ch, x = Tag name a ch /\ p name a = true.
Proof.
  unfold find_all, descendants. rewrite !in_flat_map. split.
  - intros (n & Hn & H). apply in_find_all_in in H. destruct H as [H Hx].
    split; [ now exists n | exact Hx ].
  - intros [(n & Hn & H) Hx]. exists n. split; [ exact Hn | ].
    apply in_find_all_in. now split.
Qed.

(** The hrefs the check collects are the link targets of the document. *)
Lemma in_hrefs_of (s : soup) (h : text) :
  In h (hrefs_of s) <-> link_target s h.
Proof.
  unfold hrefs_of, link_target. rewrite in_flat_map. split.
  - intros (x & Hx & Hh). apply in_find_all in Hx.
    destruct Hx as [Hx (name & a & ch & -> & Hp)].
    unfold sel_and, by_name, has_attr in Hp.
    apply andb_true_iff in Hp. destruct Hp as [Hname _].
    apply text_eqb_eq in Hname. subst name.
    cbn [node_attr] in Hh.
    destruct (attr_get (U "href") a) as [h' | ] eqn:Ha; [ | destruct Hh ].
    destruct Hh as [<- | []]. now exists a, ch.
  - intros (a & ch & Hx & Ha). exists (Tag (U "a") a ch). split.
    + apply in_find_all. split; [ exact Hx | ].
      exists (U "a"), a, ch. split; [ reflexivity | ].
      unfold sel_and, by_name, has_attr. rewrite Ha.
      apply andb_true_iff. split; [ now apply text_eqb_eq | reflexivity ].
    + cbn [node_attr]. rewrite Ha. now left.
Qed.

(** C5: over a document without links the text "Zdroje" passes the sources
    check in non-strict mode and fails it in strict mode; more generally,
    without links the strict check fails on every text and the non-strict
    check passes exactly when the text has a sources hint.  For every text
    and document, the strict check passes exactly when a whitelisted domain
    is found in the link targets, or the text has a sources hint and the
    document has at least one http(s) link; the link targets are the hrefs
    of the [a] tags of the tree.  So with the hint "Zdroje" a link to
    example.com passes strict mode, in small or capital letters, and a
    relative link does not; without a hint a link to example.com fails and
    a link to who.int passes. *)
Theorem C5_sources_modes :
  forall ucd (s : soup),
    hrefs_of s = [] ->
    fst (check_sources ucd (U "Zdroje") s false) = true
    /\ fst (check_sources ucd (U "Zdroje") s true) = false
    /\ (forall plain,
          fst (check_sources ucd plain s true) = false
          /\ (fst (check_sources ucd plain s false) = true
              <-> sources_hint ucd plain))
    /\ (forall plain doc,
          fst (check_sources ucd plain doc true) = true
          <-> whitelist_match ucd doc
              \/ (sources_hint ucd plain /\ has_http_link ucd doc))
    /\ (forall doc h, In h (hrefs_of doc) <-> link_target doc h)
    /\ fst (check_sources ucd (U "Zdroje")
              (link_doc (U "https://example.com/a")) true) = true
    /\ fst (check_sources ucd (U "Zdroje")
              (link_doc (U "HTTP://EXAMPLE.COM/A")) true) = true
    /\ fst (check_sources ucd (U "Zdroje") (link_doc (U "/zdroje")) true)
       = false
    /\ fst (check_sources ucd (U "Text")
              (link_doc (U "https://example.com/a")) true) = false
    /\ fst (check_sources ucd (U "Text")
              (link_doc (U "https://who.int/x")) true) = true.
Proof.
  intros ucd s Hs.
  assert (Hstrict : forall plain doc,
            fst (check_sources ucd plain doc true) = true
            <-> whitelist_match ucd doc
                \/ (sources_hint ucd plain /\ has_http_link ucd doc)).
  { intros plain doc. unfold check_sources. cbn [fst].
    unfold whitelist_match, sources_hint, has_http_link.
    rewrite orb_true_iff, andb_true_iff, search_found, filter_found.
    assert (Hhint : (match search ucd true SOURCE_TEXT_RE plain with
                     | Some _ => true
                     | None => false
                     end) = true
                    <-> exists m, search ucd true SOURCE_TEXT_RE plain = Some m).
    { destruct (search ucd true SOURCE_TEXT_RE plain) as [m | ].
      - split; [ intros _; now exists m | reflexivity ].
      - split; [ discriminate | intros [m H]; discriminate ]. }
    rewrite Hhint.
    assert (Hlink : (exists h, In h (hrefs_of doc) /\ is_http_link ucd h = true)
                    <-> exists h rest,
                          link_target doc h
                          /\ (str_lower ucd h = (U "http://" ++ rest)%list
                              \/ str_lower ucd h = (U "https://" ++ rest)%list)).
    { split.
      - intros (h & Hh & Hp). apply is_http_link_prefix in Hp.
        destruct Hp as [rest Hp]. exists h, rest.
        split; [ now apply in_hrefs_of | exact Hp ].
      - intros (h & rest & Hh & Hp). exists h.
        split; [ now apply in_hrefs_of | ].
        apply is_http_link_prefix. now exists rest. }
    rewrite Hlink. reflexivity. }
  split; [ unfold check_sources; rewrite Hs; vm_compute; reflexivity | ].
  split; [ unfold check_sources; rewrite Hs; vm_compute; reflexivity | ].
  split.
  { intros plain. unfold check_sources. rewrite Hs.
    cbn [fst snd].
    change (finditer ucd true SOURCE_DOMAIN_RE (join (U " ") []))
      with ([] : list rematch).
    cbn [List.length filter].
    change (0 <? 0)%nat with false.
    rewrite andb_false_r, !orb_false_r.
    split; [ reflexivity | ].
    unfold sources_hint.
    destruct (search ucd true SOURCE_TEXT_RE plain) as [m | ].
    - split; [ intros _; now exists m | reflexivity ].
    - split; [ discriminate | intros [m H]; discriminate ]. }
  split; [ exact Hstrict | ].
  split; [ intros doc h; apply in_hrefs_of | ].
  repeat split; vm_compute; reflexivity.
Qed.

Lemma C5_sources_modes_witness :
  hrefs_of zdroje_doc = []
  /\ fst (check_sources basic_db (U "Zdroje") zdroje_doc false) = true
  /\ fst (check_sources basic_db (U "Zdroje") zdroje_doc true) = false.
Proof.
  split; [ reflexivity | ].
  destruct (C5_sources_modes basic_db zdroje_doc eq_refl) as (H1 & H2 & _).
  split; assumption.
Defined.

(** C9: the only link of [redirect_doc] points to example.com, which the
    whitelist pattern does not match where the href starts, yet the href
    is counted as one whitelisted link because the pattern is searched in
    the joined href text, where it finds "https://who.int" in the query
    string; the check passes in both modes. *)
Theorem C9_whitelist_matches_inside_href :
  forall ucd,
    hrefs_of redirect_doc = [redirect_href]
    /\ match_at ucd true SOURCE_DOMAIN_RE None 0 redirect_href = None
    /\ map (group0 (join (U " ") (hrefs_of redirect_doc)))
         (finditer ucd true SOURCE_DOMAIN_RE
            (join (U " ") (hrefs_of redirect_doc)))
       = [U "https://who.int"]
    /\ whitelisted_links_count
         (snd (check_sources ucd (_plain_text_from_soup redirect_doc)
                 redirect_doc false)) = 1
    /\ fst (check_sources ucd (_plain_text_from_soup redirect_doc)
              redirect_doc false) = true
    /\ fst (check_sources ucd (_plain_text_from_soup redirect_doc)
              redirect_doc true) = true.
Proof.
  intros ucd. repeat split; vm_compute; reflexivity.
Qed.

(** *** The empty article *)

Lemma html_to_soup_empty parser :
  parser [] = Ok empty_soup ->
  document_of parser (PyStr []) = empty_soup.
Proof.
  intros H. unfold document_of, _html_to_soup. cbn [_safe_str].
  rewrite H. reflexivity.
Qed.

Lemma check_definition_empty ucd (title : text) strict :
  check_definition ucd [] (PyStr title) strict 1200
  = Ok (false,
        {| definition_match := []; term := [];
           definition_strict := strict; window_chars := 1200 |}).
Proof.
  rewrite check_definition_on_str. cbv zeta.
  change (firstn (Z.to_nat (Z.max 0 1200)) (strip [])) with ([] : text).
  rewrite definition_re_empty. reflexivity.
Qed.

(** C7: when the parser gives the empty document for the empty string, an
    article with empty content and empty meta description gets a result
    with all ten verdicts false and score 0, for every title and either
    value of strict. *)
Theorem C7_empty_article_scores_zero :
  forall ucd parser (title : text) (strict : bool),
    parser [] = Ok empty_soup ->
    exists r,
      analyze_article ucd parser (PyStr []) (PyStr []) (PyStr title) strict
      = Ok r
      /\ verdicts r
         = [false; false; false; false; false; false; false; false; false;
            false]
      /\ score r = 0.
Proof.
  intros ucd parser title strict Hp.
  unfold analyze_article.
  change (match _html_to_soup parser (PyStr []) with
          | Ok s => s
          | Raise _ => empty_soup
          end) with (document_of parser (PyStr [])).
  rewrite (html_to_soup_empty parser Hp).
  change (_plain_text_from_soup empty_soup) with ([] : text).
  rewrite check_definition_empty.
  destruct strict; eexists; (split; [ reflexivity | split; reflexivity ]).
Qed.

Lemma C7_empty_article_scores_zero_witness :
  plain_parser [] = Ok empty_soup
  /\ exists r,
       analyze_article basic_db plain_parser (PyStr []) (PyStr [])
         (PyStr (U "Kreatín")) true = Ok r
       /\ verdicts r
          = [false; false; false; false; false; false; false; false; false;
             false]
       /\ score r = 0.
Proof.
  split; [ reflexivity | ].
  apply (C7_empty_article_scores_zero basic_db plain_parser (U "Kreatín") true).
  reflexivity.
Defined.

(** *** Noise removal *)

Lemma flat_map_forall {A B C : Type} (f : B -> list C) (g : A -> list B)
    (h : A -> list C) (l : list A) :
  Forall (fun x => flat_map f (g x) = h x) l ->
  flat_map f (flat_map g l) = flat_map h l.
Proof.
  induction 1 as [ | x l Hx _ IH]; [ reflexivity | ].
  cbn. rewrite flat_map_app, Hx, IH. reflexivity.
Qed.

Lemma flat_map_forall_ext {A B : Type} (f g : A -> list B) (l : list A) :
  Forall (fun x => f x = g x) l -> flat_map f l = flat_map g l.
Proof.
  induction 1 as [ | x l Hx _ IH]; [ reflexivity | ].
  cbn. rewrite Hx, IH. reflexivity.
Qed.

Lemma flat_map_nil {A B : Type} (l : list A) :
  flat_map (fun _ : A => ([] : list B)) l = [].
Proof. induction l; [ reflexivity | assumption ]. Qed.

Lemma flat_map_singleton {A : Type} (l : list A) :
  flat_map (fun x => [x]) l = l.
Proof. induction l as [ | x l IH]; [ reflexivity | cbn; now rewrite IH ]. Qed.

Lemma prune_ext (p q : selector) (n : node) :
  (forall name a, p name a = q name a) -> prune p n = prune q n.
Proof.
  intros Hpq. induction n as [name a ch IH | k s] using node_ind;
    [ | reflexivity ].
  cbn. rewrite Hpq. destruct (q name a); [ reflexivity | ].
  now rewrite (flat_map_forall_ext _ _ ch IH).
Qed.

Lemma decompose_all_ext (p q : selector) (s : soup) :
  (forall name a, p name a = q name a) ->
  decompose_all p s = decompose_all q s.
Proof.
  intros Hpq. unfold decompose_all. apply flat_map_forall_ext.
  apply Forall_forall. intros n _. now apply prune_ext.
Qed.

Lemma prune_nothing (n : node) : prune (fun _ _ => false) n = [n].
Proof.
  induction n as [name a ch IH | k s] using node_ind; [ | reflexivity ].
  cbn. rewrite (flat_map_forall_ext _ (fun x => [x]) ch IH).
  now rewrite flat_map_singleton.
Qed.

Lemma decompose_nothing (s : soup) : decompose_all (fun _ _ => false) s = s.
Proof.
  unfold decompose_all.
  rewrite (flat_map_forall_ext _ (fun x => [x])).
  - apply flat_map_singleton.
  - apply Forall_forall. intros n _. apply prune_nothing.
Qed.

(** Removing [p] and then [q] removes what either selects. *)
Lemma prune_twice (p q : selector) (n : node) :
  flat_map (prune q) (prune p n) = prune (sel_or p q) n.
Proof.
  induction n as [name a ch IH | k s] using node_ind; [ | reflexivity ].
  cbn. unfold sel_or at 1. destruct (p name a); [ reflexivity | ].
  cbn. destruct (q name a); [ reflexivity | ].
  rewrite app_nil_r. now rewrite (flat_map_forall _ _ _ ch IH).
Qed.

Lemma decompose_twice (p q : selector) (s : soup) :
  decompose_all q (decompose_all p s) = decompose_all (sel_or p q) s.
Proof.
  unfold decompose_all. apply flat_map_forall.
  apply Forall_forall. intros n _. apply prune_twice.
Qed.

Lemma strip_by_names (names : list text) (p0 : selector) (s : soup) :
  fold_left (fun acc tag_name => decompose_all (by_name tag_name) acc) names
    (decompose_all p0 s)
  = decompose_all
      (fun name a =>
         p0 name a || existsb (fun tag_name => by_name tag_name name a) names)
      s.
Proof.
  revert p0. induction names as [ | t names IH]; intros p0.
  - cbn. apply decompose_all_ext. intros name a. now rewrite orb_false_r.
  - cbn [fold_left]. rewrite decompose_twice, IH.
    apply decompose_all_ext. intros name a. unfold sel_or. cbn [existsb].
    now rewrite orb_assoc.
Qed.

(** [_strip_noise] is one pass that removes the noise tags. *)
Lemma strip_noise_decompose (s : soup) :
  _strip_noise s = decompose_all noise_selector s.
Proof.
  unfold _strip_noise.
  rewrite <- (decompose_nothing s) at 1.
  rewrite strip_by_names, decompose_twice.
  apply decompose_all_ext. intros name a. reflexivity.
Qed.

Lemma find_all_pruned (p : selector) (n : node) :
  flat_map (find_all_in p) (prune p n) = [].
Proof.
  induction n as [name a ch IH | k s] using node_ind; [ | reflexivity ].
  cbn. destruct (p name a) eqn:Hp; [ reflexivity | ].
  cbn. rewrite Hp, app_nil_r. cbn.
  rewrite (flat_map_forall _ _ (fun _ => []) ch IH). apply flat_map_nil.
Qed.

Lemma find_all_decomposed (p : selector) (s : soup) :
  find_all p (decompose_all p s) = [].
Proof.
  unfold find_all, decompose_all.
  rewrite (flat_map_forall _ _ (fun _ => []) s).
  - apply flat_map_nil.
  - apply Forall_forall. intros n _. apply find_all_pruned.
Qed.

Lemma strings_pruned (p : selector) (n : node) :
  flat_map strings_in (prune p n) = strings_outside_in p n.
Proof.
  induction n as [name a ch IH | k s] using node_ind.
  - cbn. destruct (p name a); [ reflexivity | ].
    cbn. rewrite app_nil_r. apply (flat_map_forall _ _ _ ch IH).
  - cbn. now rewrite app_nil_r.
Qed.

Lemma strings_decomposed (p : selector) (s : soup) :
  flat_map strings_in (decompose_all p s) = strings_outside p s.
Proof.
  unfold decompose_all, strings_outside. apply flat_map_forall.
  apply Forall_forall. intros n _. apply strings_pruned.
Qed.

(** C3, as stated, fails on a document with a script: [_strip_noise] leaves
    the document as it is, so the script block the specification counts as
    noise is still in the tree (where [check_faq] finds its FAQPage
    marker). *)
Lemma C3_script_is_kept :
  _strip_noise faq_schema_doc = faq_schema_doc
  /\ find_all spec_noise_selector (_strip_noise faq_schema_doc)
     = [json_ld_script]
  /\ has_faq_schema
       (snd (check_faq basic_db
               (_plain_text_from_soup (_strip_noise faq_schema_doc))
               (_strip_noise faq_schema_doc))) = true.
Proof. repeat split; vm_compute; reflexivity. Qed.

(** C3, amended: [_strip_noise] removes every header, footer, nav, aside,
    form and noscript tag and every tag with [aria-modal="true"], each with
    all that is below it, so the stripped tree has no such tag and the
    plain text is made of the strings that are not below one; a script tag
    is removed only when it carries [aria-modal="true"] itself. *)
Theorem C3_noise_removed_scripts_kept :
  forall s : soup,
    _strip_noise s = decompose_all noise_selector s
    /\ find_all noise_selector (_strip_noise s) = []
    /\ _plain_text_from_soup (_strip_noise s)
       = join (U " ")
           (filter nonempty (map strip (strings_outside noise_selector s)))
    /\ (forall a,
          noise_selector (U "script") a
          = by_attr (U "aria-modal") (U "true") (U "script") a).
Proof.
  intros s. split; [ apply strip_noise_decompose | ].
  rewrite strip_noise_decompose.
  split; [ apply find_all_decomposed | ].
  split.
  - unfold _plain_text_from_soup, get_text, stripped_strings.
    now rewrite strings_decomposed.
  - intros a. reflexivity.
Qed.

(** *** Exceptions *)







(** ** Further properties *)

Section MoreProperties.
Local Open Scope list_scope.
Local Open Scope nat_scope.

(** *** Counting words *)

Lemma atom_word ucd c : atom_match ucd false (ASet [CWord]) c = is_word ucd c.
Proof. cbn. apply orb_false_r. Qed.

Lemma run_len_zero ucd rest :
  run_len ucd rest = 0 -> word_at ucd (hd_error rest) = false.
Proof.
  destruct rest as [ | c tl]; [ reflexivity | ].
  cbn. destruct (is_word ucd c); [ discriminate | reflexivity ].
Qed.

Lemma run_len_pos ucd rest :
  0 < run_len ucd rest -> word_at ucd (hd_error rest) = true.
Proof.
  destruct rest as [ | c tl]; cbn; [ lia | ].
  destruct (is_word ucd c); [ reflexivity | lia ].
Qed.

(** On a run of word characters, greedy [\w+] takes the whole run and the
    closing [\b] holds there. *)
Lemma rep_word_run ucd start rest :
  forall prev pos min,
    0 < run_len ucd rest -> min <= run_len ucd rest ->
    rep_greedy ucd false (ASet [CWord]) min prev pos rest []
      (word_end ucd start)
    = Some {| m_start := start; m_end := pos + run_len ucd rest;
              m_groups := [] |}.
Proof.
  induction rest as [ | c tl IH]; intros prev pos min Hpos Hmin;
    [ cbn in Hpos; lia | ].
  cbn [rep_greedy]. rewrite atom_word. cbn [run_len] in *.
  destruct (is_word ucd c) eqn:Hc; [ | lia ].
  destruct (run_len ucd tl) as [ | n] eqn:Hn.
  - assert (Hmin' : pred min = 0) by lia. rewrite Hmin'.
    assert (Hstop :
      rep_greedy ucd false (ASet [CWord]) 0 (Some c) (S pos) tl []
        (word_end ucd start)
      = Some {| m_start := start; m_end := S pos; m_groups := [] |}).
    { pose proof (run_len_zero ucd tl Hn) as Hhd.
      destruct tl as [ | c' tl']; cbn [rep_greedy].
      - unfold word_end. cbn [word_at hd_error]. rewrite Hc. reflexivity.
      - rewrite atom_word. cbn [hd_error word_at] in Hhd. rewrite Hhd.
        unfold word_end. cbn [word_at hd_error]. rewrite Hc, Hhd.
        reflexivity. }
    rewrite Hstop. f_equal. f_equal. lia.
  - rewrite <- Hn in *. rewrite IH by lia. f_equal. f_equal. lia.
Qed.

(** Where WORD_RE matches: at the start of a run of word characters, and it
    matches the whole run. *)
Lemma match_at_word ucd prev pos rest :
  match_at ucd false WORD_RE prev pos rest
  = if negb (word_at ucd prev) && (0 <? run_len ucd rest)%nat
    then Some {| m_start := pos; m_end := pos + run_len ucd rest;
                 m_groups := [] |}
    else None.
Proof.
  unfold match_at, WORD_RE, seqs. cbn [fold_right rmatch].
  change (fun (prev' : option N) (pos' : nat) (rest' : text) (cs' : caps) =>
            if xorb (word_at ucd prev') (word_at ucd (hd_error rest'))
            then Some {| m_start := pos; m_end := pos'; m_groups := cs' |}
            else None) with (word_end ucd pos).
  destruct (0 <? run_len ucd rest)%nat eqn:Hrun.
  - apply Nat.ltb_lt in Hrun. rewrite (run_len_pos ucd rest Hrun).
    destruct (word_at ucd prev); cbn [xorb negb andb]; [ reflexivity | ].
    apply rep_word_run; lia.
  - apply Nat.ltb_ge in Hrun. assert (H0 : run_len ucd rest = 0) by lia.
    rewrite (run_len_zero ucd rest H0), andb_false_r.
    destruct (word_at ucd prev); cbn [xorb]; [ | reflexivity ].
    destruct rest as [ | c tl]; cbn [rep_greedy]; [ reflexivity | ].
    rewrite atom_word. cbn in H0.
    destruct (is_word ucd c); [ discriminate | reflexivity ].
Qed.

Lemma scan_word_runs ucd rest :
  forall prev pos skip,
    (skip = 0 ->
     List.length (scan ucd false WORD_RE prev pos rest skip)
     = word_runs ucd (word_at ucd prev) rest)
    /\ (skip <= run_len ucd rest -> word_at ucd prev = true ->
        List.length (scan ucd false WORD_RE prev pos rest skip)
        = word_runs ucd true rest).
Proof.
  induction rest as [ | c tl IH]; intros prev pos skip.
  - assert (H0 : List.length (scan ucd false WORD_RE prev pos [] 0) = 0).
    { cbn [scan]. rewrite match_at_word. cbn [run_len].
      rewrite andb_false_r. reflexivity. }
    split.
    + intros ->. exact H0.
    + cbn [run_len]. intros Hs _. assert (skip = 0) as -> by lia. exact H0.
  - assert (Hfirst :
      List.length (scan ucd false WORD_RE prev pos (c :: tl) 0)
      = word_runs ucd (word_at ucd prev) (c :: tl)).
    { cbn [scan word_runs]. rewrite match_at_word. cbn [run_len].
      destruct (word_at ucd prev) eqn:Hprev; cbn [negb andb].
      - rewrite andb_false_r. cbn [Nat.add].
        apply (proj1 (IH (Some c) (S pos) 0) eq_refl).
      - destruct (is_word ucd c) eqn:Hc; cbn [andb Nat.ltb Nat.leb].
        + cbn [List.length m_end Nat.add]. f_equal.
          replace (pos + S (run_len ucd tl) - pos - 1) with (run_len ucd tl)
            by lia.
          apply (proj2 (IH (Some c) (S pos) (run_len ucd tl)));
            [ lia | exact Hc ].
        + cbn [Nat.add].
          rewrite (proj1 (IH (Some c) (S pos) 0) eq_refl).
          cbn [word_at]. rewrite Hc. reflexivity. }
    split.
    + intros ->. exact Hfirst.
    + intros Hs Hprev. destruct skip as [ | k].
      * rewrite Hfirst, Hprev. reflexivity.
      * cbn [run_len] in Hs. cbn [scan word_runs].
        destruct (is_word ucd c) eqn:Hc; [ | lia ].
        cbn [andb negb Nat.add].
        apply (proj2 (IH (Some c) (S pos) k)); [ lia | exact Hc ].
Qed.

Lemma count_words_word_runs ucd (t : text) :
  _count_words ucd t = word_runs ucd false t.
Proof.
  unfold _count_words, finditer.
  apply (proj1 (scan_word_runs ucd t None 0 0) eq_refl).
Qed.

(** X1: the word count of a text is the number of its maximal runs of
    word characters (letters, digits, underscore). *)
Theorem X1_count_words_is_word_runs :
  forall ucd (t : text), _count_words ucd t = word_runs ucd false t.
Proof. exact count_words_word_runs. Qed.

(** *** What a returned result holds *)

(** Every verdict and every evidence record of a returned result is the
    output of the check it is named after, run on the stripped document
    and its plain text. *)
Lemma analyze_article_checks ucd parser content_html meta title strict r :
  analyze_article ucd parser content_html meta title strict = Ok r ->
  let s := document_of parser content_html in
  let plain := _plain_text_from_soup s in
  let d := audit_details r in
  check_direct_answer ucd plain = (direct_answer r, d_direct_answer d)
  /\ check_definition ucd plain title strict 1200
     = Ok (definition r, d_definition d)
  /\ check_h2_headings s 3 = (headings r, d_headings d)
  /\ check_facts ucd plain 3 = (facts r, d_facts d)
  /\ check_sources ucd plain s strict = (sources r, d_sources d)
  /\ check_faq ucd plain s = (faq r, d_faq d)
  /\ check_lists s 1 = (lists r, d_lists d)
  /\ check_tables s 1 = (tables r, d_tables d)
  /\ check_word_count ucd plain 500 = (word_count_ok r, d_word_count_ok d)
  /\ check_meta_description meta 120 160 = Ok (meta_ok r, d_meta_ok d).
Proof.
  unfold analyze_article, document_of.
  returned_result. repeat split; reflexivity.
Qed.

(** *** Word runs and the plain text *)

Lemma word_runs_app ucd (a c : text) :
  forall b,
    word_runs ucd b (a ++ c)
    = word_runs ucd b a
      + word_runs ucd (fold_left (fun _ ch => is_word ucd ch) a b) c.
Proof.
  induction a as [ | x a IH]; intros b; cbn [app word_runs fold_left].
  - reflexivity.
  - rewrite IH. lia.
Qed.

Lemma word_runs_join_space ucd (parts : list text) :
  word_runs ucd false (join (U " ") parts)
  = list_sum (map (word_runs ucd false) parts).
Proof.
  change (U " ") with [32%N].
  induction parts as [ | p tl IH]; [ reflexivity | ].
  destruct tl as [ | q tl].
  - cbn. lia.
  - change (join [32%N] (p :: q :: tl))
      with (p ++ [32%N] ++ join [32%N] (q :: tl)).
    rewrite word_runs_app.
    cbn [app word_runs map list_sum] in *.
    change (is_word ucd 32) with false.
    cbn [andb Nat.add]. rewrite IH. reflexivity.
Qed.

Lemma count_words_sum ucd (s : soup) :
  _count_words ucd (_plain_text_from_soup s)
  = list_sum (map (_count_words ucd) (stripped_strings s)).
Proof.
  unfold _plain_text_from_soup, get_text.
  rewrite count_words_word_runs, word_runs_join_space.
  f_equal. apply map_ext. intros t.
  symmetry. apply count_words_word_runs.
Qed.

(** X2: the word count of a document's plain text is the sum of the word
    counts of the stripped strings [get_text] joins: joining with a space
    neither merges nor splits words. *)
Theorem X2_word_count_sums_over_strings :
  forall ucd (s : soup),
    _count_words ucd (_plain_text_from_soup s)
    = list_sum (map (_count_words ucd) (stripped_strings s)).
Proof. exact count_words_sum. Qed.

(** *** Stripping whitespace *)

Lemma lstrip_all_space (ws : text) :
  forallb is_space ws = true -> lstrip ws = [].
Proof.
  induction ws as [ | c ws IH]; [ reflexivity | ].
  cbn. intros H. apply andb_true_iff in H. destruct H as [Hc Hws].
  rewrite Hc. now apply IH.
Qed.

Lemma lstrip_nil_all_space (s : text) :
  lstrip s = [] -> forallb is_space s = true.
Proof.
  induction s as [ | c s IH]; [ reflexivity | ].
  cbn. destruct (is_space c); [ exact IH | discriminate ].
Qed.

Lemma lstrip_app_space (ws s : text) :
  forallb is_space ws = true -> lstrip (ws ++ s) = lstrip s.
Proof.
  induction ws as [ | c ws IH]; [ reflexivity | ].
  cbn. intros H. apply andb_true_iff in H. destruct H as [Hc Hws].
  rewrite Hc. now apply IH.
Qed.

Lemma lstrip_app_keep (s b : text) :
  lstrip s <> [] -> lstrip (s ++ b) = lstrip s ++ b.
Proof.
  induction s as [ | c s IH]; [ intros H; now elim H | ].
  cbn. destruct (is_space c); [ exact IH | reflexivity ].
Qed.

Lemma lstrip_starts_clean (s : text) : starts_clean (lstrip s).
Proof.
  induction s as [ | c s IH]; [ exact I | ].
  cbn. destruct (is_space c) eqn:Hc; [ exact IH | exact Hc ].
Qed.

Lemma lstrip_fixed (s : text) : starts_clean s -> lstrip s = s.
Proof.
  destruct s as [ | c s]; [ reflexivity | ].
  cbn. now intros ->.
Qed.

Lemma lstrip_suffix (s : text) :
  exists ws, s = ws ++ lstrip s /\ forallb is_space ws = true.
Proof.
  induction s as [ | c s (ws & Hs & Hws)]; [ now exists [] | ].
  cbn. destruct (is_space c) eqn:Hc.
  - exists (c :: ws). cbn. rewrite Hc, Hws. split; [ now f_equal | reflexivity ].
  - now exists [].
Qed.

Lemma rstrip_prefix (s : text) :
  exists ws, s = rstrip s ++ ws /\ forallb is_space ws = true.
Proof.
  unfold rstrip. destruct (lstrip_suffix (rev s)) as (ws & Hs & Hws).
  exists (rev ws). split.
  - rewrite <- rev_app_distr, <- Hs. now rewrite rev_involutive.
  - rewrite forallb_forall in *. intros x Hx. apply Hws. now apply in_rev.
Qed.

Lemma rstrip_app_space (s ws : text) :
  forallb is_space ws = true -> rstrip (s ++ ws) = rstrip s.
Proof.
  intros H. unfold rstrip. rewrite rev_app_distr, lstrip_app_space.
  - reflexivity.
  - rewrite forallb_forall in *. intros x Hx. apply H. now apply in_rev.
Qed.

(** [rstrip] keeps a first character that is not a space. *)
Lemma rstrip_cons_clean (c : N) (s : text) :
  is_space c = false -> rstrip (c :: s) = c :: rstrip s.
Proof.
  intros Hc. unfold rstrip. cbn [rev].
  destruct (lstrip (rev s)) as [ | x l] eqn:Hl.
  - rewrite lstrip_app_space by now apply lstrip_nil_all_space.
    cbn. now rewrite Hc.
  - rewrite lstrip_app_keep by (rewrite Hl; discriminate).
    rewrite Hl, rev_app_distr. reflexivity.
Qed.

Lemma rstrip_starts_clean (s : text) : starts_clean s -> starts_clean (rstrip s).
Proof.
  destruct s as [ | c s]; [ intros _; exact I | ].
  intros Hc. cbn [starts_clean] in Hc.
  rewrite rstrip_cons_clean by exact Hc. exact Hc.
Qed.

Lemma strip_starts_clean (s : text) : starts_clean (strip s).
Proof. apply rstrip_starts_clean, lstrip_starts_clean. Qed.

Lemma rstrip_idempotent (s : text) : rstrip (rstrip s) = rstrip s.
Proof.
  unfold rstrip. rewrite rev_involutive.
  now rewrite (lstrip_fixed _ (lstrip_starts_clean (rev s))).
Qed.

Lemma strip_idempotent (s : text) : strip (strip s) = strip s.
Proof.
  unfold strip at 1. rewrite (lstrip_fixed _ (strip_starts_clean s)).
  unfold strip. apply rstrip_idempotent.
Qed.

(** Whitespace around a text is gone after [strip]. *)
Lemma strip_padded (a s b : text) :
  forallb is_space a = true -> forallb is_space b = true ->
  strip (a ++ s ++ b) = strip s.
Proof.
  intros Ha Hb. unfold strip. rewrite lstrip_app_space by exact Ha.
  destruct (lstrip s) as [ | c l] eqn:Hs.
  - rewrite lstrip_app_space by now apply lstrip_nil_all_space.
    now rewrite (lstrip_all_space b Hb).
  - rewrite lstrip_app_keep by (rewrite Hs; discriminate).
    rewrite Hs. now apply rstrip_app_space.
Qed.

Lemma rstrip_length (s : text) : List.length (rstrip s) <= List.length s.
Proof.
  destruct (rstrip_prefix s) as (ws & Hs & _).
  rewrite Hs at 2. rewrite length_app. lia.
Qed.

(** *** The meta description *)

(** X6: whitespace before and after a meta description does not count:
    the check gives the same verdict and the same evidence as on the
    description without it. *)
Theorem X6_meta_ignores_outer_whitespace :
  forall (before md after : text) (lo hi : Z),
    forallb is_space before = true ->
    forallb is_space after = true ->
    check_meta_description (PyStr (before ++ md ++ after)) lo hi
    = check_meta_description (PyStr md) lo hi.
Proof.
  intros before md after lo hi Hb Ha.
  rewrite !check_meta_description_on_str. cbv zeta.
  now rewrite (strip_padded before md after Hb Ha).
Qed.

Lemma X6_meta_ignores_outer_whitespace_witness :
  forallb is_space (U "  ") = true
  /\ forallb is_space [10%N] = true
  /\ check_meta_description (PyStr (U "  " ++ U "Kreatín" ++ [10%N])) 120 160
     = check_meta_description (PyStr (U "Kreatín")) 120 160.
Proof.
  split; [ reflexivity | ]. split; [ reflexivity | ].
  apply (X6_meta_ignores_outer_whitespace (U "  ") (U "Kreatín") [10%N]
           120%Z 160%Z); reflexivity.
Defined.

(** *** Where the matcher ends *)

(** A successful match is the answer of its continuation, called at or
    after the cursor and inside the text. *)
Lemma rep_greedy_reached ucd ic (R : Type) (a : atom) (rest : text) :
  forall min prev pos cs (k : cont R) x,
    rep_greedy ucd ic a min prev pos rest cs k = Some x ->
    reached k pos rest x.
Proof.
  induction rest as [ | c tl IH]; intros min prev pos cs k x.
  - cbn [rep_greedy]. destruct min; [ | discriminate ].
    intros H. exists prev, pos, [], cs. now repeat split.
  - cbn [rep_greedy].
    assert (Hstop :
      match min with
      | 0 => k prev pos (c :: tl) cs
      | S _ => None
      end = Some x -> reached k pos (c :: tl) x).
    { destruct min; [ | discriminate ].
      intros H. exists prev, pos, (c :: tl), cs. now repeat split. }
    destruct (atom_match ucd ic a c); [ | exact Hstop ].
    destruct (rep_greedy ucd ic a (pred min) (Some c) (S pos) tl cs k)
      as [y | ] eqn:Hrec; [ | exact Hstop ].
    intros H. injection H as <-.
    destruct (IH _ _ _ _ _ _ Hrec) as (p' & e' & r' & c' & Hle & Hlen & Hk).
    exists p', e', r', c'. cbn [List.length]. repeat split; [ lia | lia | exact Hk ].
Qed.

Lemma rmatch_reached ucd ic (R : Type) (r : regex) :
  forall prev pos rest cs (k : cont R) x,
    rmatch ucd ic r prev pos rest cs k = Some x ->
    reached k pos rest x.
Proof.
  induction r as [ | a | r1 IH1 r2 IH2 | r1 IH1 r2 IH2 | r1 IH1 | min a
                 | g r1 IH1 | | a ];
    intros prev pos rest cs k x; cbn [rmatch].
  - intros H. exists prev, pos, rest, cs. now repeat split.
  - destruct rest as [ | c tl]; [ discriminate | ].
    destruct (atom_match ucd ic a c); [ | discriminate ].
    intros H. exists (Some c), (S pos), tl, cs. cbn [List.length].
    repeat split; [ lia | lia | exact H ].
  - intros H. destruct (IH1 _ _ _ _ _ _ H) as (p1 & e1 & t1 & c1 & Hle1 & Hlen1 & H1).
    destruct (IH2 _ _ _ _ _ _ H1) as (p2 & e2 & t2 & c2 & Hle2 & Hlen2 & H2).
    exists p2, e2, t2, c2. repeat split; [ lia | lia | exact H2 ].
  - destruct (rmatch ucd ic r1 prev pos rest cs k) as [y | ] eqn:H1.
    + intros H. injection H as <-. now apply (IH1 _ _ _ _ _ _ H1).
    + apply IH2.
  - destruct (rmatch ucd ic r1 prev pos rest cs k) as [y | ] eqn:H1.
    + intros H. injection H as <-. now apply (IH1 _ _ _ _ _ _ H1).
    + intros H. exists prev, pos, rest, cs. now repeat split.
  - apply rep_greedy_reached.
  - intros H. destruct (IH1 _ _ _ _ _ _ H) as (p1 & e1 & t1 & c1 & Hle1 & Hlen1 & H1).
    exists p1, e1, t1, ((g, (pos, e1)) :: c1). now repeat split.
  - destruct (xorb _ _); [ | discriminate ].
    intros H. exists prev, pos, rest, cs. now repeat split.
  - destruct prev as [ch | ]; [ | discriminate ].
    destruct (atom_match ucd ic a ch); [ | discriminate ].
    intros H. exists (Some ch), pos, rest, cs. now repeat split.
Qed.

(** A match reported at a cursor starts there and ends inside the text. *)
Lemma match_at_bounds ucd ic r prev pos rest m :
  match_at ucd ic r prev pos rest = Some m ->
  m_start m = pos /\ pos <= m_end m <= pos + List.length rest.
Proof.
  unfold match_at. intros H. apply rmatch_reached in H.
  destruct H as (p' & e' & r' & c' & Hle & Hlen & Hk).
  injection Hk as <-. cbn [m_start m_end]. lia.
Qed.

(** The matches of a scan start at or after the cursor, past what is to be
    skipped, and lie inside the text. *)
Lemma scan_bounds ucd ic r (rest : text) :
  forall prev pos skip m,
    In m (scan ucd ic r prev pos rest skip) ->
    pos + skip <= m_start m
    /\ m_start m <= m_end m <= pos + List.length rest.
Proof.
  induction rest as [ | c tl IH]; intros prev pos skip m.
  - cbn [scan]. destruct skip; [ | intros [] ].
    destruct (match_at ucd ic r prev pos []) as [m0 | ] eqn:Hm;
      [ | intros [] ].
    intros [<- | []]. apply match_at_bounds in Hm. lia.
  - cbn [scan]. destruct skip as [ | k].
    + destruct (match_at ucd ic r prev pos (c :: tl)) as [m0 | ] eqn:Hm.
      * apply match_at_bounds in Hm. cbn [List.length] in *.
        intros [<- | Hin]; [ lia | ].
        apply IH in Hin. lia.
      * intros Hin. apply IH in Hin. cbn [List.length]. lia.
    + intros Hin. apply IH in Hin. cbn [List.length]. lia.
Qed.

(** *** The first sentence *)

Lemma sentence_end_not_at_start ucd pos rest :
  match_at ucd false SENTENCE_END_RE None pos rest = None.
Proof. reflexivity. Qed.

Lemma sentence_end_after_start ucd (t : text) m :
  search ucd false SENTENCE_END_RE t = Some m -> 1 <= m_start m.
Proof.
  unfold search, finditer. destruct t as [ | c tl]; cbn [scan].
  - rewrite sentence_end_not_at_start. discriminate.
  - rewrite sentence_end_not_at_start.
    destruct (scan ucd false SENTENCE_END_RE (Some c) 1 tl 0) as [ | m0 l]
      eqn:Hs; [ discriminate | ].
    cbn [hd_error]. intros H. injection H as <-.
    assert (Hin : In m0 (scan ucd false SENTENCE_END_RE (Some c) 1 tl 0))
      by (rewrite Hs; now left).
    apply scan_bounds in Hin. lia.
Qed.

Lemma first_sentence_shape ucd (c : N) (tl : text) :
  is_space c = false ->
  exists q rest,
    _first_sentence ucd (c :: tl) = c :: rstrip q
    /\ tl = q ++ rest
    /\ List.length q <= 399.
Proof.
  intros Hc. unfold _first_sentence.
  assert (Hstrip : strip (c :: tl) = c :: rstrip tl).
  { unfold strip. rewrite lstrip_fixed by exact Hc.
    now apply rstrip_cons_clean. }
  rewrite Hstrip.
  destruct (rstrip_prefix tl) as (ws & Htl & _).
  set (t := c :: rstrip tl).
  assert (Hpart : exists p rest0,
    match search ucd false SENTENCE_END_RE t with
    | Some m => firstn (m_start m) t
    | None => t
    end = c :: p /\ rstrip tl = p ++ rest0).
  { destruct (search ucd false SENTENCE_END_RE t) as [m | ] eqn:Hm.
    - apply sentence_end_after_start in Hm.
      destruct (m_start m) as [ | n]; [ lia | ].
      exists (firstn n (rstrip tl)), (skipn n (rstrip tl)).
      split; [ reflexivity | now rewrite firstn_skipn ].
    - exists (rstrip tl), []. now rewrite app_nil_r. }
  destruct Hpart as (p & rest0 & -> & Hp).
  exists (firstn 399 p), (skipn 399 p ++ rest0 ++ ws). split; [ | split ].
  - change (firstn 400 (c :: p)) with (c :: firstn 399 p).
    unfold strip. rewrite lstrip_fixed by exact Hc.
    now apply rstrip_cons_clean.
  - rewrite app_assoc, firstn_skipn, app_assoc, <- Hp. exact Htl.
  - apply firstn_le_length.
Qed.

(** X3: the first sentence is a beginning of the stripped text, has at
    most 400 characters and no whitespace around it, and is empty only
    when the text is blank. *)
Theorem X3_first_sentence_is_a_short_prefix :
  forall ucd (t : text),
    List.length (_first_sentence ucd t) <= 400
    /\ (exists rest, strip t = _first_sentence ucd t ++ rest)
    /\ (_first_sentence ucd t = [] <-> strip t = [])
    /\ strip (_first_sentence ucd t) = _first_sentence ucd t.
Proof.
  intros ucd t.
  assert (Hsame : _first_sentence ucd t = _first_sentence ucd (strip t)).
  { unfold _first_sentence. now rewrite strip_idempotent. }
  assert (Hclean : strip (_first_sentence ucd t) = _first_sentence ucd t).
  { unfold _first_sentence. destruct (strip t); [ reflexivity | ].
    apply strip_idempotent. }
  pose proof (strip_starts_clean t) as Hstart.
  destruct (strip t) as [ | c tl] eqn:Ht.
  - assert (H0 : _first_sentence ucd t = []).
    { unfold _first_sentence. now rewrite Ht. }
    rewrite H0. cbn. repeat split; try lia; try reflexivity.
    now exists [].
  - cbn [starts_clean] in Hstart.
    destruct (first_sentence_shape ucd c tl Hstart)
      as (q & rest & Hfs & Htl & Hq).
    rewrite Hsame in *. rewrite Hfs.
    destruct (rstrip_prefix q) as (ws & Hqs & _).
    split; [ | split; [ | split ] ].
    + cbn [List.length]. pose proof (rstrip_length q). lia.
    + exists (ws ++ rest). cbn [app]. f_equal.
      rewrite app_assoc, <- Hqs. exact Htl.
    + split; discriminate.
    + rewrite <- Hfs. exact Hclean.
Qed.

(** *** Recommendations *)

Lemma append_unless_app ok key recs :
  append_unless ok key recs
  = recs ++ (if ok then [] else [recommendation key]).
Proof. destruct ok; cbn; [ now rewrite app_nil_r | reflexivity ]. Qed.

Lemma analyze_article_recommendations ucd parser content_html meta title
    strict r :
  analyze_article ucd parser content_html meta title strict = Ok r ->
  recommendations r = map recommendation (failed_keys r).
Proof.
  unfold analyze_article. returned_result.
  unfold failed_keys, verdicts, CANONICAL_KEYS.
  cbn [recommendations direct_answer definition headings facts sources faq
       lists tables word_count_ok meta_ok combine].
  rewrite !append_unless_app.
  destruct b1, b2, b3, b4, b5, b6, b7, b8, b9, b10; reflexivity.
Qed.

Lemma all_distinct_NoDup (l : list text) : all_distinct l = true -> NoDup l.
Proof.
  induction l as [ | x tl IH]; [ constructor | ].
  cbn. intros H. apply andb_true_iff in H. destruct H as [Hx Htl].
  constructor; [ | now apply IH ].
  intros Hin. apply negb_true_iff in Hx.
  assert (Hex : existsb (text_eqb x) tl = true).
  { apply existsb_exists. exists x. split; [ exact Hin | ].
    now apply text_eqb_eq. }
  congruence.
Qed.

Lemma recommendation_texts_distinct :
  NoDup (map recommendation CANONICAL_KEYS).
Proof. apply all_distinct_NoDup. vm_compute. reflexivity. Qed.

(** Picking the entries of a list by a parallel list of flags keeps it
    free of repetition. *)
Lemma NoDup_map_picked {A B : Type} (f : A -> B) (p : A * bool -> bool) :
  forall (keys : list A) (flags : list bool),
    NoDup (map f keys) ->
    NoDup (map f (map fst (filter p (combine keys flags)))).
Proof.
  assert (Hin : forall (keys : list A) (flags : list bool) y,
    In y (map f (map fst (filter p (combine keys flags)))) ->
    In y (map f keys)).
  { induction keys as [ | k keys IH]; intros flags y; [ intros [] | ].
    destruct flags as [ | b flags]; [ intros [] | ].
    cbn [combine filter]. destruct (p (k, b)); cbn [map fst In].
    - intros [<- | H]; [ now left | right; now apply (IH flags) ].
    - intros H. right. now apply (IH flags). }
  induction keys as [ | k keys IH]; intros flags Hnd; [ constructor | ].
  destruct flags as [ | b flags]; [ constructor | ].
  cbn [map] in Hnd. inversion Hnd as [ | x l Hx Hl]; subst.
  cbn [combine filter]. destruct (p (k, b)); cbn [map fst].
  - constructor; [ | now apply IH ].
    intros H. apply Hx. now apply (Hin keys flags).
  - now apply IH.
Qed.

(** X4: the recommendations of a result are the texts of the failed
    criteria, one each and in canonical order (direct_answer, definition,
    headings, facts, sources, faq, lists, tables, word_count_ok, meta_ok),
    with no text twice. *)
Theorem X4_recommendations_in_canonical_order :
  forall ucd parser content_html (meta_description title : text) strict,
  exists r,
    analyze_article ucd parser content_html (PyStr meta_description)
      (PyStr title) strict = Ok r
    /\ recommendations r = map recommendation (failed_keys r)
    /\ NoDup (recommendations r).
Proof.
  intros ucd parser content_html meta title strict.
  destruct (analyze_article_returns ucd parser content_html meta title strict)
    as [r Hr].
  exists r. split; [ exact Hr | ].
  pose proof (analyze_article_recommendations _ _ _ _ _ _ _ Hr) as Hrec.
  split; [ exact Hrec | ].
  rewrite Hrec. unfold failed_keys.
  apply NoDup_map_picked. exact recommendation_texts_distinct.
Qed.

(** *** More on noise removal *)

Lemma prune_untouched (p : selector) (n : node) :
  find_all_in p n = [] -> prune p n = [n].
Proof.
  induction n as [name a ch IH | k s] using node_ind; [ | reflexivity ].
  cbn [find_all_in prune]. destruct (p name a); [ discriminate | ].
  cbn [app]. intros Hch. f_equal. f_equal.
  induction IH as [ | x l Hx _ IHl]; [ reflexivity | ].
  cbn [flat_map] in *. apply app_eq_nil in Hch. destruct Hch as [H1 H2].
  rewrite (Hx H1), (IHl H2). reflexivity.
Qed.

Lemma decompose_untouched (p : selector) (s : soup) :
  find_all p s = [] -> decompose_all p s = s.
Proof.
  unfold find_all, decompose_all.
  induction s as [ | n s IH]; [ reflexivity | ].
  cbn [flat_map]. intros H. apply app_eq_nil in H. destruct H as [H1 H2].
  rewrite (prune_untouched p n H1), (IH H2). reflexivity.
Qed.

Lemma flat_map_twice_length_le {A B C : Type} (f : B -> list C)
    (g : A -> list B) (h : A -> list C) (l : list A) :
  Forall (fun x => List.length (flat_map f (g x)) <= List.length (h x)) l ->
  List.length (flat_map f (flat_map g l)) <= List.length (flat_map h l).
Proof.
  induction 1 as [ | x l Hx _ IH]; [ reflexivity | ].
  cbn [flat_map]. rewrite flat_map_app, !length_app. lia.
Qed.

Lemma find_all_pruned_le (p q : selector) (n : node) :
  List.length (flat_map (find_all_in p) (prune q n))
  <= List.length (find_all_in p n).
Proof.
  induction n as [name a ch IH | k s] using node_ind; [ | cbn; lia ].
  cbn [prune find_all_in]. destruct (q name a); [ cbn; lia | ].
  cbn [flat_map find_all_in]. rewrite app_nil_r, !length_app.
  pose proof (flat_map_twice_length_le _ _ _ ch IH) as Hch.
  destruct (p name a); cbn [List.length]; lia.
Qed.

Lemma find_all_decomposed_le (p q : selector) (s : soup) :
  List.length (find_all p (decompose_all q s)) <= List.length (find_all p s).
Proof.
  unfold find_all, decompose_all.
  apply flat_map_twice_length_le.
  apply Forall_forall. intros n _. apply find_all_pruned_le.
Qed.

Lemma strip_noise_idempotent (s : soup) :
  _strip_noise (_strip_noise s) = _strip_noise s.
Proof.
  rewrite !strip_noise_decompose, decompose_twice.
  apply decompose_all_ext. intros name a. unfold sel_or.
  now destruct (noise_selector name a).
Qed.

(** X5: stripping noise twice is stripping it once; a document is left as
    it is exactly when it has no noise tag; and stripping can only lower
    the number of tags a selector finds (headings, lists, tables, links). *)
Theorem X5_strip_noise_is_a_projection :
  forall (s : soup),
    _strip_noise (_strip_noise s) = _strip_noise s
    /\ (_strip_noise s = s <-> find_all noise_selector s = [])
    /\ (forall p : selector,
          List.length (find_all p (_strip_noise s))
          <= List.length (find_all p s)).
Proof.
  intros s. split; [ apply strip_noise_idempotent | ]. split.
  - split.
    + intros H. rewrite <- H, strip_noise_decompose.
      apply find_all_decomposed.
    + intros H. rewrite strip_noise_decompose.
      now apply decompose_untouched.
  - intros p. rewrite strip_noise_decompose. apply find_all_decomposed_le.
Qed.

(** *** One-line cells *)

Lemma replace_char_gone (a b : N) (s : text) :
  a <> b -> ~ In a (replace_char a b s).
Proof.
  intros Hab Hin. unfold replace_char in Hin. apply in_map_iff in Hin.
  destruct Hin as (c & Hc & _).
  destruct (c =? a)%N eqn:E; [ congruence | ].
  apply N.eqb_neq in E. congruence.
Qed.

Lemma replace_char_keeps_out (x a b : N) (s : text) :
  x <> b -> ~ In x s -> ~ In x (replace_char a b s).
Proof.
  intros Hxb Hs Hin. unfold replace_char in Hin. apply in_map_iff in Hin.
  destruct Hin as (c & Hc & Hcs).
  destruct (c =? a)%N; [ congruence | ]. subst c. now apply Hs.
Qed.

Lemma in_lstrip (x : N) (s : text) : In x (lstrip s) -> In x s.
Proof.
  destruct (lstrip_suffix s) as (ws & Hs & _). intros H.
  rewrite Hs. apply in_or_app. now right.
Qed.

Lemma in_rstrip (x : N) (s : text) : In x (rstrip s) -> In x s.
Proof.
  destruct (rstrip_prefix s) as (ws & Hs & _). intros H.
  rewrite Hs. apply in_or_app. now left.
Qed.

Lemma in_strip (x : N) (s : text) : In x (strip s) -> In x s.
Proof. intros H. now apply in_lstrip, in_rstrip. Qed.

Lemma in_join (x : N) (sep : text) (parts : list text) :
  In x (join sep parts) -> In x sep \/ exists p, In p parts /\ In x p.
Proof.
  induction parts as [ | p tl IH]; [ intros [] | ].
  destruct tl as [ | q tl].
  - cbn [join]. intros H. right. exists p. split; [ now left | exact H ].
  - change (join sep (p :: q :: tl)) with (p ++ sep ++ join sep (q :: tl)).
    intros H. apply in_app_or in H. destruct H as [H | H].
    + right. exists p. split; [ now left | exact H ].
    + apply in_app_or in H. destruct H as [H | H]; [ now left | ].
      destruct (IH H) as [Hs | (p' & Hp' & Hx)]; [ now left | ].
      right. exists p'. split; [ now right | exact Hx ].
Qed.

Lemma one_line_has_no_break py (v : pv) :
  ~ In 10%N (reporter.one_line py v) /\ ~ In 13%N (reporter.one_line py v).
Proof.
  unfold reporter.one_line. split; intros H; apply in_strip in H; revert H.
  - apply replace_char_keeps_out; [ discriminate | ].
    apply replace_char_gone. discriminate.
  - apply replace_char_gone. discriminate.
Qed.

Lemma join_recommendations_one_line py (recs : pv) (x : N) :
  x = 10%N \/ x = 13%N ->
  ~ In x (reporter._join_recommendations py recs).
Proof.
  intros Hx. unfold reporter._join_recommendations.
  destruct (negb (pv_truthy recs)); [ intros [] | ].
  assert (Hone : forall v, ~ In x (reporter.one_line py v)).
  { intros v. destruct (one_line_has_no_break py v) as [H10 H13].
    destruct Hx; now subst x. }
  destruct recs; try apply Hone.
  intros H. apply in_join in H. destruct H as [H | (p & Hp & Hin)].
  - revert H. destruct Hx; subst x; vm_compute; intuition discriminate.
  - apply filter_In in Hp. destruct Hp as [Hp _].
    apply in_map_iff in Hp. destruct Hp as (v & <- & _).
    now apply (Hone v).
Qed.

(** X7: whatever it is given, [_join_recommendations] returns a cell with
    no line feed and no carriage return; for [None], an empty list and any
    other falsy value the cell is empty. *)
Theorem X7_recommendations_cell_is_one_line :
  forall py (recs : pv),
    ~ In 10%N (reporter._join_recommendations py recs)
    /\ ~ In 13%N (reporter._join_recommendations py recs)
    /\ (pv_truthy recs = false ->
        reporter._join_recommendations py recs = []).
Proof.
  intros py recs.
  split; [ apply join_recommendations_one_line; now left | ].
  split; [ apply join_recommendations_one_line; now right | ].
  intros H. unfold reporter._join_recommendations. now rewrite H.
Qed.

(** *** The CSV header *)

Lemma has_key_in (k : string) (l : list string) :
  reporter.has_key k l = true <-> In k l.
Proof.
  unfold reporter.has_key. rewrite existsb_exists. split.
  - intros (x & Hx & E). apply String.eqb_eq in E. now subst.
  - intros H. exists k. split; [ exact H | apply String.eqb_refl ].
Qed.

Lemma add_extra_ok (seen extras : list string) (k : string) :
  extras_ok seen extras ->
  extras_ok (k :: seen) (reporter.add_extra extras k).
Proof.
  intros (Hnd & Hout & Hcov). unfold reporter.add_extra.
  destruct (reporter.has_key k reporter.CSV_BASE_HEADER) eqn:Hb; cbn [orb].
  - apply has_key_in in Hb. repeat split.
    + exact Hnd.
    + now apply Hout.
    + right. now apply Hout.
    + intros k' [<- | H]; [ now left | now apply Hcov ].
  - destruct (reporter.has_key k extras) eqn:He.
    + apply has_key_in in He. repeat split.
      * exact Hnd.
      * now apply Hout.
      * right. now apply Hout.
      * intros k' [<- | H]; [ now right | now apply Hcov ].
    + assert (Hnb : ~ In k reporter.CSV_BASE_HEADER).
      { intros H. apply has_key_in in H. congruence. }
      assert (Hne : ~ In k extras).
      { intros H. apply has_key_in in H. congruence. }
      repeat split.
      * apply NoDup_app; [ exact Hnd | repeat constructor; intros [] | ].
        intros x Hx [<- | []]. now apply Hne.
      * apply in_app_or in H. destruct H as [H | [<- | []]];
          [ now apply Hout | exact Hnb ].
      * apply in_app_or in H. destruct H as [H | [<- | []]];
          [ right; now apply Hout | now left ].
      * intros k' [<- | H].
        -- right. apply in_or_app. right. now left.
        -- destruct (Hcov k' H) as [Hk | Hk]; [ now left | ].
           right. apply in_or_app. now left.
Qed.

Lemma add_extras_ok (keys : list string) :
  forall seen extras,
    extras_ok seen extras ->
    extras_ok (rev keys ++ seen) (fold_left reporter.add_extra keys extras).
Proof.
  induction keys as [ | k keys IH]; intros seen extras H; [ exact H | ].
  cbn [fold_left rev]. rewrite <- app_assoc. cbn [app].
  apply IH. now apply add_extra_ok.
Qed.

Lemma rows_extras_ok (rows : list dict) :
  forall seen extras,
    extras_ok seen extras ->
    exists seen',
      extras_ok seen'
        (fold_left
           (fun ex row => fold_left reporter.add_extra (dict_keys row) ex)
           rows extras)
      /\ (forall k, In k seen' <->
            In k seen \/ exists row, In row rows /\ In k (dict_keys row)).
Proof.
  induction rows as [ | row rows IH]; intros seen extras H.
  - exists seen. split; [ exact H | ].
    intros k. split; [ now left | ]. intros [Hk | (row & [] & _)]. exact Hk.
  - cbn [fold_left].
    destruct (IH _ _ (add_extras_ok (dict_keys row) seen extras H))
      as (seen' & Hok & Hseen).
    exists seen'. split; [ exact Hok | ].
    intros k. rewrite Hseen. split.
    + intros [Hk | (row' & Hr & Hk)].
      * apply in_app_or in Hk. destruct Hk as [Hk | Hk]; [ | now left ].
        right. exists row. split; [ now left | now apply in_rev ].
      * right. exists row'. split; [ now right | exact Hk ].
    + intros [Hk | (row' & [<- | Hr] & Hk)].
      * left. apply in_or_app. now right.
      * left. apply in_or_app. left. now apply in_rev in Hk.
      * right. now exists row'.
Qed.

Lemma base_header_distinct : NoDup reporter.CSV_BASE_HEADER.
Proof.
  unfold reporter.CSV_BASE_HEADER.
  repeat (constructor; [ cbn; intuition discriminate | ]). constructor.
Qed.

(** X8: the CSV header starts with the nineteen base columns, names no
    column twice, has a column for every key of every row, and has no
    column that is neither a base column nor a key of some row. *)
Theorem X8_header_covers_rows_without_repeats :
  forall (rows : list dict),
    firstn 19 (reporter._compute_header rows) = reporter.CSV_BASE_HEADER
    /\ NoDup (reporter._compute_header rows)
    /\ (forall row k,
          In row rows -> In k (dict_keys row) ->
          In k (reporter._compute_header rows))
    /\ (forall k,
          In k (reporter._compute_header rows) ->
          In k reporter.CSV_BASE_HEADER
          \/ exists row, In row rows /\ In k (dict_keys row)).
Proof.
  intros rows. unfold reporter._compute_header.
  assert (H0 : extras_ok [] []).
  { split; [ constructor | split; intros k [] ]. }
  destruct (rows_extras_ok rows [] [] H0) as (seen & (Hnd & Hout & Hcov) & Hseen).
  split; [ reflexivity | ]. split; [ | split ].
  - apply NoDup_app; [ exact base_header_distinct | exact Hnd | ].
    intros k Hb He. now apply (Hout k He).
  - intros row k Hrow Hk. apply in_or_app.
    apply Hcov, Hseen. right. now exists row.
  - intros k Hk. apply in_app_or in Hk. destruct Hk as [Hk | Hk]; [ now left | ].
    apply Hout in Hk. destruct Hk as [_ Hk]. apply Hseen in Hk.
    destruct Hk as [[] | Hk]. now right.
Qed.

(** *** Report rows *)

Lemma picked_in {A B : Type} (f : A -> B) (p : A * bool -> bool) :
  forall (keys : list A) (flags : list bool) y,
    In y (map f (map fst (filter p (combine keys flags)))) ->
    In y (map f keys).
Proof.
  induction keys as [ | k keys IH]; intros flags y; [ intros [] | ].
  destruct flags as [ | b flags]; [ intros [] | ].
  cbn [combine filter]. destruct (p (k, b)); cbn [map fst In].
  - intros [<- | H]; [ now left | right; now apply (IH flags) ].
  - intros H. right. now apply (IH flags).
Qed.

(** The texts of the catalog are one-line, stripped and not empty, so a
    cell leaves them as they are. *)
Lemma catalog_texts_clean py :
  forall t, In t (map recommendation CANONICAL_KEYS) ->
    reporter.one_line py (PvStr t) = t /\ nonempty t = true.
Proof.
  assert (H : forallb
    (fun t => text_eqb (reporter.one_line py (PvStr t)) t && nonempty t)
    (map recommendation CANONICAL_KEYS) = true) by (vm_compute; reflexivity).
  intros t Ht. rewrite forallb_forall in H. specialize (H t Ht).
  apply andb_true_iff in H. destruct H as [H1 H2].
  split; [ now apply text_eqb_eq | exact H2 ].
Qed.

Lemma filter_all {A : Type} (f : A -> bool) (l : list A) :
  (forall x, In x l -> f x = true) -> filter f l = l.
Proof.
  induction l as [ | x l IH]; [ reflexivity | ].
  intros H. cbn [filter]. rewrite (H x) by now left.
  rewrite IH; [ reflexivity | ]. intros y Hy. apply H. now right.
Qed.

Lemma join_clean_texts py (recs : list text) :
  (forall t, In t recs ->
     reporter.one_line py (PvStr t) = t /\ nonempty t = true) ->
  reporter._join_recommendations py (PvList (map PvStr recs))
  = join (U " | ") recs.
Proof.
  intros Hclean. unfold reporter._join_recommendations.
  destruct recs as [ | t tl]; [ reflexivity | ].
  change (pv_truthy (PvList (map PvStr (t :: tl)))) with true.
  cbn [negb].
  assert (Hmap : map (reporter.one_line py) (map PvStr (t :: tl)) = t :: tl).
  { rewrite map_map. rewrite <- (map_id (t :: tl)) at 2.
    apply map_ext_in. intros x Hx. now apply Hclean. }
  rewrite Hmap, filter_all; [ reflexivity | ].
  intros x Hx. now apply Hclean.
Qed.

Lemma join_recommendations_of_result py ucd parser content_html meta title
    strict r :
  analyze_article ucd parser content_html meta title strict = Ok r ->
  reporter._join_recommendations py (PvList (map PvStr (recommendations r)))
  = join (U " | ") (recommendations r).
Proof.
  intros Hr. apply join_clean_texts.
  intros t Ht. apply catalog_texts_clean.
  rewrite (analyze_article_recommendations _ _ _ _ _ _ _ Hr) in Ht.
  unfold failed_keys in Ht. now apply picked_in in Ht.
Qed.

Lemma built_row_keys py url title r :
  Permutation (dict_keys (reporter.build_report_row py url title r))
    reporter.CSV_BASE_HEADER.
Proof.
  change (dict_keys (reporter.build_report_row py url title r))
    with (firstn 13 reporter.CSV_BASE_HEADER
          ++ skipn 14 reporter.CSV_BASE_HEADER ++ ["recommendations"%string]).
  change reporter.CSV_BASE_HEADER
    with (firstn 13 reporter.CSV_BASE_HEADER
          ++ ["recommendations"%string] ++ skipn 14 reporter.CSV_BASE_HEADER)
    at 3.
  apply Permutation_app_head, Permutation_app_comm.
Qed.

Lemma built_row_criteria py url title r :
  map (fun k => row_int k (reporter.build_report_row py url title r))
    CANONICAL_KEYS
  = map b2z (verdicts r).
Proof.
  reflexivity.
Qed.

Lemma sum_b2z (flags : list bool) :
  fold_right Z.add 0%Z (map b2z flags) = Z.of_nat (count_true flags).
Proof.
  induction flags as [ | b flags IH]; [ reflexivity | ].
  rewrite count_true_cons. cbn [map fold_right]. rewrite IH.
  destruct b; cbn [b2z]; lia.
Qed.

(** The thresholds behind five verdicts, read off the evidence. *)
Lemma verdicts_follow_evidence ucd parser content_html meta title strict r :
  analyze_article ucd parser content_html meta title strict = Ok r ->
  let d := audit_details r in
  headings r = at_least (h2_count (d_headings d)) 3
  /\ lists r = at_least (list_count (d_lists d)) 1
  /\ tables r = at_least (table_count (d_tables d)) 1
  /\ word_count_ok r = at_least (word_count (d_word_count_ok d)) 500
  /\ meta_ok r
     = at_least (meta_len (d_meta_ok d)) 120
       && (Z.of_nat (meta_len (d_meta_ok d)) <=? 160)%Z.
Proof.
  intros Hr. apply analyze_article_checks in Hr. cbv zeta in Hr.
  destruct Hr as (_ & _ & Hh & _ & _ & _ & Hl & Ht & Hw & Hm).
  unfold check_h2_headings in Hh. injection Hh as Hh1 Hh2.
  unfold check_lists in Hl. injection Hl as Hl1 Hl2.
  unfold check_tables in Ht. injection Ht as Ht1 Ht2.
  unfold check_word_count in Hw. injection Hw as Hw1 Hw2.
  unfold check_meta_description in Hm.
  destruct (as_strlike (or_empty meta)) as [md | e]; [ | discriminate ].
  cbv zeta in Hm. cbn [bind] in Hm. injection Hm as Hm1 Hm2.
  cbv zeta.
  rewrite <- Hh2, <- Hl2, <- Ht2, <- Hw2, <- Hm2.
  cbn [h2_count list_count table_count word_count meta_len].
  now repeat split.
Qed.

Lemma b2z_at_least (count : nat) (minimum : Z) :
  (b2z (at_least count minimum) = 1 <-> minimum <= Z.of_nat count)%Z.
Proof.
  unfold at_least. destruct (minimum <=? Z.of_nat count)%Z eqn:E; cbn [b2z].
  - apply Z.leb_le in E. split; [ intros _; exact E | reflexivity ].
  - apply Z.leb_gt in E. split; [ discriminate | lia ].
Qed.

(** X9: the row built from the result of an analysis has exactly the
    base columns; its score is the sum of its ten criterion columns and
    lies between 0 and 10; its headings, lists, tables, word_count_ok and
    meta_ok columns are 1 exactly when its h2_count, list_count,
    table_count, word_count and meta_len columns reach the thresholds 3, 1,
    1, 500 and 120 to 160; and its recommendations cell is the texts of
    the result joined by " | ". *)
Theorem X9_report_row_is_consistent :
  forall py ucd parser content_html (meta_description title : text) strict
         (url row_title : pv),
  exists r,
    analyze_article ucd parser content_html (PyStr meta_description)
      (PyStr title) strict = Ok r
    /\ let row := reporter.build_report_row py url row_title r in
       Permutation (dict_keys row) reporter.CSV_BASE_HEADER
       /\ row_int "score" row = criteria_sum row
       /\ (0 <= row_int "score" row <= 10)%Z
       /\ (row_int "headings" row = 1 <-> 3 <= row_int "h2_count" row)%Z
       /\ (row_int "lists" row = 1 <-> 1 <= row_int "list_count" row)%Z
       /\ (row_int "tables" row = 1 <-> 1 <= row_int "table_count" row)%Z
       /\ (row_int "word_count_ok" row = 1
           <-> 500 <= row_int "word_count" row)%Z
       /\ (row_int "meta_ok" row = 1
           <-> 120 <= row_int "meta_len" row <= 160)%Z
       /\ dict_get "recommendations" row
          = Some (PvStr (join (U " | ") (recommendations r))).
Proof.
  intros py ucd parser content_html meta title strict url row_title.
  destruct (analyze_article_returns ucd parser content_html meta title strict)
    as [r Hr].
  exists r. split; [ exact Hr | ]. cbv zeta.
  destruct (analyze_article_invariant _ _ _ _ _ _ _ Hr) as [Hscore Hlen].
  destruct (verdicts_follow_evidence _ _ _ _ _ _ _ Hr)
    as (Hh & Hl & Ht & Hw & Hm).
  split; [ apply built_row_keys | ].
  assert (Hsum : row_int "score" (reporter.build_report_row py url row_title r)
                 = criteria_sum (reporter.build_report_row py url row_title r)).
  { unfold criteria_sum. rewrite built_row_criteria, sum_b2z, <- Hscore.
    reflexivity. }
  split; [ exact Hsum | ].
  split; [ change (row_int "score"
                     (reporter.build_report_row py url row_title r))
             with (Z.of_nat (score r)); lia | ].
  split; [ change (row_int "headings" _) with (b2z (headings r));
           change (row_int "h2_count" _)
             with (Z.of_nat (h2_count (d_headings (audit_details r))));
           rewrite Hh; apply b2z_at_least | ].
  split; [ change (row_int "lists" _) with (b2z (lists r));
           change (row_int "list_count" _)
             with (Z.of_nat (list_count (d_lists (audit_details r))));
           rewrite Hl; apply b2z_at_least | ].
  split; [ change (row_int "tables" _) with (b2z (tables r));
           change (row_int "table_count" _)
             with (Z.of_nat (table_count (d_tables (audit_details r))));
           rewrite Ht; apply b2z_at_least | ].
  split; [ change (row_int "word_count_ok" _) with (b2z (word_count_ok r));
           change (row_int "word_count" _)
             with (Z.of_nat (word_count (d_word_count_ok (audit_details r))));
           rewrite Hw; apply b2z_at_least | ].
  split.
  - change (row_int "meta_ok" _) with (b2z (meta_ok r)).
    change (row_int "meta_len" _)
      with (Z.of_nat (meta_len (d_meta_ok (audit_details r)))).
    rewrite Hm. unfold at_least.
    destruct (120 <=? _)%Z eqn:E1; destruct (_ <=? 160)%Z eqn:E2;
      cbn [andb b2z];
      rewrite ?Z.leb_le, ?Z.leb_gt in *; split; try discriminate; try lia;
      reflexivity.
  - change (dict_get "recommendations" _)
      with (Some (PvStr (reporter._join_recommendations py
                           (PvList (map PvStr (recommendations r)))))).
    now rewrite (join_recommendations_of_result py _ _ _ _ _ _ _ Hr).
Qed.

(** *** Normalizing articles *)

Lemma html_to_text_stripped py parser unescape (v : pv) (t : text) :
  main.html_to_text py parser unescape v = Ok t -> strip t = t.
Proof.
  unfold main.html_to_text.
  destruct (negb (nonempty (main.safe_str py v))).
  - intros H. injection H as <-. reflexivity.
  - destruct (negb (contains (U "<") (main.safe_str py v))
              && negb (contains (U "&") (main.safe_str py v))).
    + intros H. injection H as <-. apply strip_idempotent.
    + destruct (parser (main.safe_str py v)) as [doc | e];
        [ | discriminate ].
      cbn [bind]. intros H. injection H as <-. apply strip_idempotent.
Qed.

(** [html_to_text] returns whenever the parser returns on the string of
    the value; it does not call the parser on a string without markup. *)
Lemma html_to_text_returns py parser unescape (v : pv) (doc : soup) :
  parser (main.safe_str py v) = Ok doc ->
  exists t, main.html_to_text py parser unescape v = Ok t.
Proof.
  intros Hp. unfold main.html_to_text.
  destruct (negb (nonempty (main.safe_str py v))); [ now eexists | ].
  destruct (negb (contains (U "<") (main.safe_str py v))
            && negb (contains (U "&") (main.safe_str py v)));
    [ now eexists | ].
  rewrite Hp. now eexists.
Qed.

Lemma nonempty_strip_clean (t : text) :
  strip t = t -> nonempty t = true -> nonempty (strip t) = true.
Proof. now intros ->. Qed.

(** X10: an article [normalize_article] returns has a title that is not
    empty, has no whitespace around its url, title and meta description,
    and comes from an object whose url (or, failing that, link) is not
    empty. *)
Theorem X10_normalized_article_is_clean :
  forall py parser unescape (obj : dict) (a : main.Article),
    main.normalize_article py parser unescape obj = Returned a ->
    nonempty (main.title a) = true
    /\ strip (main.title a) = main.title a
    /\ strip (main.url a) = main.url a
    /\ strip (main.meta_description a) = main.meta_description a
    /\ main.url a = strip (url_of py obj)
    /\ nonempty (url_of py obj) = true.
Proof.
  intros py parser unescape obj a. unfold main.normalize_article.
  fold (url_of py obj).
  destruct (match get "title" obj with
            | PvDict t => main.html_to_text py parser unescape (get "rendered" t)
            | other => main.html_to_text py parser unescape other
            end) as [title0 | e] eqn:Ht; cbn [lift and_then];
    [ | discriminate ].
  assert (Htitle : strip title0 = title0).
  { destruct (get "title" obj); now apply html_to_text_stripped in Ht. }
  destruct (main.html_to_text py parser unescape (get "meta_description" obj))
    as [meta0 | e]; cbn [lift and_then]; [ | discriminate ].
  destruct (if nonempty meta0 then Returned meta0
            else match get "yoast_head_json" obj with
                 | PvDict yoast =>
                     lift (main.html_to_text py parser unescape
                             (get "description" yoast))
                 | _ => Returned meta0
                 end) as [meta1 | e]; cbn [and_then]; [ | discriminate ].
  destruct (if nonempty meta1 then Returned meta1
            else match get "excerpt" obj with
                 | PvDict excerpt =>
                     lift (main.html_to_text py parser unescape
                             (get "rendered" excerpt))
                 | _ => Returned meta1
                 end) as [meta2 | e]; cbn [and_then]; [ | discriminate ].
  destruct (nonempty (url_of py obj)) eqn:Hurl; cbn [negb];
    [ | discriminate ].
  intros H. injection H as <-.
  cbn [main.title main.url main.meta_description].
  repeat split; try apply strip_idempotent.
  destruct (nonempty title0) eqn:Hn; [ | reflexivity ].
  now rewrite Htitle.
Qed.

Lemma X10_normalized_article_is_clean_witness :
  exists a,
    main.normalize_article stub_builtins plain_parser (fun s => s)
      sample_post = Returned a
    /\ nonempty (main.title a) = true
    /\ strip (main.title a) = main.title a
    /\ strip (main.url a) = main.url a
    /\ strip (main.meta_description a) = main.meta_description a
    /\ main.url a = strip (url_of stub_builtins sample_post)
    /\ nonempty (url_of stub_builtins sample_post) = true.
Proof.
  eexists. split; [ vm_compute; reflexivity | ].
  apply (X10_normalized_article_is_clean stub_builtins plain_parser
           (fun s => s) sample_post).
  vm_compute. reflexivity.
Defined.

(** X11: when [html_to_text] raises on none of the text fields of an
    object (its title, meta description, Yoast description and excerpt),
    which is so when the parser does not raise on them,
    [normalize_article] returns an article if the object has a non-empty
    url or link, and raises ValueError if it has not. *)
Theorem X11_normalize_raises_only_without_url :
  forall py parser unescape (obj : dict),
    (forall v, In v (text_fields obj) ->
               exists t, main.html_to_text py parser unescape v = Ok t) ->
    if nonempty (url_of py obj)
    then exists a, main.normalize_article py parser unescape obj = Returned a
    else main.normalize_article py parser unescape obj = Raised ValueError.
Proof.
  intros py parser unescape obj Hf. unfold main.normalize_article.
  fold (url_of py obj).
  assert (Ht : exists title0,
    match get "title" obj with
    | PvDict t => main.html_to_text py parser unescape (get "rendered" t)
    | other => main.html_to_text py parser unescape other
    end = Ok title0).
  { destruct (Hf _ (or_introl eq_refl)) as [t Ht]. exists t.
    rewrite <- Ht. destruct (get "title" obj); reflexivity. }
  destruct Ht as [title0 ->]. cbn [lift and_then].
  destruct (Hf _ (or_intror (or_introl eq_refl))) as [meta0 ->].
  cbn [lift and_then].
  assert (H1 : exists meta1,
    (if nonempty meta0 then Returned meta0
     else match get "yoast_head_json" obj with
          | PvDict yoast =>
              lift (main.html_to_text py parser unescape
                      (get "description" yoast))
          | _ => Returned meta0
          end) = Returned meta1).
  { destruct (nonempty meta0); [ now eexists | ].
    pose proof (Hf _ (or_intror (or_intror (or_introl eq_refl)))) as H.
    destruct (get "yoast_head_json" obj); try now eexists.
    destruct H as [t ->]. now eexists. }
  destruct H1 as [meta1 ->]. cbn [and_then].
  assert (H2 : exists meta2,
    (if nonempty meta1 then Returned meta1
     else match get "excerpt" obj with
          | PvDict excerpt =>
              lift (main.html_to_text py parser unescape
                      (get "rendered" excerpt))
          | _ => Returned meta1
          end) = Returned meta2).
  { destruct (nonempty meta1); [ now eexists | ].
    pose proof (Hf _ (or_intror (or_intror (or_intror (or_introl eq_refl)))))
      as H.
    destruct (get "excerpt" obj); try now eexists.
    destruct H as [t ->]. now eexists. }
  destruct H2 as [meta2 ->]. cbn [and_then].
  destruct (nonempty (url_of py obj)); cbn [negb]; [ now eexists | reflexivity ].
Qed.

Lemma X11_normalize_raises_only_without_url_witness :
  (forall v, In v (text_fields post_without_link) ->
             exists t,
               main.html_to_text stub_builtins plain_parser (fun s => s) v
               = Ok t)
  /\ main.normalize_article stub_builtins plain_parser (fun s => s)
       post_without_link = Raised ValueError.
Proof.
  assert (Hf : forall v, In v (text_fields post_without_link) ->
                 exists t,
                   main.html_to_text stub_builtins plain_parser (fun s => s) v
                   = Ok t).
  { intros v [<- | [<- | [<- | [<- | []]]]]; eexists; vm_compute; reflexivity. }
  split; [ exact Hf | ].
  exact (X11_normalize_raises_only_without_url stub_builtins plain_parser
           (fun s => s) post_without_link Hf).
Defined.

(** *** Loading a JSON list *)




(** *** The analysis loop *)

Lemma add_extra_base (extras : list string) (k : string) :
  In k reporter.CSV_BASE_HEADER -> reporter.add_extra extras k = extras.
Proof.
  intros H. unfold reporter.add_extra.
  now rewrite (proj2 (has_key_in k reporter.CSV_BASE_HEADER) H).
Qed.

Lemma add_extras_base (keys extras : list string) :
  (forall k, In k keys -> In k reporter.CSV_BASE_HEADER) ->
  fold_left reporter.add_extra keys extras = extras.
Proof.
  revert extras. induction keys as [ | k keys IH]; intros extras H;
    [ reflexivity | ].
  cbn [fold_left]. rewrite add_extra_base by (apply H; now left).
  apply IH. intros k' Hk'. apply H. now right.
Qed.

Lemma compute_header_base (rows : list dict) :
  (forall row k, In row rows -> In k (dict_keys row) ->
     In k reporter.CSV_BASE_HEADER) ->
  reporter._compute_header rows = reporter.CSV_BASE_HEADER.
Proof.
  intros H. unfold reporter._compute_header.
  assert (Hfold : forall extras,
    fold_left
      (fun ex row => fold_left reporter.add_extra (dict_keys row) ex)
      rows extras = extras).
  { induction rows as [ | row rows IH]; intros extras; [ reflexivity | ].
    cbn [fold_left]. rewrite add_extras_base.
    - apply IH. intros row' k Hr Hk. apply (H row' k); [ now right | exact Hk ].
    - intros k Hk. apply (H row k); [ now left | exact Hk ]. }
  rewrite Hfold. apply app_nil_r.
Qed.

Lemma article_row_keys py ucd parser exn_message strict (a : main.Article) :
  forall k,
    In k (dict_keys (main.article_row py ucd parser exn_message strict a)) ->
    In k reporter.CSV_BASE_HEADER.
Proof.
  intros k. unfold main.article_row.
  destruct (analyze_article _ _ _ _ _ _) as [res | ex].
  - intros H.
    apply (Permutation_in k
             (built_row_keys py (PvStr (main.url a)) (PvStr (main.title a))
                res)).
    exact H.
  - cbn. intuition.
Qed.

Lemma article_row_built py ucd parser exn_message strict (a : main.Article) :
  exists r,
    analyze_article ucd parser (PyStr (main.content_html a))
      (PyStr (main.meta_description a)) (PyStr (main.title a)) strict = Ok r
    /\ main.article_row py ucd parser exn_message strict a
       = reporter.build_report_row py (PvStr (main.url a))
           (PvStr (main.title a)) r.
Proof.
  destruct (analyze_article_returns ucd parser
              (PyStr (main.content_html a)) (main.meta_description a)
              (main.title a) strict) as [r Hr].
  exists r. split; [ exact Hr | ].
  unfold main.article_row. now rewrite Hr.
Qed.

(** X13: the loop of [main] gives one row per article, in order; for
    articles with [str] fields no analysis raises, so every row is the
    report row of the article's result and none is an error row; in every
    row the score is the sum of the ten criterion columns; and the CSV
    header computed for these rows is the base header, with no extra
    column. *)
Theorem X13_analysis_loop_rows :
  forall py ucd parser exn_message (strict : bool)
         (articles : list main.Article),
    let rows := main.analysis_rows py ucd parser exn_message strict articles in
    List.length rows = List.length articles
    /\ Forall2
         (fun a row =>
            exists r,
              analyze_article ucd parser (PyStr (main.content_html a))
                (PyStr (main.meta_description a)) (PyStr (main.title a))
                strict = Ok r
              /\ row = reporter.build_report_row py (PvStr (main.url a))
                         (PvStr (main.title a)) r)
         articles rows
    /\ Forall (fun row => row_int "score" row = criteria_sum row) rows
    /\ reporter._compute_header rows = reporter.CSV_BASE_HEADER.
Proof.
  intros py ucd parser exn_message strict articles. cbv zeta.
  unfold main.analysis_rows.
  split; [ apply length_map | ]. split; [ | split ].
  - induction articles as [ | a articles IH]; [ constructor | ].
    cbn [map]. constructor; [ | exact IH ].
    apply article_row_built.
  - apply Forall_forall. intros row Hrow. apply in_map_iff in Hrow.
    destruct Hrow as (a & <- & _).
    destruct (article_row_built py ucd parser exn_message strict a)
      as (r & Hr & ->).
    destruct (analyze_article_invariant _ _ _ _ _ _ _ Hr) as [Hscore _].
    unfold criteria_sum. rewrite built_row_criteria, sum_b2z, <- Hscore.
    reflexivity.
  - apply compute_header_base. intros row k Hrow. apply in_map_iff in Hrow.
    destruct Hrow as (a & <- & _). apply article_row_keys.
Qed.

(** *** Sanitized rows *)

Lemma replace_char_absent (a b : N) (s : text) :
  ~ In a s -> replace_char a b s = s.
Proof.
  induction s as [ | c s IH]; [ reflexivity | ].
  intros H. cbn [replace_char map].
  destruct (c =? a)%N eqn:E.
  - apply N.eqb_eq in E. subst c. elim H. now left.
  - f_equal. apply IH. intros Hin. apply H. now right.
Qed.

Lemma one_line_text_no_break (s : text) :
  ~ In 10%N (strip (replace_char 13 32 (replace_char 10 32 s)))
  /\ ~ In 13%N (strip (replace_char 13 32 (replace_char 10 32 s))).
Proof.
  split; intros H; apply in_strip in H; revert H.
  - apply replace_char_keeps_out; [ discriminate | ].
    apply replace_char_gone. discriminate.
  - apply replace_char_gone. discriminate.
Qed.

(** A text without line breaks and without whitespace around it is a cell
    as it is. *)
Lemma one_line_fixed (t : text) :
  ~ In 10%N t -> ~ In 13%N t -> strip t = t ->
  strip (replace_char 13 32 (replace_char 10 32 t)) = t.
Proof.
  intros H10 H13 Hs.
  rewrite (replace_char_absent 10 32 t H10).
  now rewrite (replace_char_absent 13 32 t H13).
Qed.

Lemma one_line_idempotent (s : text) :
  strip
    (replace_char 13 32
       (replace_char 10 32
          (strip (replace_char 13 32 (replace_char 10 32 s)))))
  = strip (replace_char 13 32 (replace_char 10 32 s)).
Proof.
  destruct (one_line_text_no_break s) as [H10 H13].
  apply one_line_fixed; [ exact H10 | exact H13 | apply strip_idempotent ].
Qed.

Lemma strip_fixed_clean_ends (s : text) : strip s = s <-> clean_ends s.
Proof.
  unfold clean_ends. split.
  - intros H. split.
    + rewrite <- H. apply strip_starts_clean.
    + rewrite <- H. unfold strip, rstrip. rewrite rev_involutive.
      apply lstrip_starts_clean.
  - intros [H1 H2]. unfold strip. rewrite (lstrip_fixed s H1).
    unfold rstrip. rewrite (lstrip_fixed (rev s) H2). apply rev_involutive.
Qed.

Lemma starts_clean_app (a b : text) :
  nonempty a = true -> starts_clean a -> starts_clean (a ++ b).
Proof. destruct a; [ discriminate | intros _ H; exact H ]. Qed.

Lemma join_nonempty (sep p : text) (tl : list text) :
  nonempty p = true -> nonempty (join sep (p :: tl)) = true.
Proof.
  destruct p as [ | c p]; [ discriminate | ]. intros _.
  destruct tl; reflexivity.
Qed.

Lemma join_clean_ends (sep : text) (parts : list text) :
  Forall (fun p => clean_ends p /\ nonempty p = true) parts ->
  clean_ends (join sep parts).
Proof.
  induction 1 as [ | p tl [[Hs He] Hn] Htl IH]; [ split; exact I | ].
  destruct tl as [ | q tl]; [ now split | ].
  change (join sep (p :: q :: tl)) with (p ++ sep ++ join sep (q :: tl)).
  destruct IH as [_ IHe]. split.
  - now apply starts_clean_app.
  - rewrite !rev_app_distr, <- app_assoc. apply starts_clean_app; [ | exact IHe ].
    inversion Htl as [ | x l [_ Hq] _]; subst.
    pose proof (join_nonempty sep q tl Hq) as Hj.
    destruct (join sep (q :: tl)) as [ | c j]; [ discriminate | ].
    cbn [rev]. destruct (rev j); reflexivity.
Qed.

Lemma join_recommendations_stripped py (recs : pv) :
  strip (reporter._join_recommendations py recs)
  = reporter._join_recommendations py recs.
Proof.
  unfold reporter._join_recommendations.
  destruct (negb (pv_truthy recs)); [ reflexivity | ].
  assert (Hone : forall v,
            strip (reporter.one_line py v) = reporter.one_line py v)
    by (intros v; apply strip_idempotent).
  destruct recs; try apply Hone.
  apply strip_fixed_clean_ends, join_clean_ends.
  apply Forall_forall. intros p Hp. apply filter_In in Hp.
  destruct Hp as [Hp Hn]. split; [ | exact Hn ].
  apply in_map_iff in Hp. destruct Hp as (v & <- & _).
  apply strip_fixed_clean_ends, Hone.
Qed.

Ltac sanitize_known py :=
  repeat match goal with
  | |- context [html_reporter._safe_str py (PvStr ?s)] =>
      change (html_reporter._safe_str py (PvStr s)) with s
  | |- context [html_reporter._safe_int py (PvInt ?z) ?d] =>
      change (html_reporter._safe_int py (PvInt z) d) with z
  end.

(** Looks up the columns of a row that is written out. *)
Ltac literal_gets :=
  cbv [get dict_get String.eqb Ascii.eqb Bool.eqb].

Lemma sanitize_idempotent py (row : dict) :
  html_reporter._sanitize_row py (html_reporter._sanitize_row py row)
  = html_reporter._sanitize_row py row.
Proof.
  unfold html_reporter._sanitize_row.
  cbn [map html_reporter.CRITERIA app].
  repeat match goal with
  | |- context [get ?k row] => generalize (get k row); intro
  end.
  literal_gets. unfold html_reporter.one_line. sanitize_known py.
  rewrite !strip_idempotent, one_line_idempotent.
  reflexivity.
Qed.

(** X14: sanitizing a row a second time changes nothing, and a sanitized
    row has the nineteen columns of the report in a fixed order. *)
Theorem X14_sanitize_row_is_idempotent :
  forall py (row : dict),
    html_reporter._sanitize_row py (html_reporter._sanitize_row py row)
    = html_reporter._sanitize_row py row
    /\ dict_keys (html_reporter._sanitize_row py row)
       = ["url"; "title"; "score"]%string ++ html_reporter.CRITERIA
         ++ ["word_count"; "h2_count"; "list_count"; "table_count";
             "meta_len"; "recommendations"]%string.
Proof.
  intros py row. split; [ apply sanitize_idempotent | reflexivity ].
Qed.

Lemma sanitize_built_row py (url title : pv) (r : AuditResult) :
  html_reporter._sanitize_row py (reporter.build_report_row py url title r)
  = reporter.build_report_row py url title r.
Proof.
  unfold html_reporter._sanitize_row, reporter.build_report_row.
  cbn [map html_reporter.CRITERIA app].
  literal_gets. unfold html_reporter.one_line. sanitize_known py.
  rewrite !strip_idempotent.
  rewrite one_line_fixed.
  - reflexivity.
  - apply join_recommendations_one_line. now left.
  - apply join_recommendations_one_line. now right.
  - apply join_recommendations_stripped.
Qed.

(** X15: the HTML report shows the row the CSV report gets: sanitizing a
    row built by [build_report_row] gives back the same row, column by
    column and in the same order. *)
Theorem X15_sanitize_keeps_built_rows :
  forall py (url title : pv) (r : AuditResult),
    html_reporter._sanitize_row py (reporter.build_report_row py url title r)
    = reporter.build_report_row py url title r.
Proof. exact sanitize_built_row. Qed.

(** *** The default sort of the HTML report *)

Lemma text_ltb_asym (a : text) :
  forall b, text_ltb a b = true -> text_ltb b a = false.
Proof.
  induction a as [ | x a IH]; intros b; destruct b as [ | y b]; cbn [text_ltb];
    try reflexivity; try discriminate.
  intros H. apply orb_true_iff in H. apply orb_false_iff.
  destruct H as [H | H].
  - apply N.ltb_lt in H. split.
    + apply N.ltb_ge. lia.
    + apply andb_false_iff. left. apply N.eqb_neq. lia.
  - apply andb_true_iff in H. destruct H as [E H]. apply N.eqb_eq in E.
    subst y. split.
    + apply N.ltb_irrefl.
    + rewrite N.eqb_refl. cbn [andb]. now apply IH.
Qed.

Lemma text_ltb_cotrans (c : text) :
  forall b a,
    text_ltb c a = true -> text_ltb c b = true \/ text_ltb b a = true.
Proof.
  induction c as [ | x c IH]; intros b a; destruct a as [ | z a];
    cbn [text_ltb]; try discriminate.
  - intros _. destruct b as [ | y b]; [ now right | now left ].
  - destruct b as [ | y b]; [ intros _; now right | ].
    cbn [text_ltb]. intros H. apply orb_true_iff in H.
    destruct (N.lt_trichotomy x y) as [Hxy | [Hxy | Hxy]].
    + left. apply orb_true_iff. left. now apply N.ltb_lt.
    + subst y. destruct H as [H | H].
      * right. apply orb_true_iff. now left.
      * apply andb_true_iff in H. destruct H as [E H].
        rewrite N.ltb_irrefl, N.eqb_refl. cbn [orb andb].
        rewrite E. cbn [andb]. rewrite !orb_true_iff.
        destruct (IH b a H) as [Hl | Hr]; [ now left | right; now right ].
    + right. apply orb_true_iff. left. apply N.ltb_lt.
      destruct H as [H | H].
      * apply N.ltb_lt in H. lia.
      * apply andb_true_iff in H. destruct H as [E _].
        apply N.eqb_eq in E. lia.
Qed.

Lemma key_ltb_asym (a b : Z * text) :
  key_ltb a b = true -> key_ltb b a = false.
Proof.
  unfold key_ltb. intros H. apply orb_true_iff in H. apply orb_false_iff.
  destruct H as [H | H].
  - apply Z.ltb_lt in H. split.
    + apply Z.ltb_ge. lia.
    + apply andb_false_iff. left. apply Z.eqb_neq. lia.
  - apply andb_true_iff in H. destruct H as [E H]. apply Z.eqb_eq in E.
    rewrite E. split.
    + apply Z.ltb_irrefl.
    + rewrite Z.eqb_refl. cbn [andb]. now apply text_ltb_asym.
Qed.

Lemma key_ltb_cotrans (c b a : Z * text) :
  key_ltb c a = true -> key_ltb c b = true \/ key_ltb b a = true.
Proof.
  unfold key_ltb. intros H. apply orb_true_iff in H.
  destruct (Z.lt_trichotomy (fst c) (fst b)) as [Hcb | [Hcb | Hcb]].
  - left. apply orb_true_iff. left. now apply Z.ltb_lt.
  - rewrite Hcb in *. destruct H as [H | H].
    + right. apply orb_true_iff. now left.
    + apply andb_true_iff in H. destruct H as [E H].
      rewrite Z.ltb_irrefl, Z.eqb_refl, E. cbn [orb andb].
      rewrite !orb_true_iff.
      destruct (text_ltb_cotrans (snd c) (snd b) (snd a) H) as [Hl | Hr];
        [ now left | right; now right ].
  - right. apply orb_true_iff. left. apply Z.ltb_lt.
    destruct H as [H | H].
    + apply Z.ltb_lt in H. lia.
    + apply andb_true_iff in H. destruct H as [E _].
      apply Z.eqb_eq in E. lia.
Qed.

Lemma insert_row_perm py ucd (x : dict) (l : list dict) :
  Permutation (html_reporter.insert_row py ucd x l) (x :: l).
Proof.
  induction l as [ | y l IH]; [ apply Permutation_refl | ].
  cbn [html_reporter.insert_row].
  destruct (key_ltb _ _); [ | apply Permutation_refl ].
  apply perm_trans with (y :: x :: l); [ now apply perm_skip | apply perm_swap ].
Qed.

Lemma sort_rows_perm py ucd (data : list dict) :
  Permutation (html_reporter.sort_rows py ucd data) data.
Proof.
  unfold html_reporter.sort_rows.
  induction data as [ | x data IH]; [ apply Permutation_refl | ].
  cbn [fold_right].
  apply perm_trans with (x :: fold_right (html_reporter.insert_row py ucd) [] data).
  - apply insert_row_perm.
  - now apply perm_skip.
Qed.

Lemma insert_row_sorted py ucd (x : dict) (l : list dict) :
  StronglySorted (key_ordered py ucd) l ->
  StronglySorted (key_ordered py ucd) (html_reporter.insert_row py ucd x l).
Proof.
  induction 1 as [ | y l Hl IH Hy]; cbn [html_reporter.insert_row].
  - constructor; [ constructor | constructor ].
  - destruct (key_ltb (html_reporter.sort_key py ucd y)
                (html_reporter.sort_key py ucd x)) eqn:Hyx.
    + constructor; [ exact IH | ].
      apply (Permutation_Forall (Permutation_sym (insert_row_perm py ucd x l))).
      constructor; [ | exact Hy ].
      unfold key_ordered. now apply key_ltb_asym.
    + constructor; [ now constructor | ].
      constructor; [ exact Hyx | ].
      apply Forall_forall. intros z Hz.
      rewrite Forall_forall in Hy. specialize (Hy z Hz).
      unfold key_ordered in *.
      destruct (key_ltb (html_reporter.sort_key py ucd z)
                  (html_reporter.sort_key py ucd x)) eqn:Hzx;
        [ | reflexivity ].
      destruct (key_ltb_cotrans _ (html_reporter.sort_key py ucd y) _ Hzx);
        congruence.
Qed.

Lemma sort_rows_sorted py ucd (data : list dict) :
  StronglySorted (key_ordered py ucd) (html_reporter.sort_rows py ucd data).
Proof.
  unfold html_reporter.sort_rows.
  induction data as [ | x data IH]; [ constructor | ].
  cbn [fold_right]. now apply insert_row_sorted.
Qed.

Lemma key_ordered_scores py ucd (a b : dict) :
  key_ordered py ucd a b -> score_ordered py a b.
Proof.
  unfold key_ordered, score_ordered, key_ltb, html_reporter.sort_key.
  cbn [fst snd]. intros H. apply orb_false_iff in H. destruct H as [H _].
  apply Z.ltb_ge in H. lia.
Qed.

Lemma sorted_scores py ucd (l : list dict) :
  StronglySorted (key_ordered py ucd) l ->
  StronglySorted (score_ordered py) l.
Proof.
  induction 1 as [ | y l Hl IH Hy]; constructor; [ exact IH | ].
  apply (Forall_impl _ (key_ordered_scores py ucd y) Hy).
Qed.

(** X16: the rows of the HTML report are the sanitized rows in another
    order, as many as were given; no row comes after a row with a greater
    sort key (score descending, then lowercased title ascending), so no
    row comes after a row with a lower score. *)
Theorem X16_report_rows_sorted_permutation :
  forall py ucd (rows : list dict),
    let out := html_reporter.report_rows py ucd rows in
    Permutation out (map (html_reporter._sanitize_row py) rows)
    /\ List.length out = List.length rows
    /\ StronglySorted (key_ordered py ucd) out
    /\ StronglySorted (score_ordered py) out.
Proof.
  intros py ucd rows. cbv zeta. unfold html_reporter.report_rows.
  pose proof (sort_rows_perm py ucd (map (html_reporter._sanitize_row py) rows))
    as Hperm.
  split; [ exact Hperm | ]. split; [ | split ].
  - rewrite (Permutation_length Hperm). apply length_map.
  - apply sort_rows_sorted.
  - apply (sorted_scores py ucd), sort_rows_sorted.
Qed.

(** *** When parsing raises *)

Lemma document_of_raise parser content_html e :
  parser (_safe_str content_html) = Raise e ->
  document_of parser content_html = empty_soup.
Proof.
  intros H. unfold document_of, _html_to_soup. now rewrite H.
Qed.

Lemma document_of_ok parser content_html parsed :
  parser (_safe_str content_html) = Ok parsed ->
  document_of parser content_html = _strip_noise parsed.
Proof.
  intros H. unfold document_of, _html_to_soup. now rewrite H.
Qed.

(** X18: when the HTML parser raises, the article is analysed as an empty
    document: the nine verdicts other than meta_ok are false, the score is
    1 or 0 as the meta description passes or not, and the meta check is
    the one of the description given. *)
Theorem X18_parse_failure_scores_meta_only :
  forall ucd parser content_html (meta_description title : text) strict e,
    parser (_safe_str content_html) = Raise e ->
    exists r,
      analyze_article ucd parser content_html (PyStr meta_description)
        (PyStr title) strict = Ok r
      /\ content_verdicts r
         = [false; false; false; false; false; false; false; false; false]
      /\ score r = (if meta_ok r then 1 else 0)
      /\ check_meta_description (PyStr meta_description) 120 160
         = Ok (meta_ok r, d_meta_ok (audit_details r)).
Proof.
  intros ucd parser content_html meta title strict e He.
  unfold analyze_article.
  change (match _html_to_soup parser content_html with
          | Ok s => s
          | Raise _ => empty_soup
          end) with (document_of parser content_html).
  rewrite (document_of_raise parser content_html e He).
  change (_plain_text_from_soup empty_soup) with ([] : text).
  rewrite check_definition_empty.
  destruct (check_meta_description_str meta 120 160) as (b & d & Hm).
  rewrite Hm.
  destruct strict, b; eexists;
    (split; [ reflexivity | repeat split; reflexivity ]).
Qed.

Lemma X18_parse_failure_scores_meta_only_witness :
  plain_parser (_safe_str (PyStr markup_html)) = Raise (ParserError "markup")
  /\ exists r,
       analyze_article basic_db plain_parser (PyStr markup_html)
         (PyStr (U "Kreatín")) (PyStr (U "Kreatín")) false = Ok r
       /\ content_verdicts r
          = [false; false; false; false; false; false; false; false; false]
       /\ score r = (if meta_ok r then 1 else 0)
       /\ check_meta_description (PyStr (U "Kreatín")) 120 160
          = Ok (meta_ok r, d_meta_ok (audit_details r)).
Proof.
  split; [ vm_compute; reflexivity | ].
  apply (X18_parse_failure_scores_meta_only basic_db plain_parser
           (PyStr markup_html) (U "Kreatín") (U "Kreatín") false
           (ParserError "markup")).
  vm_compute. reflexivity.
Defined.

(** *** Metrics and noise *)

(** X19: when the parser returns a document, the word count of the result
    is the sum of the word counts of the strings that are not below a
    noise tag, and the heading, list and table counts are at most the
    numbers of h2, ul and ol, and table tags of the parsed document. *)
Theorem X19_metrics_ignore_noise :
  forall ucd parser content_html parsed (meta_description title : text) strict,
    parser (_safe_str content_html) = Ok parsed ->
    exists r,
      analyze_article ucd parser content_html (PyStr meta_description)
        (PyStr title) strict = Ok r
      /\ word_count (d_word_count_ok (audit_details r))
         = list_sum (map (_count_words ucd) (content_strings parsed))
      /\ h2_count (d_headings (audit_details r))
         <= List.length (find_all (by_name (U "h2")) parsed)
      /\ list_count (d_lists (audit_details r))
         <= List.length (find_all (by_name (U "ul")) parsed)
            + List.length (find_all (by_name (U "ol")) parsed)
      /\ table_count (d_tables (audit_details r))
         <= List.length (find_all (by_name (U "table")) parsed).
Proof.
  intros ucd parser content_html parsed meta title strict Hp.
  destruct (analyze_article_returns ucd parser content_html meta title strict)
    as [r Hr].
  exists r. split; [ exact Hr | ].
  apply analyze_article_checks in Hr. cbv zeta in Hr.
  rewrite (document_of_ok parser content_html parsed Hp) in Hr.
  destruct Hr as (_ & _ & Hh & _ & _ & _ & Hl & Ht & Hw & _).
  unfold check_h2_headings in Hh. injection Hh as _ Hh.
  unfold check_lists in Hl. injection Hl as _ Hl.
  unfold check_tables in Ht. injection Ht as _ Ht.
  unfold check_word_count in Hw. injection Hw as _ Hw.
  rewrite <- Hh, <- Hl, <- Ht, <- Hw.
  cbn [word_count h2_count list_count table_count].
  split; [ | split; [ | split ] ].
  - rewrite count_words_sum. unfold content_strings, stripped_strings.
    now rewrite strip_noise_decompose, strings_decomposed.
  - rewrite strip_noise_decompose. apply find_all_decomposed_le.
  - rewrite strip_noise_decompose.
    pose proof (find_all_decomposed_le (by_name (U "ul")) noise_selector parsed).
    pose proof (find_all_decomposed_le (by_name (U "ol")) noise_selector parsed).
    lia.
  - rewrite strip_noise_decompose. apply find_all_decomposed_le.
Qed.

Lemma X19_metrics_ignore_noise_witness :
  plain_parser (_safe_str (PyStr (U "Kreatín je doplnok")))
  = Ok [Str NavigableString (U "Kreatín je doplnok")]
  /\ exists r,
       analyze_article basic_db plain_parser (PyStr (U "Kreatín je doplnok"))
         (PyStr []) (PyStr []) false = Ok r
       /\ word_count (d_word_count_ok (audit_details r))
          = list_sum (map (_count_words basic_db)
                        (content_strings
                           [Str NavigableString (U "Kreatín je doplnok")]))
       /\ h2_count (d_headings (audit_details r))
          <= List.length
               (find_all (by_name (U "h2"))
                  [Str NavigableString (U "Kreatín je doplnok")])
       /\ list_count (d_lists (audit_details r))
          <= List.length
               (find_all (by_name (U "ul"))
                  [Str NavigableString (U "Kreatín je doplnok")])
             + List.length
                 (find_all (by_name (U "ol"))
                    [Str NavigableString (U "Kreatín je doplnok")])
       /\ table_count (d_tables (audit_details r))
          <= List.length
               (find_all (by_name (U "table"))
                  [Str NavigableString (U "Kreatín je doplnok")]).
Proof.
  split; [ vm_compute; reflexivity | ].
  apply (X19_metrics_ignore_noise basic_db plain_parser
           (PyStr (U "Kreatín je doplnok"))
           [Str NavigableString (U "Kreatín je doplnok")] [] [] false).
  vm_compute. reflexivity.
Defined.

(** *** What a passed definition check reports *)

Lemma group0_inside (window : text) (m : rematch) :
  exists pre post, window = pre ++ group0 window m ++ post.
Proof.
  unfold group0, substr.
  exists (firstn (m_start m) window),
         (skipn (m_end m - m_start m) (skipn (m_start m) window)).
  now rewrite !firstn_skipn.
Qed.

(** X17: when the definition check passes, the term it reports is not
    empty and is not a stopword; in strict mode with a title the lowercased
    term occurs in the lowercased title; and the reported match is a piece
    of the window of the stripped text. *)
Theorem X17_definition_evidence :
  forall ucd (plain title : text) (strict : bool) (window : Z)
         (d : definition_details),
    check_definition ucd plain (PyStr title) strict window = Ok (true, d) ->
    nonempty (term d) = true
    /\ existsb (text_eqb (str_lower ucd (term d))) DEFINITION_STOPWORDS = false
    /\ (strict = true ->
        nonempty (strip (str_lower ucd title)) = true ->
        contains (str_lower ucd (term d)) (strip (str_lower ucd title)) = true)
    /\ exists pre post,
         firstn (Z.to_nat (Z.max 0 window)) (strip plain)
         = pre ++ definition_match d ++ post.
Proof.
  intros ucd plain title strict window d.
  rewrite check_definition_on_str. cbv zeta.
  destruct (List.find _ _) as [m | ] eqn:Hfind; [ | discriminate ].
  intros H. injection H as <-. cbn [term definition_match].
  apply find_some in Hfind. destruct Hfind as [_ Hacc].
  unfold definition_accepts in Hacc.
  apply andb_true_iff in Hacc. destruct Hacc as [Hacc Hstrict].
  apply andb_true_iff in Hacc. destruct Hacc as [Hne Hstop].
  apply negb_true_iff in Hstop.
  split; [ exact Hne | ]. split; [ exact Hstop | ]. split.
  - intros -> Ht. rewrite Ht in Hstrict. cbn [andb] in Hstrict.
    apply negb_true_iff in Hstrict. now apply negb_false_iff in Hstrict.
  - apply group0_inside.
Qed.

Lemma X17_definition_evidence_witness :
  exists d,
    check_definition basic_db kreatin_text (PyStr (U "Kreatín")) true 1200
    = Ok (true, d)
    /\ nonempty (term d) = true
    /\ existsb (text_eqb (str_lower basic_db (term d))) DEFINITION_STOPWORDS
       = false
    /\ (true = true ->
        nonempty (strip (str_lower basic_db (U "Kreatín"))) = true ->
        contains (str_lower basic_db (term d))
          (strip (str_lower basic_db (U "Kreatín"))) = true)
    /\ exists pre post,
         firstn (Z.to_nat (Z.max 0 1200)) (strip kreatin_text)
         = pre ++ definition_match d ++ post.
Proof.
  eexists. split; [ vm_compute; reflexivity | ].
  apply (X17_definition_evidence basic_db kreatin_text (U "Kreatín") true
           1200%Z).
  vm_compute. reflexivity.
Defined.

End MoreProperties.
